(** * Boxing game: hand depth tracker and grid classifier

    A shallow embedding of [depthSensor.js] (module [DepthSensor]) and of the
    three versions of the stance classifier of [camera.js] (the 3x2 grid, the
    4x4 grid and the 4x6 grid), with the properties of the specification
    stated over them; then of what the camera module does with a frame
    ([onResults], the grid highlights and the position text) and of the
    stance table of the 2D renderer ([BoxingGame]), with further properties
    read off the code.

    JavaScript numbers are IEEE 754 binary64 values: they are Rocq's primitive
    floats.  Times ([Date.now()]) and grid indices are integers.  Arrays and
    object literals live in a heap, so that the sharing between the tracker's
    state and the snapshots it hands out is visible. *)

From Stdlib Require Import ZArith Uint63 Floats Lia Bool.
From stdpp Require Import base option list gmap strings.

Local Set Warnings "-inexact-float".

(** ** JavaScript values *)

Module Js.

(** A property read on [undefined] raises a [TypeError]. *)
Inductive result (A : Type) : Type :=
| Ok (a : A)
| TypeError.
Arguments Ok {A} a.
Arguments TypeError {A}.

Definition bind {A B : Type} (m : result A) (k : A -> result B) : result B :=
  match m with
  | Ok a => k a
  | TypeError => TypeError
  end.

(** [a[i]] followed by a property read. *)
Definition at_index {A : Type} (a : list A) (i : nat) : result A :=
  match a !! i with
  | Some v => Ok v
  | None => TypeError
  end.

(** The falsy numbers are NaN, 0 and -0. *)
Definition falsy (v : float) : bool := is_nan v || is_zero v.

(** [v || 0], where [None] is a missing property ([undefined]). *)
Definition or_zero (v : option float) : float :=
  match v with
  | Some f => if falsy f then 0%float else f
  | None => 0%float
  end.

(** [Math.min(a, b)]. *)
Definition Math_min (a b : float) : float :=
  if is_nan a || is_nan b then nan
  else if (a <? b)%float then a
  else if (b <? a)%float then b
  else if get_sign a then a else b.

Definition Math_abs (a : float) : float := abs a.
Definition Math_sqrt (a : float) : float := sqrt a.

(** [Math.pow(a, 2)]. *)
Definition Math_pow2 (a : float) : float := (a * a)%float.

(** A small non-negative integer constant used as a number. *)
Definition of_int (n : Z) : float := of_uint63 (Uint63.of_Z n).

(** [Math.max(lo, Math.min(hi, Math.floor(v)))] for integers [lo <= hi];
    the result is an integer, or NaN when [v] is. *)
Inductive num : Type :=
| Int (n : Z)
| NaN.

Definition floor_clamp (lo hi : Z) (v : float) : num :=
  match Prim2SF v with
  | S754_nan => NaN
  | S754_zero _ => Int (Z.max lo (Z.min hi 0))
  | S754_infinity s => Int (if s then lo else hi)
  | S754_finite s m e =>
      Int (Z.max lo (Z.min hi (Z.shiftl (if s then Z.neg m else Z.pos m) e)))
  end.

(** [n === k], [n <= k], [n >= k] and [Math.floor(n / 2)] on such a
    number (false on NaN). *)
Definition num_eq (n : num) (k : Z) : bool :=
  match n with Int z => (z =? k)%Z | NaN => false end.
Definition num_le (n : num) (k : Z) : bool :=
  match n with Int z => (z <=? k)%Z | NaN => false end.
Definition num_ge (n : num) (k : Z) : bool :=
  match n with Int z => (k <=? z)%Z | NaN => false end.
Definition floor_half (n : num) : num :=
  match n with Int z => Int (z / 2) | NaN => NaN end.

End Js.
Import Js.

#[global] Instance result_bind : MBind result := fun A B k m => Js.bind m k.
#[global] Instance result_ret : MRet result := fun A a => Ok a.

(** ** Landmarks and results of the hand detector *)

(** A landmark [{x, y, z}]; [z] may be missing. *)
Record Landmark : Type := mkLandmark {
  lm_x : float;
  lm_y : float;
  lm_z : option float
}.

(** One detected hand: [results.multiHandLandmarks[i]] and the label of
    [results.multiHandedness[i]]. *)
Record Hand : Type := mkHand {
  landmarks_of : list Landmark;
  label : string
}.

(** The hands of one frame; the empty list also stands for a result without
    [multiHandLandmarks] or [multiHandedness]. *)
Definition Results : Type := list Hand.

(** ** depthSensor.js *)

Module DepthSensor.

Local Open Scope float_scope.

Definition REFERENCE_HAND_SIZE : float := 0.15.
Definition DEPTH_SMOOTHING : float := 0.7.
Definition VELOCITY_THRESHOLD : float := 0.006.
Definition PUNCH_COOLDOWN : Z := 80.

(** *** The heap: arrays and [{x, y, z}] objects, by reference *)

Definition loc : Type := nat.

Record Position : Type := mkPosition {
  pos_x : float;
  pos_y : float;
  pos_z : float
}.

Record Heap : Type := mkHeap {
  arrays : gmap nat (list float);
  objects : gmap nat Position;
  next : nat
}.

Definition empty_heap : Heap :=
  {| arrays := ∅; objects := ∅; next := 0%nat |}.

Definition alloc_array (a : list float) (h : Heap) : loc * Heap :=
  (next h, {| arrays := <[next h := a]> (arrays h);
              objects := objects h;
              next := S (next h) |}).

Definition alloc_object (p : Position) (h : Heap) : loc * Heap :=
  (next h, {| arrays := arrays h;
              objects := <[next h := p]> (objects h);
              next := S (next h) |}).

Definition array_get (l : loc) (h : Heap) : list float :=
  default [] (arrays h !! l).

Definition array_set (l : loc) (a : list float) (h : Heap) : Heap :=
  {| arrays := <[l := a]> (arrays h);
     objects := objects h;
     next := next h |}.

Definition object_get (l : loc) (h : Heap) : Position :=
  default (mkPosition nan nan nan) (objects h !! l).

Definition object_set (l : loc) (p : Position) (h : Heap) : Heap :=
  {| arrays := arrays h;
     objects := <[l := p]> (objects h);
     next := next h |}.

(** [a.push(v)] and [a.shift()]. *)
Definition array_push (l : loc) (v : float) (h : Heap) : Heap :=
  array_set l (array_get l h ++ [v]) h.

Definition array_shift (l : loc) (h : Heap) : Heap :=
  array_set l (tail (array_get l h)) h.

(** [a[i]] read as a number: [undefined] out of range. *)
Definition array_nth (a : list float) (i : nat) : float :=
  default nan (a !! i).

(** *** The state of one hand *)

Record HandState : Type := mkHandState {
  depth : float;
  smoothedDepth : float;
  rawPalmZ : float;
  scaleDepth : float;
  rawCombinedDepth : float;
  depthHistory : loc;
  velocityHistory : loc;
  historyMaxLength : nat;
  velocityHistoryMaxLength : nat;
  velocity : float;
  scale : float;
  isPunching : bool;
  punchStartTime : Z;
  lastPunchTime : Z;
  punchPower : float;
  position : loc;
  isFist : bool
}.

Definition createHandState (h : Heap) : HandState * Heap :=
  let '(dh, h) := alloc_array [] h in
  let '(vh, h) := alloc_array [] h in
  let '(p, h) := alloc_object (mkPosition 0 0 0) h in
  ({| depth := 0;
      smoothedDepth := 0;
      rawPalmZ := 0;
      scaleDepth := 0;
      rawCombinedDepth := 0;
      depthHistory := dh;
      velocityHistory := vh;
      historyMaxLength := 5;
      velocityHistoryMaxLength := 50;
      velocity := 0;
      scale := REFERENCE_HAND_SIZE;
      isPunching := false;
      punchStartTime := 0;
      lastPunchTime := 0;
      punchPower := 0;
      position := p;
      isFist := false |}, h).

(** *** Measurements on one frame *)

Definition calculateHandScale (landmarks : list Landmark) : result float :=
  middleMCP ← at_index landmarks 9;
  wrist ← at_index landmarks 0;
  let dx := lm_x middleMCP - lm_x wrist in
  let dy := lm_y middleMCP - lm_y wrist in
  let dz := or_zero (lm_z middleMCP) - or_zero (lm_z wrist) in
  Ok (Math_sqrt (dx * dx + dy * dy + dz * dz)).

Definition palmIndices : list nat := [0; 1; 5; 9; 13; 17]%nat.

Fixpoint sum_palm (landmarks : list Landmark) (idxs : list nat)
    (totalZ : float) : result float :=
  match idxs with
  | [] => Ok totalZ
  | idx :: rest =>
      lm ← at_index landmarks idx;
      sum_palm landmarks rest (totalZ + or_zero (lm_z lm))
  end.

Definition calculatePalmDepth (landmarks : list Landmark) : result float :=
  totalZ ← sum_palm landmarks palmIndices 0;
  Ok (totalZ / 6).

Definition calculateHandCenter (landmarks : list Landmark)
    : result Position :=
  wrist ← at_index landmarks 0;
  indexMCP ← at_index landmarks 5;
  pinkyMCP ← at_index landmarks 17;
  Ok {| pos_x := (lm_x wrist + lm_x indexMCP + lm_x pinkyMCP) / 3;
        pos_y := (lm_y wrist + lm_y indexMCP + lm_y pinkyMCP) / 3;
        pos_z := (or_zero (lm_z wrist) + or_zero (lm_z indexMCP)
                  + or_zero (lm_z pinkyMCP)) / 3 |}.

Definition fingerTips : list nat := [8; 12; 16; 20]%nat.
Definition fingerMCPs : list nat := [5; 9; 13; 17]%nat.

(** The loop of [detectFist] over the four (tip, MCP) pairs. *)
Fixpoint count_curled (landmarks : list Landmark) (fingers : list (nat * nat))
    (curledFingers : nat) : result nat :=
  match fingers with
  | [] => Ok curledFingers
  | (tipIdx, mcpIdx) :: rest =>
      tip ← at_index landmarks tipIdx;
      wrist ← at_index landmarks 0;
      mcp ← at_index landmarks mcpIdx;
      let tipToWrist :=
        Math_sqrt (Math_pow2 (lm_x tip - lm_x wrist)
                   + Math_pow2 (lm_y tip - lm_y wrist)) in
      let mcpToWrist :=
        Math_sqrt (Math_pow2 (lm_x mcp - lm_x wrist)
                   + Math_pow2 (lm_y mcp - lm_y wrist)) in
      count_curled landmarks rest
        (if tipToWrist <? mcpToWrist * 1.3 then S curledFingers
         else curledFingers)
  end.

Definition detectFist (landmarks : list Landmark) : result bool :=
  curledFingers ← count_curled landmarks (zip fingerTips fingerMCPs) 0%nat;
  Ok (3 <=? curledFingers)%nat.

(** *** Punch events *)

Record PunchEvent : Type := mkPunchEvent {
  ev_hand : string;
  ev_power : float;
  ev_position : Position;
  ev_velocity : float;
  ev_isFist : bool
}.

(** *** Field updates of a hand state (the object is mutated in place) *)

(** The assignments of [processHand] from [rawPalmZ] down to [depth]. *)
Definition set_measurements (handState : HandState)
    (palmDepth scaleDepth' rawDepth smoothed velocity' handScale : float)
    (position' : loc) : HandState :=
  {| depth := smoothed;
     smoothedDepth := smoothed;
     rawPalmZ := palmDepth;
     scaleDepth := scaleDepth';
     rawCombinedDepth := rawDepth;
     depthHistory := depthHistory handState;
     velocityHistory := velocityHistory handState;
     historyMaxLength := historyMaxLength handState;
     velocityHistoryMaxLength := velocityHistoryMaxLength handState;
     velocity := velocity';
     scale := handScale;
     isPunching := isPunching handState;
     punchStartTime := punchStartTime handState;
     lastPunchTime := lastPunchTime handState;
     punchPower := punchPower handState;
     position := position';
     isFist := isFist handState |}.

Definition set_isFist (handState : HandState) (fist : bool) : HandState :=
  {| depth := depth handState;
     smoothedDepth := smoothedDepth handState;
     rawPalmZ := rawPalmZ handState;
     scaleDepth := scaleDepth handState;
     rawCombinedDepth := rawCombinedDepth handState;
     depthHistory := depthHistory handState;
     velocityHistory := velocityHistory handState;
     historyMaxLength := historyMaxLength handState;
     velocityHistoryMaxLength := velocityHistoryMaxLength handState;
     velocity := velocity handState;
     scale := scale handState;
     isPunching := isPunching handState;
     punchStartTime := punchStartTime handState;
     lastPunchTime := lastPunchTime handState;
     punchPower := punchPower handState;
     position := position handState;
     isFist := fist |}.

(** [isPunching = true; punchStartTime = now; punchPower = power]. *)
Definition set_punch_started (handState : HandState) (now : Z)
    (power : float) : HandState :=
  {| depth := depth handState;
     smoothedDepth := smoothedDepth handState;
     rawPalmZ := rawPalmZ handState;
     scaleDepth := scaleDepth handState;
     rawCombinedDepth := rawCombinedDepth handState;
     depthHistory := depthHistory handState;
     velocityHistory := velocityHistory handState;
     historyMaxLength := historyMaxLength handState;
     velocityHistoryMaxLength := velocityHistoryMaxLength handState;
     velocity := velocity handState;
     scale := scale handState;
     isPunching := true;
     punchStartTime := now;
     lastPunchTime := lastPunchTime handState;
     punchPower := power;
     position := position handState;
     isFist := isFist handState |}.

(** [isPunching = false; lastPunchTime = now]. *)
Definition set_punch_ended (handState : HandState) (now : Z) : HandState :=
  {| depth := depth handState;
     smoothedDepth := smoothedDepth handState;
     rawPalmZ := rawPalmZ handState;
     scaleDepth := scaleDepth handState;
     rawCombinedDepth := rawCombinedDepth handState;
     depthHistory := depthHistory handState;
     velocityHistory := velocityHistory handState;
     historyMaxLength := historyMaxLength handState;
     velocityHistoryMaxLength := velocityHistoryMaxLength handState;
     velocity := velocity handState;
     scale := scale handState;
     isPunching := false;
     punchStartTime := punchStartTime handState;
     lastPunchTime := now;
     punchPower := punchPower handState;
     position := position handState;
     isFist := isFist handState |}.

(** [depth *= 0.9; velocity *= 0.8; isPunching = false]. *)
Definition decay (handState : HandState) : HandState :=
  {| depth := depth handState * 0.9;
     smoothedDepth := smoothedDepth handState;
     rawPalmZ := rawPalmZ handState;
     scaleDepth := scaleDepth handState;
     rawCombinedDepth := rawCombinedDepth handState;
     depthHistory := depthHistory handState;
     velocityHistory := velocityHistory handState;
     historyMaxLength := historyMaxLength handState;
     velocityHistoryMaxLength := velocityHistoryMaxLength handState;
     velocity := velocity handState * 0.8;
     scale := scale handState;
     isPunching := false;
     punchStartTime := punchStartTime handState;
     lastPunchTime := lastPunchTime handState;
     punchPower := punchPower handState;
     position := position handState;
     isFist := isFist handState |}.

(** *** processHand

    [now] is the value [Date.now()] returns in this call and
    [onPunchDetected] tells whether a callback is registered; the events are
    the calls made to it.  The hand state and the heap are returned as the
    call leaves them, also when it throws: [handState] is mutated in place,
    and [detectFist] runs after the histories have been updated. *)
Definition processHand (landmarks : list Landmark) (handState : HandState)
    (handName : string) (now : Z) (onPunchDetected : bool) (h : Heap)
    : Heap * HandState * result (list PunchEvent) :=
  match calculatePalmDepth landmarks with
  | TypeError => (h, handState, TypeError)
  | Ok palmDepth =>
  match calculateHandScale landmarks with
  | TypeError => (h, handState, TypeError)
  | Ok handScale =>
  match calculateHandCenter landmarks with
  | TypeError => (h, handState, TypeError)
  | Ok center =>
    let '(position', h) := alloc_object center h in
    let scaleDepth' :=
      - (handScale - REFERENCE_HAND_SIZE) / REFERENCE_HAND_SIZE in
    let rawDepth := (palmDepth * 0.6 + scaleDepth' * 0.4) * 1.5 in
    let smoothed :=
      smoothedDepth handState * (1 - DEPTH_SMOOTHING)
      + rawDepth * DEPTH_SMOOTHING in
    let h := array_push (depthHistory handState) smoothed h in
    let h :=
      if (historyMaxLength handState
          <? length (array_get (depthHistory handState) h))%nat
      then array_shift (depthHistory handState) h else h in
    let history := array_get (depthHistory handState) h in
    let len := length history in
    let velocity' :=
      if (2 <=? len)%nat
      then array_nth history (len - 1) - array_nth history (len - 2)
      else velocity handState in
    let h := array_push (velocityHistory handState) velocity' h in
    let h :=
      if (velocityHistoryMaxLength handState
          <? length (array_get (velocityHistory handState) h))%nat
      then array_shift (velocityHistory handState) h else h in
    let handState :=
      set_measurements handState palmDepth scaleDepth' rawDepth smoothed
        velocity' handScale position' in
    match detectFist landmarks with
    | TypeError => (h, handState, TypeError)
    | Ok fist =>
      let handState := set_isFist handState fist in
      let timeSinceLastPunch := (now - lastPunchTime handState)%Z in
      let onset :=
        negb (isPunching handState)
        && (velocity handState <? - VELOCITY_THRESHOLD)
        && (PUNCH_COOLDOWN <? timeSinceLastPunch)%Z in
      let power :=
        Math_min 1 (Math_abs (velocity handState) / (VELOCITY_THRESHOLD * 2)) in
      let events :=
        if onset && onPunchDetected
        then [ {| ev_hand := handName;
                  ev_power := power;
                  ev_position := center;
                  ev_velocity := velocity handState;
                  ev_isFist := isFist handState |} ]
        else [] in
      let handState :=
        if onset then set_punch_started handState now power else handState in
      let offset :=
        isPunching handState
        && (- VELOCITY_THRESHOLD * 0.3 <? velocity handState) in
      let handState :=
        if offset then set_punch_ended handState now else handState in
      (h, handState, Ok events)
    end
  end end end.

(** *** The tracker (the module's variables) *)

Record Tracker : Type := mkTracker {
  heap : Heap;
  leftHandState : HandState;
  rightHandState : HandState;
  onPunchDetected : bool
}.

Definition init : Tracker :=
  let '(l, h) := createHandState empty_heap in
  let '(r, h) := createHandState h in
  {| heap := h; leftHandState := l; rightHandState := r;
     onPunchDetected := false |}.

Definition reset (t : Tracker) : Tracker :=
  let '(l, h) := createHandState (heap t) in
  let '(r, h) := createHandState h in
  {| heap := h; leftHandState := l; rightHandState := r;
     onPunchDetected := onPunchDetected t |}.

(** [callback] tells whether the argument is a function or [null]. *)
Definition setOnPunchDetected (callback : bool) (t : Tracker) : Tracker :=
  {| heap := heap t; leftHandState := leftHandState t;
     rightHandState := rightHandState t; onPunchDetected := callback |}.

(** [{ ...handState }]: a new object with the same field values, the
    references among them included; the values are the record itself. *)
Definition spread (handState : HandState) : HandState := handState.

Record Snapshots : Type := mkSnapshots {
  snap_left : option HandState;
  snap_right : option HandState
}.

(** The loop of [update] over the detected hands.  Every call of
    [processHand] in one tick reads the same time [now]. *)
Fixpoint process_hands (hands : list Hand) (now : Z) (t : Tracker)
    (leftDetected rightDetected : bool)
    : Tracker * list PunchEvent * result (bool * bool) :=
  match hands with
  | [] => (t, [], Ok (leftDetected, rightDetected))
  | hand :: rest =>
      let isLeftHand := String.eqb (label hand) "Right" in
      if isLeftHand then
        let '(h, s, r) :=
          processHand (landmarks_of hand) (leftHandState t) "left" now
            (onPunchDetected t) (heap t) in
        let t := {| heap := h; leftHandState := s;
                    rightHandState := rightHandState t;
                    onPunchDetected := onPunchDetected t |} in
        match r with
        | TypeError => (t, [], TypeError)
        | Ok events =>
            let '(t, events', r') :=
              process_hands rest now t true rightDetected in
            (t, events ++ events', r')
        end
      else
        let '(h, s, r) :=
          processHand (landmarks_of hand) (rightHandState t) "right" now
            (onPunchDetected t) (heap t) in
        let t := {| heap := h; leftHandState := leftHandState t;
                    rightHandState := s;
                    onPunchDetected := onPunchDetected t |} in
        match r with
        | TypeError => (t, [], TypeError)
        | Ok events =>
            let '(t, events', r') :=
              process_hands rest now t leftDetected true in
            (t, events ++ events', r')
        end
  end.

Definition update (results : Results) (now : Z) (t : Tracker)
    : Tracker * list PunchEvent * result Snapshots :=
  let '(t, events, r) := process_hands results now t false false in
  match r with
  | TypeError => (t, events, TypeError)
  | Ok (leftDetected, rightDetected) =>
      let t :=
        if leftDetected then t
        else {| heap := heap t; leftHandState := decay (leftHandState t);
                rightHandState := rightHandState t;
                onPunchDetected := onPunchDetected t |} in
      let t :=
        if rightDetected then t
        else {| heap := heap t; leftHandState := leftHandState t;
                rightHandState := decay (rightHandState t);
                onPunchDetected := onPunchDetected t |} in
      (t, events,
       Ok {| snap_left :=
               if leftDetected then Some (spread (leftHandState t)) else None;
             snap_right :=
               if rightDetected then Some (spread (rightHandState t))
               else None |})
  end.

Definition getHandStates (t : Tracker) : HandState * HandState :=
  (spread (leftHandState t), spread (rightHandState t)).

End DepthSensor.

(** *** getDebugData *)

Module DepthSensorDebug.
Import DepthSensor.

(** One side of [getDebugData]'s result: [velocityHistory] and
    [position] are copies made by the call, at fresh addresses. *)
Record DebugHand : Type := mkDebugHand {
  dbg_rawPalmZ : float;
  dbg_scaleDepth : float;
  dbg_rawCombinedDepth : float;
  dbg_depth : float;
  dbg_velocity : float;
  dbg_scale : float;
  dbg_velocityHistory : loc;
  dbg_isPunching : bool;
  dbg_isFist : bool;
  dbg_power : float;
  dbg_position : loc
}.

Record Thresholds : Type := mkThresholds {
  velocityThreshold : float;
  punchCooldown : Z;
  depthSmoothing : float;
  referenceHandSize : float
}.

Definition debug_hand (s : HandState) (h : Heap) : DebugHand * Heap :=
  let '(vh, h) := alloc_array (array_get (velocityHistory s) h) h in
  let '(p, h) := alloc_object (object_get (position s) h) h in
  ({| dbg_rawPalmZ := rawPalmZ s;
      dbg_scaleDepth := scaleDepth s;
      dbg_rawCombinedDepth := rawCombinedDepth s;
      dbg_depth := depth s;
      dbg_velocity := velocity s;
      dbg_scale := scale s;
      dbg_velocityHistory := vh;
      dbg_isPunching := isPunching s;
      dbg_isFist := isFist s;
      dbg_power := punchPower s;
      dbg_position := p |}, h).

Definition getDebugData (t : Tracker)
    : DebugHand * DebugHand * Thresholds * Tracker :=
  let '(l, h) := debug_hand (leftHandState t) (heap t) in
  let '(r, h) := debug_hand (rightHandState t) h in
  (l, r,
   {| velocityThreshold := VELOCITY_THRESHOLD;
      punchCooldown := PUNCH_COOLDOWN;
      depthSmoothing := DEPTH_SMOOTHING;
      referenceHandSize := REFERENCE_HAND_SIZE |},
   {| heap := h; leftHandState := leftHandState t;
      rightHandState := rightHandState t;
      onPunchDetected := onPunchDetected t |}).

End DepthSensorDebug.

(** ** The stance classifier *)

Local Open Scope Z_scope.

(** The keys of the renderer's [stances] table. *)
Inductive Stance : Type :=
| idle | guard | guardLeft | guardRight
| jabLeft | jabRight | hookLeft | hookRight
| uppercutLeft | uppercutRight
| duckLeft | duckRight | blockBody.

(** A grid cell [{ row, col }]. *)
Record GridPos : Type := mkGridPos {
  row : num;
  col : Z
}.

(** The cell [onResults] computes for a hand whose averaged position is
    [(handX, handY)], on a grid of [GRID_ROWS] rows; the three versions share
    these lines. *)
Definition gridPos (GRID_ROWS : Z) (handX handY : float) : GridPos :=
  let gridCol := if (handX <? 0.5)%float then 1 else 0 in
  let clampedRow :=
    floor_clamp 0 (GRID_ROWS - 1) (handY * of_int GRID_ROWS)%float in
  {| row := clampedRow; col := gridCol |}.

(** The averaged position of wrist (landmark 0) and middle MCP (landmark 9). *)
Definition handPosition (landmarks : list Landmark) : result (float * float) :=
  wrist ← at_index landmarks 0;
  middleMCP ← at_index landmarks 9;
  Ok ((lm_x wrist + lm_x middleMCP) / 2,
      (lm_y wrist + lm_y middleMCP) / 2)%float.

(** The loop of [onResults] that fills [leftHandGrid] and [rightHandGrid]. *)
Fixpoint handGrids (GRID_ROWS : Z) (hands : list Hand)
    (leftHandGrid rightHandGrid : option GridPos)
    : result (option GridPos * option GridPos) :=
  match hands with
  | [] => Ok (leftHandGrid, rightHandGrid)
  | hand :: rest =>
      p ← handPosition (landmarks_of hand);
      let g := gridPos GRID_ROWS p.1 p.2 in
      if String.eqb (label hand) "Right"
      then handGrids GRID_ROWS rest (Some g) rightHandGrid
      else handGrids GRID_ROWS rest leftHandGrid (Some g)
  end.

(** *** camera.js: the 3-row, 2-column grid *)

Module CameraDetection.

Definition GRID_COLS : Z := 2.
Definition GRID_ROWS : Z := 3.

Definition detectStance (lg rg : option GridPos) : Stance :=
  match lg, rg with
  | None, None => idle
  | Some lg, Some rg =>
      if num_eq (row lg) 0 && num_eq (row rg) 0 then
        if (col lg =? 0) && (col rg =? 0) then guardLeft
        else if (col lg =? 1) && (col rg =? 1) then guardRight
        else guard
      else if num_eq (row lg) 2 && num_eq (row rg) 2 then
        if (col lg =? 0) || (col rg =? 0) then duckLeft else duckRight
      else if num_eq (row lg) 1 && num_eq (row rg) 1 then blockBody
      else if num_eq (row lg) 0 && num_ge (row rg) 1 then jabLeft
      else if num_eq (row rg) 0 && num_ge (row lg) 1 then jabRight
      else guard
  | Some lg, None =>
      if num_eq (row lg) 0 then jabLeft
      else if num_eq (row lg) 1 then
        if col lg =? 0 then hookLeft else blockBody
      else duckLeft
  | None, Some rg =>
      if num_eq (row rg) 0 then jabRight
      else if num_eq (row rg) 1 then
        if col rg =? 1 then hookRight else blockBody
      else duckRight
  end.

(** The stance [onResults] reports for optional hand positions. *)
Definition classify (left right : option (float * float)) : Stance :=
  detectStance (uncurry (gridPos GRID_ROWS) <$> left)
               (uncurry (gridPos GRID_ROWS) <$> right).

Definition onResults (results : Results) : result Stance :=
  g ← handGrids GRID_ROWS results None None;
  Ok (detectStance g.1 g.2).

End CameraDetection.

(** *** The 4x4 version of the camera module *)

Module CameraDetection4x4.

Definition GRID_COLS : Z := 4.
Definition GRID_ROWS : Z := 4.

Definition detectStance (lg rg : option GridPos) : Stance :=
  match lg, rg with
  | None, None => idle
  | Some lg, Some rg =>
      let bothTop := num_le (row lg) 1 && num_le (row rg) 1 in
      let bothBottom := num_ge (row lg) 3 && num_ge (row rg) 3 in
      let bothMiddle := num_eq (row lg) 2 && num_eq (row rg) 2 in
      let leftSide := (col lg <=? 1) && (col rg <=? 1) in
      let rightSide := (2 <=? col lg) && (2 <=? col rg) in
      if bothTop then
        if leftSide then guardLeft
        else if rightSide then guardRight
        else guard
      else if bothBottom then
        if col lg <=? 1 then duckLeft else duckRight
      else if bothMiddle then blockBody
      else if num_le (row lg) 1 && num_ge (row rg) 2 then jabLeft
      else if num_le (row rg) 1 && num_ge (row lg) 2 then jabRight
      else guard
  | Some lg, None =>
      if num_le (row lg) 1 then jabLeft
      else if num_eq (row lg) 2 then
        if col lg <=? 1 then hookLeft else blockBody
      else duckLeft
  | None, Some rg =>
      if num_le (row rg) 1 then jabRight
      else if num_eq (row rg) 2 then
        if 2 <=? col rg then hookRight else blockBody
      else duckRight
  end.

Definition classify (left right : option (float * float)) : Stance :=
  detectStance (uncurry (gridPos GRID_ROWS) <$> left)
               (uncurry (gridPos GRID_ROWS) <$> right).

End CameraDetection4x4.

(** *** The 4x6 version of the camera module *)

Module CameraDetection4x6.

Definition GRID_COLS : Z := 4.
Definition GRID_ROWS : Z := 6.

Definition getLogicalRow (row : num) : num := floor_half row.
Definition getLogicalCol (col : Z) : Z := col / 2.

Definition detectStance (lg rg : option GridPos) : Stance :=
  match lg, rg with
  | None, None => idle
  | Some lg, Some rg =>
      let lgRow := getLogicalRow (row lg) in
      let lgCol := getLogicalCol (col lg) in
      let rgRow := getLogicalRow (row rg) in
      let rgCol := getLogicalCol (col rg) in
      if num_eq lgRow 0 && num_eq rgRow 0 then
        if (lgCol =? 0) && (rgCol =? 0) then guardLeft
        else if (lgCol =? 1) && (rgCol =? 1) then guardRight
        else guard
      else if num_eq lgRow 2 && num_eq rgRow 2 then
        if lgCol =? 0 then duckLeft else duckRight
      else if num_eq lgRow 1 && num_eq rgRow 1 then blockBody
      else if num_eq lgRow 0 && num_ge rgRow 1 then jabLeft
      else if num_eq rgRow 0 && num_ge lgRow 1 then jabRight
      else guard
  | Some lg, None =>
      let lgRow := getLogicalRow (row lg) in
      let lgCol := getLogicalCol (col lg) in
      if num_eq lgRow 0 then jabLeft
      else if num_eq lgRow 1 then
        if lgCol =? 0 then hookLeft else blockBody
      else duckLeft
  | None, Some rg =>
      let rgRow := getLogicalRow (row rg) in
      let rgCol := getLogicalCol (col rg) in
      if num_eq rgRow 0 then jabRight
      else if num_eq rgRow 1 then
        if rgCol =? 1 then hookRight else blockBody
      else duckRight
  end.

Definition classify (left right : option (float * float)) : Stance :=
  detectStance (uncurry (gridPos GRID_ROWS) <$> left)
               (uncurry (gridPos GRID_ROWS) <$> right).

End CameraDetection4x6.

(** ** Callers, runs and reachable states of the tracker *)

Module Tracking.
Import DepthSensor.

(** What a caller holding a snapshot [snap] can do through its references:
    [snap.depthHistory.push(v)], [snap.velocityHistory.push(v)] and
    [snap.position.x = v].  An assignment to a field of the snapshot itself
    touches the snapshot only, which is a value here. *)
Definition caller_push_depthHistory (snap : HandState) (v : float)
    (t : Tracker) : Tracker :=
  {| heap := array_push (depthHistory snap) v (heap t);
     leftHandState := leftHandState t;
     rightHandState := rightHandState t;
     onPunchDetected := onPunchDetected t |}.

Definition caller_push_velocityHistory (snap : HandState) (v : float)
    (t : Tracker) : Tracker :=
  {| heap := array_push (velocityHistory snap) v (heap t);
     leftHandState := leftHandState t;
     rightHandState := rightHandState t;
     onPunchDetected := onPunchDetected t |}.

Definition caller_set_position_x (snap : HandState) (v : float)
    (t : Tracker) : Tracker :=
  let p := object_get (position snap) (heap t) in
  {| heap := object_set (position snap)
               {| pos_x := v; pos_y := pos_y p; pos_z := pos_z p |} (heap t);
     leftHandState := leftHandState t;
     rightHandState := rightHandState t;
     onPunchDetected := onPunchDetected t |}.

(** The contents of the histories and of the position of a hand state. *)
Definition depths (t : Tracker) (s : HandState) : list float :=
  array_get (depthHistory s) (heap t).
Definition velocities (t : Tracker) (s : HandState) : list float :=
  array_get (velocityHistory s) (heap t).
Definition position_of (t : Tracker) (s : HandState) : Position :=
  object_get (position s) (heap t).

(** One tick: the frame's hands and the time the tick reads. *)
Definition Tick : Type := (Results * Z)%type.

Definition tick (k : Tick) (t : Tracker) : Tracker := (update k.1 k.2 t).1.1.

(** A run of ticks; every punch event is logged with the time of its tick. *)
Fixpoint run (ticks : list Tick) (t : Tracker)
    : Tracker * list (Z * PunchEvent) :=
  match ticks with
  | [] => (t, [])
  | k :: rest =>
      let '(t', events, _) := update k.1 k.2 t in
      let '(t'', log) := run rest t' in
      (t'', map (pair k.2) events ++ log)
  end.

(** The times of the punch events of one side, in order. *)
Definition punch_times (side : string) (log : list (Z * PunchEvent))
    : list Z :=
  map fst (filter (fun e => ev_hand e.2 = side) log).

(** States the module can be in: through [update] (whether it returns or
    throws), [reset] and [setOnPunchDetected], with no caller writing
    through a snapshot. *)
Inductive reachable : Tracker -> Prop :=
| reach_init : reachable init
| reach_update t results now :
    reachable t -> reachable (update results now t).1.1
| reach_reset t : reachable t -> reachable (reset t)
| reach_callback t callback :
    reachable t -> reachable (setOnPunchDetected callback t).

(** The four history arrays of a tracker are four different arrays. *)
Definition separate (t : Tracker) : Prop :=
  depthHistory (leftHandState t) ≠ velocityHistory (leftHandState t)
  ∧ depthHistory (rightHandState t) ≠ velocityHistory (rightHandState t)
  ∧ depthHistory (leftHandState t) ≠ depthHistory (rightHandState t)
  ∧ depthHistory (leftHandState t) ≠ velocityHistory (rightHandState t)
  ∧ velocityHistory (leftHandState t) ≠ depthHistory (rightHandState t)
  ∧ velocityHistory (leftHandState t) ≠ velocityHistory (rightHandState t).

(** A bounded push: what is left of [a] after [push] and the
    conditional [shift]. *)
Definition evict (max : nat) (a : list float) : list float :=
  if (max <? length a)%nat then tail a else a.

(** The velocity stored after a frame whose history is [history]. *)
Definition velocity_after (history : list float) (before : float) : float :=
  if (2 <=? length history)%nat
  then (array_nth history (length history - 1)
        - array_nth history (length history - 2))%float
  else before.

(** The velocity agrees with the depth history. *)
Definition velocity_matches (t : Tracker) (s : HandState) : Prop :=
  ((2 <= length (depths t s))%nat ->
   velocity s
   = (array_nth (depths t s) (length (depths t s) - 1)
      - array_nth (depths t s) (length (depths t s) - 2))%float)
  ∧ ((length (depths t s) < 2)%nat -> velocity s = 0%float).

(** Frames used as concrete inputs: 21 landmarks at (0.5, 0.5, z), the
    middle MCP at (0.5, 0.35, z). *)
Definition frame (z : float) : list Landmark :=
  <[9%nat := mkLandmark 0.5 0.35 (Some z)]>
    (replicate 21 (mkLandmark 0.5 0.5 (Some z))).

(** The frame of a player's left hand (labelled "Right" by the mirrored
    camera). *)
Definition left_hand (z : float) : Results := [mkHand (frame z) "Right"].

(** Seven frames of a left hand that comes closer and closer. *)
Definition seven_frames : list Tick :=
  [ (left_hand 0, 1000); (left_hand (-0.01), 1033); (left_hand (-0.02), 1066);
    (left_hand (-0.03), 1100); (left_hand (-0.04), 1133);
    (left_hand (-0.05), 1166); (left_hand (-0.06), 1200) ].

End Tracking.
Import DepthSensor Tracking.

(** ** Stages of processHand and invariants *)

Module Stages.
Local Open Scope float_scope.

(** The stages of [processHand], named: the depth values derived from a
    frame's palm depth and hand scale, the bounded push on a history, and
    the punch detection.  [processHand_stages] shows [processHand] is
    their composition. *)
Definition scaleDepth_of (handScale : float) : float :=
  - (handScale - REFERENCE_HAND_SIZE) / REFERENCE_HAND_SIZE.
Definition rawDepth_of (palmDepth handScale : float) : float :=
  (palmDepth * 0.6 + scaleDepth_of handScale * 0.4) * 1.5.
Definition smoothed_of (s : HandState) (rawDepth : float) : float :=
  smoothedDepth s * (1 - DEPTH_SMOOTHING) + rawDepth * DEPTH_SMOOTHING.

Definition push_bounded (l : loc) (max : nat) (v : float) (h : Heap) : Heap :=
  let h := array_push l v h in
  if (max <? length (array_get l h))%nat then array_shift l h else h.

Definition punch_onset (s : HandState) (now : Z) : bool :=
  negb (isPunching s)
  && (velocity s <? - VELOCITY_THRESHOLD)
  && (PUNCH_COOLDOWN <? now - lastPunchTime s)%Z.
Definition punch_power (s : HandState) : float :=
  Math_min 1 (Math_abs (velocity s) / (VELOCITY_THRESHOLD * 2)).
Definition after_onset (s : HandState) (now : Z) : HandState :=
  if punch_onset s now then set_punch_started s now (punch_power s) else s.
Definition punch_offset (s : HandState) : bool :=
  isPunching s && (- VELOCITY_THRESHOLD * 0.3 <? velocity s).
Definition after_offset (s : HandState) (now : Z) : HandState :=
  if punch_offset s then set_punch_ended s now else s.
Definition punch_events (s : HandState) (handName : string) (now : Z)
    (callback : bool) (center : Position) : list PunchEvent :=
  if punch_onset s now && callback
  then [ {| ev_hand := handName;
            ev_power := punch_power s;
            ev_position := center;
            ev_velocity := velocity s;
            ev_isFist := isFist s |} ]
  else [].

(** [processHand] got past the three measurements on [landmarks]: the heap
    and the measured fields of the hand state it leaves. *)
Definition frame_processed (landmarks : list Landmark)
    (s : HandState) (h : Heap) (s' : HandState) (h' : Heap) : Prop :=
  ∃ palmDepth handScale center,
    calculatePalmDepth landmarks = Ok palmDepth
    ∧ calculateHandScale landmarks = Ok handScale
    ∧ calculateHandCenter landmarks = Ok center
    ∧ let raw := rawDepth_of palmDepth handScale in
      let sm := smoothed_of s raw in
      let h1 :=
        push_bounded (depthHistory s) (historyMaxLength s) sm
          (alloc_object center h).2 in
      let v := velocity_after (array_get (depthHistory s) h1) (velocity s) in
      h' = push_bounded (velocityHistory s) (velocityHistoryMaxLength s) v h1
      ∧ depthHistory s' = depthHistory s
      ∧ velocityHistory s' = velocityHistory s
      ∧ historyMaxLength s' = historyMaxLength s
      ∧ velocityHistoryMaxLength s' = velocityHistoryMaxLength s
      ∧ rawPalmZ s' = palmDepth
      ∧ scaleDepth s' = scaleDepth_of handScale
      ∧ rawCombinedDepth s' = raw
      ∧ smoothedDepth s' = sm
      ∧ depth s' = sm
      ∧ velocity s' = v
      ∧ scale s' = handScale.

(** The invariant of one hand: its capacities, the lengths of its
    histories, and a zero velocity while fewer than two depths are
    recorded. *)
Definition hand_ok (h : Heap) (s : HandState) : Prop :=
  historyMaxLength s = 5%nat
  ∧ velocityHistoryMaxLength s = 50%nat
  ∧ (length (array_get (depthHistory s) h) <= 5)%nat
  ∧ (length (array_get (velocityHistory s) h) <= 50)%nat
  ∧ ((length (array_get (depthHistory s) h) < 2)%nat -> velocity s = 0).

Definition tracker_ok (t : Tracker) : Prop :=
  separate t
  ∧ hand_ok (heap t) (leftHandState t)
  ∧ hand_ok (heap t) (rightHandState t).

(** What [update] leaves of a side it did not detect, from state [s] in
    tracker [t] to state [s'] in tracker [t']: the fields other than
    [depth], [velocity] and [isPunching] and the contents of both
    histories are as before, and the next frame processed for that hand
    smooths from the [smoothedDepth] of before the loss. *)
Definition decayed (t t' : Tracker) (s s' : HandState) : Prop :=
  s' = decay s
  ∧ smoothedDepth s' = smoothedDepth s
  ∧ depthHistory s' = depthHistory s
  ∧ velocityHistory s' = velocityHistory s
  ∧ depths t' s' = depths t s
  ∧ velocities t' s' = velocities t s
  ∧ depth s' = (depth s * 0.9)%float
  ∧ velocity s' = (velocity s * 0.8)%float
  ∧ isPunching s' = false
  ∧ ∀ landmarks name now cb h2 s2 events,
      processHand landmarks s' name now cb (heap t') = (h2, s2, Ok events) ->
      smoothedDepth s2
      = (smoothedDepth s * (1 - 0.7) + rawCombinedDepth s2 * 0.7)%float.

End Stages.
Import Stages.

(** A frame with every missing [z] replaced by 0. *)
Definition with_default_z (lm : Landmark) : Landmark :=
  match lm_z lm with
  | Some _ => lm
  | None => {| lm_x := lm_x lm; lm_y := lm_y lm; lm_z := Some 0%float |}
  end.

(** Consecutive times of a list are more than [d] apart. *)
Definition spaced (d : Z) (times : list Z) : Prop :=
  ∀ (i : nat) (a b : Z),
    times !! i = Some a -> times !! S i = Some b -> d < b - a.

(** The cooldown invariant of one hand, [times] being the times of its
    punch events so far and [now] a time not before any of them: when the
    hand is not punching, the last punch time recorded is not before the last
    event. *)
Definition cooling (s : HandState) (times : list Z) (now : Z) : Prop :=
  spaced PUNCH_COOLDOWN times
  ∧ ∀ a, last times = Some a ->
         a <= now ∧ (isPunching s = false -> a <= lastPunchTime s).

(** The times of the events of [side] among the events of a tick at [now]. *)
Definition times_of (side : string) (now : Z) (events : list PunchEvent)
    : list Z :=
  map (fun _ => now) (filter (fun e => ev_hand e = side) events).

(** The ticks of a run come at times that do not decrease, from [lo] on. *)
Fixpoint not_before (lo : Z) (ticks : list Tick) : Prop :=
  match ticks with
  | [] => True
  | k :: rest => lo <= k.2 ∧ not_before k.2 rest
  end.

(** A frame's labels: the player's left hand is labelled "Right". *)
Definition has_left (results : Results) : bool :=
  existsb (fun hand => String.eqb (label hand) "Right") results.
Definition has_right (results : Results) : bool :=
  existsb (fun hand => negb (String.eqb (label hand) "Right")) results.

(** ** Views, decay and runs used by the further properties *)

(** [k] missed frames in a row multiply a depth by 0.9 [k] times. *)
Definition decayed_depth (k : nat) (d : float) : float :=
  Nat.iter k (fun d => (d * 0.9)%float) d.

(** What a caller can read of one hand: the fields, with the contents of
    the histories and of the position in place of their addresses. *)
Record HandView : Type := mkHandView {
  view_depth : float;
  view_smoothedDepth : float;
  view_rawPalmZ : float;
  view_scaleDepth : float;
  view_rawCombinedDepth : float;
  view_depthHistory : list float;
  view_velocityHistory : list float;
  view_historyMaxLength : nat;
  view_velocityHistoryMaxLength : nat;
  view_velocity : float;
  view_scale : float;
  view_isPunching : bool;
  view_punchStartTime : Z;
  view_lastPunchTime : Z;
  view_punchPower : float;
  view_position : Position;
  view_isFist : bool
}.

Definition view (t : Tracker) (s : HandState) : HandView :=
  {| view_depth := depth s;
     view_smoothedDepth := smoothedDepth s;
     view_rawPalmZ := rawPalmZ s;
     view_scaleDepth := scaleDepth s;
     view_rawCombinedDepth := rawCombinedDepth s;
     view_depthHistory := depths t s;
     view_velocityHistory := velocities t s;
     view_historyMaxLength := historyMaxLength s;
     view_velocityHistoryMaxLength := velocityHistoryMaxLength s;
     view_velocity := velocity s;
     view_scale := scale s;
     view_isPunching := isPunching s;
     view_punchStartTime := punchStartTime s;
     view_lastPunchTime := lastPunchTime s;
     view_punchPower := punchPower s;
     view_position := position_of t s;
     view_isFist := isFist s |}.

(** The view of a hand state as [createHandState] makes it. *)
Definition fresh_view : HandView :=
  {| view_depth := 0;
     view_smoothedDepth := 0;
     view_rawPalmZ := 0;
     view_scaleDepth := 0;
     view_rawCombinedDepth := 0;
     view_depthHistory := [];
     view_velocityHistory := [];
     view_historyMaxLength := 5;
     view_velocityHistoryMaxLength := 50;
     view_velocity := 0;
     view_scale := REFERENCE_HAND_SIZE;
     view_isPunching := false;
     view_punchStartTime := 0;
     view_lastPunchTime := 0;
     view_punchPower := 0;
     view_position := mkPosition 0 0 0;
     view_isFist := false |}.

(** Every address a hand state holds has been allocated. *)
Definition allocated (h : Heap) (s : HandState) : Prop :=
  (depthHistory s < next h)%nat
  ∧ (velocityHistory s < next h)%nat
  ∧ (position s < next h)%nat.

(** A tracker whose heap a caller has written to. *)
Definition with_heap (h : Heap) (t : Tracker) : Tracker :=
  {| heap := h; leftHandState := leftHandState t;
     rightHandState := rightHandState t;
     onPunchDetected := onPunchDetected t |}.

(** A left hand that punches, comes back and punches again. *)
Definition two_punches : list Tick :=
  [ (left_hand 0, 1000); (left_hand (-0.1), 1033); (left_hand (-0.1), 1066);
    (left_hand 0, 1100); (left_hand (-0.1), 1133); (left_hand (-0.3), 1200) ].

(** Two landmarks with the same x and y, and with the same [z || 0]. *)
Definition same_xy (a b : Landmark) : Prop :=
  lm_x a = lm_x b ∧ lm_y a = lm_y b.
Definition same_z (a b : Landmark) : Prop :=
  or_zero (lm_z a) = or_zero (lm_z b).

(** ** Grid highlights and position text of the camera module *)

(** [row * GRID_COLS + col], the [data-index] that [updateGridHighlights]
    looks up for a hand's cell; NaN when the row is. *)
Definition cellIndex (GRID_COLS : Z) (g : GridPos) : num :=
  match row g with
  | Int r => Int (r * GRID_COLS + col g)
  | NaN => NaN
  end.

(** [names[i]] inside a template string: a missing element prints as
    [undefined]. *)
Definition name_at (names : list string) (i : num) : string :=
  match i with
  | Int z =>
      if z <? 0 then "undefined"
      else default "undefined" (names !! Z.to_nat z)
  | NaN => "undefined"
  end.

(** The text [updateDetectionInfo] shows for one hand. *)
Definition positionText (rowNames colNames : list string)
    (g : option GridPos) : string :=
  match g with
  | Some g =>
      name_at rowNames (row g) +:+ " " +:+ name_at colNames (Int (col g))
  | None => "Not detected"
  end.

Module CameraDisplay.

Definition rowNames : list string := ["Top"; "Middle"; "Bottom"].
Definition colNames : list string := ["Left"; "Right"].

(** The indices looked up for the left and for the right hand. *)
Definition updateGridHighlights (lg rg : option GridPos)
    : option num * option num :=
  (cellIndex CameraDetection.GRID_COLS <$> lg,
   cellIndex CameraDetection.GRID_COLS <$> rg).

(** The texts of [leftHandPos] and [rightHandPos]. *)
Definition updateDetectionInfo (lg rg : option GridPos) : string * string :=
  (positionText rowNames colNames lg, positionText rowNames colNames rg).

End CameraDisplay.

Module CameraDisplay4x4.

Definition rowNames : list string := ["Top"; "Upper"; "Lower"; "Bottom"].
Definition colNames : list string :=
  ["Far Left"; "Left"; "Right"; "Far Right"].

Definition updateGridHighlights (lg rg : option GridPos)
    : option num * option num :=
  (cellIndex CameraDetection4x4.GRID_COLS <$> lg,
   cellIndex CameraDetection4x4.GRID_COLS <$> rg).

Definition updateDetectionInfo (lg rg : option GridPos) : string * string :=
  (positionText rowNames colNames lg, positionText rowNames colNames rg).

End CameraDisplay4x4.

Module CameraDisplay4x6.

Definition rowNames : list string :=
  ["Top"; "Top"; "Middle"; "Middle"; "Bottom"; "Bottom"].
Definition colNames : list string := ["Left"; "Left"; "Right"; "Right"].

Definition updateDetectionInfo (lg rg : option GridPos) : string * string :=
  (positionText rowNames colNames lg, positionText rowNames colNames rg).

End CameraDisplay4x6.

(** ** Mirror images of cells and stances *)

(** The cell at the same height in the other column of a two-column grid,
    and the stance with left and right exchanged. *)
Definition mirror_cell (g : GridPos) : GridPos :=
  {| row := row g; col := 1 - col g |}.

Definition mirror_stance (s : Stance) : Stance :=
  match s with
  | idle => idle
  | guard => guard
  | guardLeft => guardRight
  | guardRight => guardLeft
  | jabLeft => jabRight
  | jabRight => jabLeft
  | hookLeft => hookRight
  | hookRight => hookLeft
  | uppercutLeft => uppercutRight
  | uppercutRight => uppercutLeft
  | duckLeft => duckRight
  | duckRight => duckLeft
  | blockBody => blockBody
  end.

(** A cell of a two-column grid. *)
Definition two_columns (g : option GridPos) : Prop :=
  match g with
  | Some g => col g = 0 ∨ col g = 1
  | None => True
  end.

(** Both hands in the bottom row of the 3-row grid, in different columns. *)
Definition bottom_apart (lg rg : option GridPos) : bool :=
  match lg, rg with
  | Some lg, Some rg =>
      num_eq (row lg) 2 && num_eq (row rg) 2 && negb (col lg =? col rg)
  | _, _ => false
  end.

(** ** The 2D renderer's stance table *)

Module BoxingGame.

Record Glove : Type := mkGlove { glove_x : Z; glove_y : Z; glove_z : Z }.
Record Offset : Type := mkOffset { off_x : Z; off_y : Z }.

Record StanceDef : Type := mkStanceDef {
  name : string;
  leftGlove : Glove;
  rightGlove : Glove;
  bodyOffset : Offset;
  lean : Z
}.

(** The own properties of [stances], in the order of the source. *)
Definition stances : list (string * StanceDef) :=
  [ ("idle", mkStanceDef "Idle"
       (mkGlove (-50) 20 0) (mkGlove 50 20 0) (mkOffset 0 0) 0);
    ("guard", mkStanceDef "Guard Up"
       (mkGlove (-35) (-60) 10) (mkGlove 35 (-60) 10) (mkOffset 0 0) 0);
    ("guardLeft", mkStanceDef "Guard Left"
       (mkGlove (-35) (-60) 10) (mkGlove 35 (-60) 10) (mkOffset (-20) 0)
       (-5));
    ("guardRight", mkStanceDef "Guard Right"
       (mkGlove (-35) (-60) 10) (mkGlove 35 (-60) 10) (mkOffset 20 0) 5);
    ("jabLeft", mkStanceDef "Left Jab"
       (mkGlove (-20) (-100) 30) (mkGlove 40 (-50) 5) (mkOffset (-5) (-5))
       (-5));
    ("jabRight", mkStanceDef "Right Jab"
       (mkGlove (-40) (-50) 5) (mkGlove 20 (-100) 30) (mkOffset 5 (-5)) 5);
    ("hookLeft", mkStanceDef "Left Hook"
       (mkGlove (-80) (-40) 20) (mkGlove 35 (-55) 5) (mkOffset 10 0) 15);
    ("hookRight", mkStanceDef "Right Hook"
       (mkGlove (-35) (-55) 5) (mkGlove 80 (-40) 20) (mkOffset (-10) 0)
       (-15));
    ("uppercutLeft", mkStanceDef "Left Uppercut"
       (mkGlove (-25) (-20) 25) (mkGlove 40 (-50) 5) (mkOffset (-5) 10)
       (-10));
    ("uppercutRight", mkStanceDef "Right Uppercut"
       (mkGlove (-40) (-50) 5) (mkGlove 25 (-20) 25) (mkOffset 5 10) 10);
    ("duckLeft", mkStanceDef "Duck Left"
       (mkGlove (-45) (-30) 5) (mkGlove 30 (-30) 5) (mkOffset (-30) 40)
       (-20));
    ("duckRight", mkStanceDef "Duck Right"
       (mkGlove (-30) (-30) 5) (mkGlove 45 (-30) 5) (mkOffset 30 40) 20);
    ("blockBody", mkStanceDef "Block Body"
       (mkGlove (-30) 10 15) (mkGlove 30 10 15) (mkOffset 0 10) 0) ].

(** [stances] is an object literal, so a key that is not its own is looked
    up in [Object.prototype]: its methods, whose [name] is their key, the
    constructor [Object], and the accessor [__proto__], which yields the
    prototype itself, an object without a [name]. *)
Definition Object_prototype : list (string * option string) :=
  [ ("constructor", Some "Object");
    ("__defineGetter__", Some "__defineGetter__");
    ("__defineSetter__", Some "__defineSetter__");
    ("hasOwnProperty", Some "hasOwnProperty");
    ("__lookupGetter__", Some "__lookupGetter__");
    ("__lookupSetter__", Some "__lookupSetter__");
    ("isPrototypeOf", Some "isPrototypeOf");
    ("propertyIsEnumerable", Some "propertyIsEnumerable");
    ("toString", Some "toString");
    ("valueOf", Some "valueOf");
    ("__proto__", None);
    ("toLocaleString", Some "toLocaleString") ].

Fixpoint assoc {A : Type} (key : string) (l : list (string * A))
    : option A :=
  match l with
  | [] => None
  | (k, v) :: rest => if String.eqb k key then Some v else assoc key rest
  end.

(** The value of [stances[stance]]: a stance, an inherited property (with
    its [name], if it has one), or nothing ([undefined]).  Every property
    found is an object or a function, which is truthy. *)
Inductive Property : Type :=
| Own (d : StanceDef)
| Inherited (fname : option string).

Definition stances_get (stance : string) : option Property :=
  match assoc stance stances with
  | Some d => Some (Own d)
  | None => Inherited <$> assoc stance Object_prototype
  end.

(** [setStance(stance)] on the variable [currentStance]; the new value is
    returned. *)
Definition setStance (stance : string) (currentStance : string) : string :=
  match stances_get stance with
  | Some _ => stance
  | None => currentStance
  end.

Definition getStance (currentStance : string) : string := currentStance.

(** [stances[stance]?.name || 'Unknown']. *)
Definition getStanceName (stance : string) : string :=
  match stances_get stance with
  | Some (Own d) => if String.eqb (name d) "" then "Unknown" else name d
  | Some (Inherited (Some n)) => if String.eqb n "" then "Unknown" else n
  | Some (Inherited None) | None => "Unknown"
  end.

(** [stances[stance] || stances.idle], what [drawBoxer] draws. *)
Definition drawn (stance : string) : option Property :=
  match stances_get stance with
  | Some p => Some p
  | None => stances_get "idle"
  end.

End BoxingGame.

(** The string [detectStance] assigns for each stance. *)
Definition stance_key (s : Stance) : string :=
  match s with
  | idle => "idle"
  | guard => "guard"
  | guardLeft => "guardLeft"
  | guardRight => "guardRight"
  | jabLeft => "jabLeft"
  | jabRight => "jabRight"
  | hookLeft => "hookLeft"
  | hookRight => "hookRight"
  | uppercutLeft => "uppercutLeft"
  | uppercutRight => "uppercutRight"
  | duckLeft => "duckLeft"
  | duckRight => "duckRight"
  | blockBody => "blockBody"
  end.

(** ** Frames through [onResults] *)

(** The hand skeleton [drawHandLandmarks] draws, the same in the three
    versions. *)
Definition connections : list (nat * nat) :=
  [ (0, 1); (1, 2); (2, 3); (3, 4);
    (0, 5); (5, 6); (6, 7); (7, 8);
    (0, 9); (9, 10); (10, 11); (11, 12);
    (0, 13); (13, 14); (14, 15); (15, 16);
    (0, 17); (17, 18); (18, 19); (19, 20);
    (5, 9); (9, 13); (13, 17) ]%nat.

(** The canvas is written and never read, so what [drawHandLandmarks] does
    to a run is to complete or to throw.  With the overlay present it reads
    [x] and [y] at both ends of every connection; the landmarks it reads
    after that (each landmark of the frame and, for the depth indicator,
    landmark 9) are there when the connections were. *)
Fixpoint draw_connections (landmarks : list Landmark)
    (cs : list (nat * nat)) : result unit :=
  match cs with
  | [] => Ok tt
  | (i, j) :: rest =>
      start ← at_index landmarks i;
      end' ← at_index landmarks j;
      draw_connections landmarks rest
  end.

Definition drawHandLandmarks (landmarks : list Landmark) : result unit :=
  draw_connections landmarks connections.

(** The loop of [onResults] over the hands of a frame, drawing included:
    [overlay] tells whether [ctxOverlay] is set.  [leftHandGrid] and
    [rightHandGrid] are variables of the module, and keep what was assigned
    when a later step throws. *)
Fixpoint hands_loop (overlay : bool) (GRID_ROWS : Z) (hands : list Hand)
    (leftHandGrid rightHandGrid : option GridPos)
    : option GridPos * option GridPos * result unit :=
  match hands with
  | [] => (leftHandGrid, rightHandGrid, Ok tt)
  | hand :: rest =>
      match handPosition (landmarks_of hand) with
      | TypeError => (leftHandGrid, rightHandGrid, TypeError)
      | Ok p =>
          let g := gridPos GRID_ROWS p.1 p.2 in
          let isLeftHand := String.eqb (label hand) "Right" in
          let leftHandGrid := if isLeftHand then Some g else leftHandGrid in
          let rightHandGrid := if isLeftHand then rightHandGrid else Some g in
          match (if overlay then drawHandLandmarks (landmarks_of hand)
                 else Ok tt) with
          | TypeError => (leftHandGrid, rightHandGrid, TypeError)
          | Ok _ =>
              hands_loop overlay GRID_ROWS rest leftHandGrid rightHandGrid
          end
      end
  end.

(** What a call of [onResults] leaves: the two cells, and the stance given
    to [detectStance]'s receivers, or the [TypeError] it threw before. *)
Record Outcome : Type := mkOutcome {
  out_left : option GridPos;
  out_right : option GridPos;
  out_stance : result Stance
}.

Definition finish (detectStance : option GridPos -> option GridPos -> Stance)
    (loop : option GridPos * option GridPos * result unit) : Outcome :=
  let '(lg, rg, r) := loop in
  {| out_left := lg; out_right := rg;
     out_stance :=
       match r with
       | Ok _ => Ok (detectStance lg rg)
       | TypeError => TypeError
       end |}.

Module CameraFrame.

(** [onResults] of [camera.js]. *)
Definition onResults (overlay : bool) (results : Results) : Outcome :=
  finish CameraDetection.detectStance
    (hands_loop overlay CameraDetection.GRID_ROWS results None None).

End CameraFrame.

(** [onResults] of the two depth versions, with [DepthSensor] loaded: the
    tracker is updated first, and a [TypeError] of [update] ends the call
    with both cells reset. *)
Definition onResults_depth (GRID_ROWS : Z)
    (detectStance : option GridPos -> option GridPos -> Stance)
    (overlay : bool) (results : Results) (now : Z) (t : DepthSensor.Tracker)
    : DepthSensor.Tracker * list DepthSensor.PunchEvent * Outcome :=
  let '(t, events, depthData) := DepthSensor.update results now t in
  match depthData with
  | TypeError =>
      (t, events,
       {| out_left := None; out_right := None; out_stance := TypeError |})
  | Ok _ =>
      (t, events,
       finish detectStance (hands_loop overlay GRID_ROWS results None None))
  end.

Module CameraFrame4x4.

Definition onResults :=
  onResults_depth CameraDetection4x4.GRID_ROWS
    CameraDetection4x4.detectStance.

End CameraFrame4x4.

Module CameraFrame4x6.

Definition onResults :=
  onResults_depth CameraDetection4x6.GRID_ROWS
    CameraDetection4x6.detectStance.

End CameraFrame4x6.

(** The cell of the last hand of a frame with the given side ([true] for
    the player's left hand, labelled "Right"), if there is one and it has
    the two landmarks the position is taken from. *)
Definition cell_at (GRID_ROWS : Z) (hand : Hand) : option GridPos :=
  match handPosition (landmarks_of hand) with
  | Ok p => Some (gridPos GRID_ROWS p.1 p.2)
  | TypeError => None
  end.

Definition last_cell (GRID_ROWS : Z) (side : bool) (hands : list Hand)
    : option GridPos :=
  last (filter (fun hand => String.eqb (label hand) "Right" = side) hands)
  ≫= cell_at GRID_ROWS.

(** The landmarks a frame needs: all 21 when the skeleton is drawn, the
    first ten otherwise. *)
Definition landmarks_needed (overlay : bool) : nat :=
  if overlay then 21%nat else 10%nat.

(** * Properties *)

(** ** The heap *)

Section heap_lemmas.
Implicit Types (h : Heap) (l k : loc) (a : list float) (v : float).

Lemma array_get_set l a h : array_get l (array_set l a h) = a.
Proof. unfold array_get, array_set; simpl. by rewrite lookup_insert_eq. Qed.

Lemma array_get_set_ne l k a h :
  k ≠ l -> array_get k (array_set l a h) = array_get k h.
Proof.
  intros Hne. unfold array_get, array_set; simpl.
  by rewrite lookup_insert_ne.
Qed.

Lemma array_get_alloc_object k p h :
  array_get k (alloc_object p h).2 = array_get k h.
Proof. reflexivity. Qed.

Lemma array_get_push l v h :
  array_get l (array_push l v h) = array_get l h ++ [v].
Proof. apply array_get_set. Qed.

Lemma array_get_push_ne l k v h :
  k ≠ l -> array_get k (array_push l v h) = array_get k h.
Proof. apply array_get_set_ne. Qed.

Lemma array_get_shift l h :
  array_get l (array_shift l h) = tail (array_get l h).
Proof. apply array_get_set. Qed.

Lemma array_get_shift_ne l k h :
  k ≠ l -> array_get k (array_shift l h) = array_get k h.
Proof. apply array_get_set_ne. Qed.

Lemma evict_length max a :
  (length a <= S max)%nat -> (length (evict max a) <= max)%nat.
Proof.
  unfold evict. intros Hlen.
  destruct (Nat.ltb_spec max (length a)) as [Hlt|Hge]; [|lia].
  destruct a; simpl in *; lia.
Qed.

(** Eviction removes the oldest entry, and only when the array is full. *)
Lemma evict_push_fifo max a v :
  (0 < max)%nat -> (length a <= max)%nat ->
  evict max (a ++ [v])
  = if (length a <? max)%nat then a ++ [v] else tail a ++ [v].
Proof.
  unfold evict. intros Hpos Hlen. rewrite length_app; simpl.
  destruct (Nat.ltb_spec max (length a + 1)),
           (Nat.ltb_spec (length a) max); try lia; [|done].
  destruct a; simpl in *; [lia|done].
Qed.

End heap_lemmas.

(** ** processHand, stage by stage *)

Section processHand_lemmas.

Lemma processHand_stages landmarks s name now cb h :
  processHand landmarks s name now cb h
  = match calculatePalmDepth landmarks, calculateHandScale landmarks,
          calculateHandCenter landmarks with
    | Ok palmDepth, Ok handScale, Ok center =>
        let raw := rawDepth_of palmDepth handScale in
        let sm := smoothed_of s raw in
        let h1 :=
          push_bounded (depthHistory s) (historyMaxLength s) sm
            (alloc_object center h).2 in
        let v := velocity_after (array_get (depthHistory s) h1) (velocity s) in
        let h2 :=
          push_bounded (velocityHistory s) (velocityHistoryMaxLength s) v h1 in
        let s1 :=
          set_measurements s palmDepth (scaleDepth_of handScale) raw sm v
            handScale (alloc_object center h).1 in
        match detectFist landmarks with
        | TypeError => (h2, s1, TypeError)
        | Ok fist =>
            let s2 := set_isFist s1 fist in
            (h2, after_offset (after_onset s2 now) now,
             Ok (punch_events s2 name now cb center))
        end
    | _, _, _ => (h, s, TypeError)
    end.
Proof.
  unfold processHand.
  destruct (calculatePalmDepth landmarks); [|reflexivity].
  destruct (calculateHandScale landmarks); [|reflexivity].
  destruct (calculateHandCenter landmarks); [|reflexivity].
  reflexivity.
Qed.

Lemma array_get_push_bounded l max v h :
  array_get l (push_bounded l max v h) = evict max (array_get l h ++ [v]).
Proof.
  unfold push_bounded, evict. cbv zeta. rewrite array_get_push.
  destruct (max <? _)%nat.
  - by rewrite array_get_shift, array_get_push.
  - by rewrite array_get_push.
Qed.

Lemma array_get_push_bounded_ne l k max v h :
  k ≠ l -> array_get k (push_bounded l max v h) = array_get k h.
Proof.
  intros Hne. unfold push_bounded. cbv zeta. destruct (max <? _)%nat.
  - by rewrite array_get_shift_ne, array_get_push_ne.
  - by rewrite array_get_push_ne.
Qed.

(** The punch detection touches the punch fields only. *)
Lemma punch_stage_fields s now :
  let s' := after_offset (after_onset s now) now in
  depth s' = depth s ∧ smoothedDepth s' = smoothedDepth s
  ∧ rawPalmZ s' = rawPalmZ s ∧ scaleDepth s' = scaleDepth s
  ∧ rawCombinedDepth s' = rawCombinedDepth s
  ∧ depthHistory s' = depthHistory s
  ∧ velocityHistory s' = velocityHistory s
  ∧ historyMaxLength s' = historyMaxLength s
  ∧ velocityHistoryMaxLength s' = velocityHistoryMaxLength s
  ∧ velocity s' = velocity s ∧ scale s' = scale s
  ∧ position s' = position s ∧ isFist s' = isFist s.
Proof.
  unfold after_offset, after_onset.
  destruct (punch_onset s now), (punch_offset _); simpl; repeat split.
Qed.

Lemma processHand_cases landmarks s name now cb h h' s' r :
  processHand landmarks s name now cb h = (h', s', r) ->
  ((calculatePalmDepth landmarks = TypeError
    ∨ calculateHandScale landmarks = TypeError
    ∨ calculateHandCenter landmarks = TypeError)
   ∧ h' = h ∧ s' = s ∧ r = TypeError)
  ∨ frame_processed landmarks s h s' h'.
Proof.
  rewrite processHand_stages.
  destruct (calculatePalmDepth landmarks) as [palmDepth|] eqn:Hpalm;
    [|intros [= <- <- <-]; left; auto].
  destruct (calculateHandScale landmarks) as [handScale|] eqn:Hscale;
    [|intros [= <- <- <-]; left; auto].
  destruct (calculateHandCenter landmarks) as [center|] eqn:Hcenter;
    [|intros [= <- <- <-]; left; auto].
  intros Heq. right. exists palmDepth, handScale, center.
  split; [done|]. split; [done|]. split; [done|].
  cbv zeta in Heq |- *.
  match type of Heq with
  | context [set_measurements ?a ?b ?c ?d ?e ?f ?g ?i] =>
      set (s1 := set_measurements a b c d e f g i) in *
  end.
  match type of Heq with
  | context [push_bounded (velocityHistory s) ?m ?v ?hh] =>
      set (h2 := push_bounded (velocityHistory s) m v hh) in *
  end.
  assert (Hh : h' = h2) by (destruct (detectFist landmarks); congruence).
  assert (Hs : s' = s1
               ∨ ∃ fist,
                   s' = after_offset (after_onset (set_isFist s1 fist) now)
                          now).
  { destruct (detectFist landmarks) as [fist|]; [right; exists fist|left];
      congruence. }
  clear Heq. split; [done|].
  destruct Hs as [->|[fist ->]].
  - subst s1. simpl. repeat split.
  - pose proof (punch_stage_fields (set_isFist s1 fist) now) as Hp.
    cbv zeta in Hp.
    destruct Hp as (? & ? & ? & ? & ? & ? & ? & ? & ? & ? & ? & _).
    repeat split;
      match goal with
      | H : ?f _ = _ |- ?f _ = _ => rewrite H; reflexivity
      end.
Qed.

(** The histories after a processed frame: a bounded push on each, and
    every other array as it was. *)
Lemma frame_processed_histories landmarks s h s' h' :
  depthHistory s ≠ velocityHistory s ->
  frame_processed landmarks s h s' h' ->
  array_get (depthHistory s) h'
  = evict (historyMaxLength s)
      (array_get (depthHistory s) h ++ [smoothedDepth s'])
  ∧ array_get (velocityHistory s) h'
    = evict (velocityHistoryMaxLength s)
        (array_get (velocityHistory s) h ++ [velocity s'])
  ∧ velocity s'
    = velocity_after (array_get (depthHistory s) h') (velocity s)
  ∧ (∀ k, k ≠ depthHistory s -> k ≠ velocityHistory s ->
          array_get k h' = array_get k h).
Proof.
  intros Hne (palmDepth & handScale & center & _ & _ & _ & Hp).
  cbv zeta in Hp.
  destruct Hp as (-> & _ & _ & _ & _ & _ & _ & _ & -> & _ & -> & _).
  assert (Hne' : velocityHistory s ≠ depthHistory s) by congruence.
  rewrite (array_get_push_bounded_ne (velocityHistory s) (depthHistory s))
    by done.
  rewrite !array_get_push_bounded.
  rewrite (array_get_push_bounded_ne (depthHistory s) (velocityHistory s))
    by done.
  rewrite !array_get_alloc_object.
  split; [done|]. split; [done|]. split; [done|].
  intros k Hk1 Hk2. by rewrite !array_get_push_bounded_ne.
Qed.

End processHand_lemmas.

(** ** Invariants of the tracker *)

Section invariants.

Lemma evict_length_lt2 max a v :
  (2 <= max)%nat -> (length (evict max (a ++ [v])) < 2)%nat -> a = [].
Proof.
  unfold evict. rewrite length_app; simpl. intros Hmax.
  destruct (Nat.ltb_spec max (length a + 1)) as [Hlt|Hge].
  - destruct a as [|x a]; [done|]. simpl in *. rewrite length_app; simpl. lia.
  - destruct a; [done|]. simpl. rewrite length_app; simpl. lia.
Qed.

Lemma processHand_hand_ok landmarks s name now cb h h' s' r :
  depthHistory s ≠ velocityHistory s ->
  hand_ok h s ->
  processHand landmarks s name now cb h = (h', s', r) ->
  hand_ok h' s'
  ∧ depthHistory s' = depthHistory s
  ∧ velocityHistory s' = velocityHistory s
  ∧ (∀ k, k ≠ depthHistory s -> k ≠ velocityHistory s ->
          array_get k h' = array_get k h).
Proof.
  intros Hne (Hmax & Hvmax & Hd & Hv & Hq) Heq.
  apply processHand_cases in Heq as [(_ & -> & -> & _)|Hp]; [done|].
  destruct (frame_processed_histories _ _ _ _ _ Hne Hp)
    as (Hd' & Hv' & Hvel & Hk).
  destruct Hp as (palmDepth & handScale & center & _ & _ & _ & Hp).
  cbv zeta in Hp.
  destruct Hp as (_ & Edh & Evh & Emax & Evmax & _).
  repeat split; try done; rewrite ?Edh, ?Evh, ?Emax, ?Evmax; try done.
  - rewrite Hd', Hmax. apply evict_length. rewrite length_app; simpl. lia.
  - rewrite Hv', Hvmax. apply evict_length. rewrite length_app; simpl. lia.
  - intros Hlt. rewrite Hvel. unfold velocity_after.
    destruct (Nat.leb_spec 2 (length (array_get (depthHistory s) h')));
      [lia|].
    apply Hq. rewrite Hd', Hmax in Hlt.
    apply evict_length_lt2 in Hlt; [|lia]. rewrite Hlt. simpl. lia.
Qed.

(** A hand keeps its invariant when arrays other than its own change. *)
Lemma hand_ok_frame h h' s :
  array_get (depthHistory s) h' = array_get (depthHistory s) h ->
  array_get (velocityHistory s) h' = array_get (velocityHistory s) h ->
  hand_ok h s -> hand_ok h' s.
Proof. unfold hand_ok. intros -> ->. done. Qed.

Lemma decay_hand_ok h s : hand_ok h s -> hand_ok h (decay s).
Proof.
  intros (Hmax & Hvmax & Hd & Hv & Hq). repeat split; try done.
  simpl. intros Hlt. rewrite (Hq Hlt). reflexivity.
Qed.

(** One call of [processHand] on the left hand, inside [update]. *)
Lemma processHand_left_ok landmarks name now cb t h s r :
  tracker_ok t ->
  processHand landmarks (leftHandState t) name now cb (heap t) = (h, s, r) ->
  tracker_ok {| heap := h; leftHandState := s;
                rightHandState := rightHandState t;
                onPunchDetected := onPunchDetected t |}
  ∧ depths {| heap := h; leftHandState := s;
              rightHandState := rightHandState t;
              onPunchDetected := onPunchDetected t |} (rightHandState t)
    = depths t (rightHandState t)
  ∧ velocities {| heap := h; leftHandState := s;
                  rightHandState := rightHandState t;
                  onPunchDetected := onPunchDetected t |} (rightHandState t)
    = velocities t (rightHandState t).
Proof.
  intros ((S1 & S2 & S3 & S4 & S5 & S6) & Hl & Hr) Hp.
  apply processHand_hand_ok in Hp as (Hl' & Ed & Ev & Hk); [|done..].
  unfold depths, velocities; simpl.
  rewrite !Hk by congruence. split; [|done].
  split; [|split]; simpl.
  - unfold separate; simpl. rewrite ?Ed, ?Ev. done.
  - exact Hl'.
  - apply (hand_ok_frame (heap t)); [apply Hk; congruence..|done].
Qed.

Lemma processHand_right_ok landmarks name now cb t h s r :
  tracker_ok t ->
  processHand landmarks (rightHandState t) name now cb (heap t) = (h, s, r) ->
  tracker_ok {| heap := h; leftHandState := leftHandState t;
                rightHandState := s;
                onPunchDetected := onPunchDetected t |}
  ∧ depths {| heap := h; leftHandState := leftHandState t;
              rightHandState := s;
              onPunchDetected := onPunchDetected t |} (leftHandState t)
    = depths t (leftHandState t)
  ∧ velocities {| heap := h; leftHandState := leftHandState t;
                  rightHandState := s;
                  onPunchDetected := onPunchDetected t |} (leftHandState t)
    = velocities t (leftHandState t).
Proof.
  intros ((S1 & S2 & S3 & S4 & S5 & S6) & Hl & Hr) Hp.
  apply processHand_hand_ok in Hp as (Hr' & Ed & Ev & Hk); [|done..].
  unfold depths, velocities; simpl.
  rewrite !Hk by congruence. split; [|done].
  split; [|split]; simpl.
  - unfold separate; simpl. rewrite ?Ed, ?Ev. done.
  - apply (hand_ok_frame (heap t)); [apply Hk; congruence..|done].
  - exact Hr'.
Qed.

Lemma process_hands_ok hands now t ld rd t' events r :
  tracker_ok t ->
  process_hands hands now t ld rd = (t', events, r) ->
  tracker_ok t'.
Proof.
  revert t ld rd t' events r.
  induction hands as [|hand rest IH]; intros t ld rd t' events r Hok; simpl.
  { by intros [= <- _ _]. }
  destruct (String.eqb (label hand) "Right").
  - destruct (processHand _ (leftHandState t) _ _ _ _) as [[h s] r0] eqn:Hp.
    apply (processHand_left_ok _ _ _ _ _ _ _ _ Hok) in Hp as [Hok' _].
    destruct r0 as [evs|]; [|by intros [= <- _ _]].
    destruct (process_hands rest now _ true rd) as [[t2 ev2] r2] eqn:Hrec.
    intros [= <- _ _]. by eapply IH.
  - destruct (processHand _ (rightHandState t) _ _ _ _) as [[h s] r0] eqn:Hp.
    apply (processHand_right_ok _ _ _ _ _ _ _ _ Hok) in Hp as [Hok' _].
    destruct r0 as [evs|]; [|by intros [= <- _ _]].
    destruct (process_hands rest now _ ld true) as [[t2 ev2] r2] eqn:Hrec.
    intros [= <- _ _]. by eapply IH.
Qed.

Lemma update_ok results now t :
  tracker_ok t -> tracker_ok (update results now t).1.1.
Proof.
  intros Hok. unfold update.
  destruct (process_hands results now t false false) as [[t1 events] r] eqn:Hp.
  apply process_hands_ok in Hp; [|done].
  destruct r as [[ld rd]|]; [|done].
  destruct Hp as (Hsep & Hl & Hr).
  destruct ld, rd; simpl; (split; [exact Hsep|]); split;
    first [done | by apply decay_hand_ok].
Qed.

Lemma createHandState_pair_ok h cb :
  tracker_ok
    {| heap := (createHandState (createHandState h).2).2;
       leftHandState := (createHandState h).1;
       rightHandState := (createHandState (createHandState h).2).1;
       onPunchDetected := cb |}.
Proof.
  unfold tracker_ok, separate, hand_ok, array_get; simpl.
  repeat split; try lia; try reflexivity;
    rewrite ?lookup_insert_eq; simpl; try lia;
    repeat (rewrite lookup_insert_ne by lia); rewrite ?lookup_insert_eq;
    simpl; lia.
Qed.

Lemma init_ok : tracker_ok init.
Proof. apply (createHandState_pair_ok empty_heap false). Qed.

Lemma reset_ok t : tracker_ok (reset t).
Proof. apply (createHandState_pair_ok (heap t) (onPunchDetected t)). Qed.

Lemma reachable_ok t : reachable t -> tracker_ok t.
Proof.
  induction 1 as [|t results now _ IH|t _ _|t callback _ IH].
  - apply init_ok.
  - by apply update_ok.
  - apply reset_ok.
  - exact IH.
Qed.

End invariants.

(** ** Capacity of the histories *)

(** C8.  In every reachable state of the tracker, for each side, the depth
    history holds at most 5 entries and the velocity history at most 50; and
    a frame [processHand] processes on such a state either throws before
    touching the histories or pushes the new smoothed depth and the new
    velocity at the end of their histories, dropping the first (oldest) entry
    exactly when the history was full. *)
Theorem histories_bounded_fifo (t : Tracker) (Hreach : reachable t) :
  ((length (depths t (leftHandState t)) <= 5)%nat
   ∧ (length (velocities t (leftHandState t)) <= 50)%nat
   ∧ (length (depths t (rightHandState t)) <= 5)%nat
   ∧ (length (velocities t (rightHandState t)) <= 50)%nat)
  ∧ ∀ s landmarks name now cb h' s' r,
      s = leftHandState t ∨ s = rightHandState t ->
      processHand landmarks s name now cb (heap t) = (h', s', r) ->
      (h' = heap t ∧ s' = s ∧ r = TypeError)
      ∨ (array_get (depthHistory s) h'
         = (if (length (depths t s) <? 5)%nat
            then depths t s ++ [smoothedDepth s']
            else tail (depths t s) ++ [smoothedDepth s'])
         ∧ array_get (velocityHistory s) h'
           = (if (length (velocities t s) <? 50)%nat
              then velocities t s ++ [velocity s']
              else tail (velocities t s) ++ [velocity s'])).
Proof.
  apply reachable_ok in Hreach as (Hsep & Hl & Hr).
  split.
  { destruct Hl as (_ & _ & ? & ? & _), Hr as (_ & _ & ? & ? & _). done. }
  intros s landmarks name now cb h' s' r Hs Heq.
  assert (Hok : hand_ok (heap t) s ∧ depthHistory s ≠ velocityHistory s).
  { destruct Hsep as (? & ? & _). by destruct Hs as [->| ->]. }
  destruct Hok as ((Hmax & Hvmax & Hd & Hv & _) & Hne).
  apply processHand_cases in Heq as [(_ & ?)|Hp]; [by left|right].
  destruct (frame_processed_histories _ _ _ _ _ Hne Hp) as (-> & -> & _).
  rewrite Hmax, Hvmax. unfold depths, velocities.
  split; apply evict_push_fifo; (lia || done).
Qed.

Lemma run_reachable ticks t : reachable t -> reachable (run ticks t).1.
Proof.
  revert t. induction ticks as [|k rest IH]; intros t Hr; simpl; [done|].
  pose proof (reach_update t k.1 k.2 Hr) as Hr'.
  destruct (update k.1 k.2 t) as [[t' events] r]. simpl in Hr'.
  specialize (IH t' Hr'). by destruct (run rest t').
Qed.

(** After seven frames the depth history holds the smoothed depths of the
    last five, in the order they came. *)
Example fifo_after_seven_frames :
  let t := (run seven_frames init).1 in
  depths t (leftHandState t)
  = drop 2
      (map (fun n =>
              smoothedDepth (leftHandState (run (take n seven_frames) init).1))
         [1; 2; 3; 4; 5; 6; 7]%nat).
Proof. vm_compute. reflexivity. Qed.

(** The state after these seven frames is reachable. *)
Lemma histories_bounded_fifo_witness :
  let t := (run seven_frames init).1 in
  reachable t
  ∧ (length (depths t (leftHandState t)) <= 5)%nat
  ∧ (length (velocities t (leftHandState t)) <= 50)%nat.
Proof.
  assert (Hr : reachable (run seven_frames init).1)
    by apply run_reachable, reach_init.
  split; [exact Hr|].
  destruct (histories_bounded_fifo _ Hr) as [(Hd & Hv & _) _].
  split; [exact Hd|exact Hv].
Defined.

(** ** Velocity and depth history *)

Section velocity_lemmas.

(** After a frame that was processed, the velocity agrees with the
    history. *)
Lemma processHand_velocity_matches landmarks s name now cb h h' s' evs t' :
  depthHistory s ≠ velocityHistory s ->
  hand_ok h s ->
  processHand landmarks s name now cb h = (h', s', Ok evs) ->
  heap t' = h' ->
  velocity_matches t' s'.
Proof.
  intros Hne Hok Hp Ht'.
  destruct (processHand_hand_ok _ _ _ _ _ _ _ _ _ Hne Hok Hp)
    as ((_ & _ & _ & _ & Hq) & Ed & _ & _).
  apply processHand_cases in Hp as [(_ & _ & _ & [=])|Hf].
  destruct (frame_processed_histories _ _ _ _ _ Hne Hf) as (_ & _ & Hv & _).
  unfold velocity_matches, depths. rewrite Ht', Ed.
  rewrite Ed in Hq. split; [|done].
  intros Hlen. rewrite Hv. unfold velocity_after.
  destruct (Nat.leb_spec 2 (length (array_get (depthHistory s) h')));
    [done|lia].
Qed.

Lemma velocity_matches_frame t t' s :
  depths t' s = depths t s -> velocity_matches t s -> velocity_matches t' s.
Proof. unfold velocity_matches. by intros ->. Qed.

Lemma process_hands_velocity_matches hands now t ld rd t' events ld' rd' :
  tracker_ok t ->
  (ld = true -> velocity_matches t (leftHandState t)) ->
  (rd = true -> velocity_matches t (rightHandState t)) ->
  process_hands hands now t ld rd = (t', events, Ok (ld', rd')) ->
  (ld' = true -> velocity_matches t' (leftHandState t'))
  ∧ (rd' = true -> velocity_matches t' (rightHandState t')).
Proof.
  revert t ld rd t' events.
  induction hands as [|hand rest IH]; intros t ld rd t' events Hok Hl Hr; simpl.
  { by intros [= <- _ <- <-]. }
  destruct (String.eqb (label hand) "Right").
  - destruct (processHand _ (leftHandState t) _ _ _ _) as [[h s] r0] eqn:Hp.
    destruct (processHand_left_ok _ _ _ _ _ _ _ _ Hok Hp) as (Hok' & Hd & _).
    destruct r0 as [evs|]; [|by intros [=]].
    destruct (process_hands rest now _ true rd) as [[t2 ev2] r2] eqn:Hrec.
    intros [= <- _ ->]. eapply IH; [exact Hok'| | |exact Hrec]; simpl.
    + intros _. destruct Hok as ((S1 & _) & Hlok & _).
      by eapply processHand_velocity_matches.
    + intros Hrd. eapply velocity_matches_frame; [exact Hd|by apply Hr].
  - destruct (processHand _ (rightHandState t) _ _ _ _) as [[h s] r0] eqn:Hp.
    destruct (processHand_right_ok _ _ _ _ _ _ _ _ Hok Hp) as (Hok' & Hd & _).
    destruct r0 as [evs|]; [|by intros [=]].
    destruct (process_hands rest now _ ld true) as [[t2 ev2] r2] eqn:Hrec.
    intros [= <- _ ->]. eapply IH; [exact Hok'| | |exact Hrec]; simpl.
    + intros Hld. eapply velocity_matches_frame; [exact Hd|by apply Hl].
    + intros _. destruct Hok as ((_ & S2 & _) & _ & Hrok).
      by eapply processHand_velocity_matches.
Qed.

End velocity_lemmas.

(** The ticks of the counterexample: two frames of the left hand, the second
    one closer to the camera, then a frame without hands. *)
Example lost_hand_ticks_velocity :
  let t := tick ([], 1050) (tick (left_hand (-0.1), 1033)
                              (tick (left_hand 0, 1000) init)) in
  length (depths t (leftHandState t)) = 2%nat
  ∧ PrimFloat.eqb (velocity (leftHandState t))
      (array_nth (depths t (leftHandState t)) 1
       - array_nth (depths t (leftHandState t)) 0)%float = false.
Proof. vm_compute. done. Qed.

(** C5, as stated, fails: after two frames of the left hand and one frame
    without it, the history still holds the two depths while the velocity has
    been multiplied by 0.8. *)
Lemma velocity_not_always_history_difference :
  ¬ (∀ t, reachable t ->
          velocity_matches t (leftHandState t)
          ∧ velocity_matches t (rightHandState t)).
Proof.
  intros H.
  set (t := tick ([], 1050) (tick (left_hand (-0.1), 1033)
                               (tick (left_hand 0, 1000) init))).
  assert (Hr : reachable t) by (repeat apply reach_update; apply reach_init).
  destruct (H t Hr) as [[Hm _] _].
  assert (Hlen : (2 <= length (depths t (leftHandState t)))%nat)
    by (vm_compute; lia).
  specialize (Hm Hlen).
  apply (f_equal (fun v => PrimFloat.eqb v (velocity (leftHandState t)))) in Hm.
  vm_compute in Hm. discriminate Hm.
Qed.

(** C5, amended.  In every reachable state, for each side, the velocity is 0
    while the depth history holds fewer than two samples; and after every
    tick that returns, for each side whose hand was detected in that tick,
    the stored velocity is the difference of the last two samples of the
    depth history whenever it holds at least two (and 0 otherwise).  (On a
    tick without that hand the velocity is multiplied by 0.8 and the history
    is left as it is.) *)
Theorem velocity_matches_history_when_detected (t : Tracker)
    (Hreach : reachable t) :
  (((length (depths t (leftHandState t)) < 2)%nat ->
    velocity (leftHandState t) = 0%float)
   ∧ ((length (depths t (rightHandState t)) < 2)%nat ->
      velocity (rightHandState t) = 0%float))
  ∧ ∀ results now t' events snaps,
      update results now t = (t', events, Ok snaps) ->
      (is_Some (snap_left snaps) -> velocity_matches t' (leftHandState t'))
      ∧ (is_Some (snap_right snaps) ->
         velocity_matches t' (rightHandState t')).
Proof.
  apply reachable_ok in Hreach as Hok.
  split.
  { destruct Hok as (_ & (_ & _ & _ & _ & Hl) & (_ & _ & _ & _ & Hr)). done. }
  intros results now t' events snaps. unfold update.
  destruct (process_hands results now t false false)
    as [[t1 ev1] [[ld rd]|]] eqn:Hp; [|by intros [=]].
  apply process_hands_velocity_matches in Hp as [Hl Hr]; [|done..].
  intros [= <- _ <-]; simpl.
  destruct ld, rd; simpl; split; intros [? Hs]; try discriminate Hs;
    first [apply Hl | apply Hr]; done.
Qed.

(** A second frame of the left hand, after a first one. *)
Lemma velocity_matches_history_when_detected_witness :
  let t := tick (left_hand 0, 1000) init in
  reachable t
  ∧ velocity (leftHandState t) = 0%float
  ∧ ∃ t' events snaps,
      update (left_hand (-0.1)) 1033 t = (t', events, Ok snaps)
      ∧ velocity_matches t' (leftHandState t').
Proof.
  assert (Hr : reachable (tick (left_hand 0, 1000) init))
    by apply reach_update, reach_init.
  destruct (velocity_matches_history_when_detected _ Hr) as [[Hz _] Hu].
  split; [exact Hr|]. split.
  - apply Hz. vm_compute. lia.
  - assert (Hs : ∃ snap,
               match (update (left_hand (-0.1)) 1033
                        (tick (left_hand 0, 1000) init)).2 with
               | Ok snaps => snap_left snaps
               | TypeError => None
               end = Some snap)
      by (vm_compute; eauto).
    destruct (update (left_hand (-0.1)) 1033 (tick (left_hand 0, 1000) init))
      as [[t' events] [snaps|]] eqn:E.
    + exists t', events, snaps. split; [reflexivity|].
      apply (proj1 (Hu _ _ _ _ _ E)). exact Hs.
    + by destruct Hs as [? [=]].
Defined.

(** ** Frames: missing landmarks and missing z *)

Section frame_lemmas.

Lemma at_index_lt {A : Type} (a : list A) (i : nat) :
  (i < length a)%nat -> ∃ v, at_index a i = Ok v.
Proof.
  intros Hlt. unfold at_index.
  destruct (lookup_lt_is_Some_2 a i Hlt) as [v ->]. by exists v.
Qed.

Lemma at_index_ge {A : Type} (a : list A) (i : nat) :
  (length a <= i)%nat -> at_index a i = TypeError.
Proof.
  intros Hge. unfold at_index. by rewrite (lookup_ge_None_2 a i Hge).
Qed.

Lemma at_index_map {A B : Type} (f : A -> B) (a : list A) (i : nat) :
  at_index (map f a) i
  = match at_index a i with Ok v => Ok (f v) | TypeError => TypeError end.
Proof.
  unfold at_index. change (map f a) with (f <$> a).
  rewrite list_lookup_fmap. by destruct (a !! i).
Qed.

Lemma sum_palm_total landmarks idxs totalZ :
  Forall (fun i => (i < length landmarks)%nat) idxs ->
  ∃ v, sum_palm landmarks idxs totalZ = Ok v.
Proof.
  intros Hall. revert totalZ.
  induction Hall as [|i idxs Hi _ IH]; intros totalZ; simpl.
  { by eexists. }
  destruct (at_index_lt landmarks i Hi) as [lm ->]. apply IH.
Qed.

Lemma measurements_total landmarks :
  (18 <= length landmarks)%nat ->
  ∃ palmDepth handScale center,
    calculatePalmDepth landmarks = Ok palmDepth
    ∧ calculateHandScale landmarks = Ok handScale
    ∧ calculateHandCenter landmarks = Ok center.
Proof.
  intros Hlen.
  destruct (sum_palm_total landmarks palmIndices 0%float) as [totalZ Hsum].
  { unfold palmIndices. repeat constructor; lia. }
  unfold calculatePalmDepth, calculateHandScale, calculateHandCenter.
  rewrite Hsum.
  destruct (at_index_lt landmarks 0) as [l0 ->]; [lia|].
  destruct (at_index_lt landmarks 5) as [l5 ->]; [lia|].
  destruct (at_index_lt landmarks 9) as [l9 ->]; [lia|].
  destruct (at_index_lt landmarks 17) as [l17 ->]; [lia|].
  by eexists _, _, _.
Qed.

Lemma count_curled_total landmarks fingers n :
  Forall (fun f => (f.1 < length landmarks)%nat
                   ∧ (f.2 < length landmarks)%nat) fingers ->
  (0 < length landmarks)%nat ->
  ∃ v, count_curled landmarks fingers n = Ok v.
Proof.
  intros Hall Hpos. revert n.
  induction Hall as [|[tipIdx mcpIdx] fingers [Ht Hm] _ IH]; intros n; simpl.
  { by eexists. }
  simpl in Ht, Hm.
  destruct (at_index_lt landmarks tipIdx Ht) as [tip ->].
  destruct (at_index_lt landmarks 0 Hpos) as [wrist ->].
  destruct (at_index_lt landmarks mcpIdx Hm) as [mcp ->].
  apply IH.
Qed.

Lemma detectFist_total landmarks :
  (21 <= length landmarks)%nat -> ∃ fist, detectFist landmarks = Ok fist.
Proof.
  intros Hlen. unfold detectFist.
  destruct (count_curled_total landmarks (zip fingerTips fingerMCPs) 0%nat)
    as [n ->]; [|lia|by eexists].
  unfold fingerTips, fingerMCPs; simpl. repeat constructor; simpl; lia.
Qed.

(** A frame without landmark 20 makes [detectFist] throw, and one without
    landmark 17 makes [calculatePalmDepth] throw. *)
Lemma detectFist_short landmarks :
  (length landmarks < 21)%nat -> detectFist landmarks = TypeError.
Proof.
  intros Hlen. unfold detectFist, fingerTips, fingerMCPs; simpl.
  destruct (Nat.le_gt_cases (length landmarks) 8) as [H8|H8].
  { by rewrite (at_index_ge landmarks 8 H8). }
  destruct (at_index_lt landmarks 8) as [l8 ->]; [lia|].
  destruct (at_index_lt landmarks 0) as [l0 ->]; [lia|].
  destruct (at_index_lt landmarks 5) as [l5 ->]; [lia|]. simpl.
  destruct (Nat.le_gt_cases (length landmarks) 12) as [H12|H12].
  { by rewrite (at_index_ge landmarks 12 H12). }
  destruct (at_index_lt landmarks 12) as [l12 ->]; [lia|].
  destruct (at_index_lt landmarks 9) as [l9 ->]; [lia|]. simpl.
  destruct (Nat.le_gt_cases (length landmarks) 16) as [H16|H16].
  { by rewrite (at_index_ge landmarks 16 H16). }
  destruct (at_index_lt landmarks 16) as [l16 ->]; [lia|].
  destruct (Nat.le_gt_cases (length landmarks) 13) as [H13|H13]; [lia|].
  destruct (at_index_lt landmarks 13) as [l13 ->]; [lia|]. simpl.
  by rewrite (at_index_ge landmarks 20) by lia.
Qed.

Lemma or_zero_with_default_z lm :
  or_zero (lm_z (with_default_z lm)) = or_zero (lm_z lm).
Proof.
  unfold with_default_z. destruct (lm_z lm) eqn:E; rewrite ?E; reflexivity.
Qed.

Lemma lm_x_with_default_z lm : lm_x (with_default_z lm) = lm_x lm.
Proof. unfold with_default_z. by destruct (lm_z lm). Qed.

Lemma lm_y_with_default_z lm : lm_y (with_default_z lm) = lm_y lm.
Proof. unfold with_default_z. by destruct (lm_z lm). Qed.

Lemma sum_palm_default_z landmarks idxs totalZ :
  sum_palm (map with_default_z landmarks) idxs totalZ
  = sum_palm landmarks idxs totalZ.
Proof.
  revert totalZ. induction idxs as [|i idxs IH]; intros totalZ; simpl; [done|].
  rewrite at_index_map. destruct (at_index landmarks i); simpl; [|done].
  by rewrite or_zero_with_default_z, IH.
Qed.

Lemma calculatePalmDepth_default_z landmarks :
  calculatePalmDepth (map with_default_z landmarks)
  = calculatePalmDepth landmarks.
Proof. unfold calculatePalmDepth. by rewrite sum_palm_default_z. Qed.

Lemma calculateHandScale_default_z landmarks :
  calculateHandScale (map with_default_z landmarks)
  = calculateHandScale landmarks.
Proof.
  unfold calculateHandScale. rewrite !at_index_map.
  destruct (at_index landmarks 9); simpl; [|done].
  destruct (at_index landmarks 0); simpl; [|done].
  by rewrite !or_zero_with_default_z, !lm_x_with_default_z,
    !lm_y_with_default_z.
Qed.

Lemma calculateHandCenter_default_z landmarks :
  calculateHandCenter (map with_default_z landmarks)
  = calculateHandCenter landmarks.
Proof.
  unfold calculateHandCenter. rewrite !at_index_map.
  destruct (at_index landmarks 0); simpl; [|done].
  destruct (at_index landmarks 5); simpl; [|done].
  destruct (at_index landmarks 17); simpl; [|done].
  by rewrite !or_zero_with_default_z, !lm_x_with_default_z,
    !lm_y_with_default_z.
Qed.

Lemma count_curled_default_z landmarks fingers n :
  count_curled (map with_default_z landmarks) fingers n
  = count_curled landmarks fingers n.
Proof.
  revert n. induction fingers as [|[tipIdx mcpIdx] fingers IH]; intros n;
    simpl; [done|].
  rewrite !at_index_map.
  destruct (at_index landmarks tipIdx); simpl; [|done].
  destruct (at_index landmarks 0); simpl; [|done].
  destruct (at_index landmarks mcpIdx); simpl; [|done].
  by rewrite !lm_x_with_default_z, !lm_y_with_default_z, IH.
Qed.

Lemma detectFist_default_z landmarks :
  detectFist (map with_default_z landmarks) = detectFist landmarks.
Proof. unfold detectFist. by rewrite count_curled_default_z. Qed.

Lemma processHand_default_z landmarks s name now cb h :
  processHand (map with_default_z landmarks) s name now cb h
  = processHand landmarks s name now cb h.
Proof.
  unfold processHand.
  by rewrite calculatePalmDepth_default_z, calculateHandScale_default_z,
    calculateHandCenter_default_z, detectFist_default_z.
Qed.

Lemma processHand_total landmarks s name now cb h :
  (21 <= length landmarks)%nat ->
  ∃ events, (processHand landmarks s name now cb h).2 = Ok events.
Proof.
  intros Hlen. rewrite processHand_stages.
  destruct (measurements_total landmarks) as (p & sc & c & -> & -> & ->);
    [lia|].
  destruct (detectFist_total landmarks Hlen) as [fist ->].
  cbv zeta. by eexists.
Qed.

Lemma processHand_short landmarks s name now cb h :
  (length landmarks < 21)%nat ->
  (processHand landmarks s name now cb h).2 = TypeError.
Proof.
  intros Hlen. rewrite processHand_stages.
  destruct (calculatePalmDepth landmarks); [|done].
  destruct (calculateHandScale landmarks); [|done].
  destruct (calculateHandCenter landmarks); [|done].
  by rewrite (detectFist_short landmarks Hlen).
Qed.

End frame_lemmas.

(** C3, as stated, fails: on a frame of ten landmarks [processHand] throws
    a [TypeError] (reading [landmarks[13].z] in [calculatePalmDepth]). *)
Lemma short_frame_throws :
  (length (take 10 (frame 0)) < 21)%nat
  ∧ (processHand (take 10 (frame 0)) (leftHandState init) "left" 1000 false
       (heap init)).2 = TypeError.
Proof. split; [vm_compute; lia|reflexivity]. Qed.

(** C3, amended.  The per-frame processing (palm depth, scale, hand center,
    fist detection) treats every missing z coordinate as 0: it leaves the
    heap, the hand state and the result it would leave on the frame whose
    missing z coordinates are 0.  On every hand frame of at least 21
    landmarks, whether or not its points have a z coordinate, it returns
    without throwing; on a frame of fewer than 21 landmarks it throws a
    [TypeError]. *)
Theorem frame_processing_completes (landmarks : list Landmark) (s : HandState)
    (name : string) (now : Z) (cb : bool) (h : Heap) :
  processHand landmarks s name now cb h
  = processHand (map with_default_z landmarks) s name now cb h
  ∧ ((21 <= length landmarks)%nat ->
     ∃ events, (processHand landmarks s name now cb h).2 = Ok events)
  ∧ ((length landmarks < 21)%nat ->
     (processHand landmarks s name now cb h).2 = TypeError).
Proof.
  split; [|split].
  - symmetry. apply processHand_default_z.
  - apply processHand_total.
  - apply processHand_short.
Qed.

(** A frame of 21 landmarks none of which has a z coordinate. *)
Lemma frame_processing_completes_witness :
  let landmarks := replicate 21 (mkLandmark 0.5 0.5 None) in
  (21 <= length landmarks)%nat
  ∧ ∃ events,
      (processHand landmarks (leftHandState init) "left" 1000 false
         (heap init)).2 = Ok events.
Proof.
  split; [vm_compute; lia|].
  apply (frame_processing_completes _ (leftHandState init) "left" 1000 false
           (heap init)).
  vm_compute; lia.
Defined.

(** ** The depth formula *)

Lemma float_mul_comm (a b : float) : (a * b = b * a)%float.
Proof.
  apply Prim2SF_inj. rewrite !mul_spec. unfold SF64mul, SFmul.
  destruct (Prim2SF a) as [sa|sa| |sa ma ea],
           (Prim2SF b) as [sb|sb| |sb mb eb];
    try reflexivity; try (by rewrite (xorb_comm sa sb)).
  by rewrite (xorb_comm sa sb), (Pos.mul_comm ma mb), (Z.add_comm ea eb).
Qed.

(** C7.  For every landmark set on which the three measurements are defined
    (landmarks 0 to 17 present) and every prior state, [processHand] stores
    [scaleDepth = -(scale - referenceScale) / referenceScale] with
    [referenceScale = 0.15], [rawCombinedDepth = (0.6 * palmDepth + 0.4 *
    scaleDepth) * 1.5], and sets [smoothedDepth] to [smoothedDepth * (1 -
    0.7) + rawCombinedDepth * 0.7], where [palmDepth] and [scale] are the palm
    depth and the hand scale of the frame. *)
Theorem depth_update_formula (landmarks : list Landmark) (s : HandState)
    (name : string) (now : Z) (cb : bool) (h h' : Heap) (s' : HandState)
    (r : result (list PunchEvent))
    (Hlen : (18 <= length landmarks)%nat) :
  processHand landmarks s name now cb h = (h', s', r) ->
  ∃ palmDepth handScale,
    calculatePalmDepth landmarks = Ok palmDepth
    ∧ calculateHandScale landmarks = Ok handScale
    ∧ scaleDepth s' = (- (handScale - 0.15) / 0.15)%float
    ∧ rawCombinedDepth s'
      = ((0.6 * palmDepth + 0.4 * scaleDepth s') * 1.5)%float
    ∧ smoothedDepth s'
      = (smoothedDepth s * (1 - 0.7) + rawCombinedDepth s' * 0.7)%float.
Proof.
  intros Hp.
  destruct (measurements_total landmarks Hlen) as (p & sc & c & Ep & Es & Ec).
  apply processHand_cases in Hp as [([E|[E|E]] & _)|Hf]; [congruence..|].
  destruct Hf as (palmDepth & handScale & center & Hpalm & Hscale & _ & Hf).
  cbv zeta in Hf.
  destruct Hf as (_ & _ & _ & _ & _ & _ & Esd & Eraw & Esm & _).
  exists palmDepth, handScale. split; [done|]. split; [done|].
  rewrite Esm, Eraw, Esd. unfold smoothed_of, rawDepth_of, scaleDepth_of.
  rewrite (float_mul_comm 0.6), (float_mul_comm 0.4).
  done.
Qed.

(** A full frame, processed from the initial state of the left hand. *)
Lemma depth_update_formula_witness :
  let s := leftHandState init in
  let out := processHand (frame (-0.1)) s "left" 1000 false (heap init) in
  (18 <= length (frame (-0.1)))%nat
  ∧ smoothedDepth out.1.2
    = (smoothedDepth s * (1 - 0.7) + rawCombinedDepth out.1.2 * 0.7)%float.
Proof.
  assert (Hlen : (18 <= length (frame (-0.1)))%nat) by (vm_compute; lia).
  split; [exact Hlen|].
  destruct (processHand (frame (-0.1)) (leftHandState init) "left" 1000 false
              (heap init)) as [[h' s'] r] eqn:E.
  destruct (depth_update_formula _ _ _ _ _ _ _ _ _ Hlen E)
    as (p & sc & _ & _ & _ & _ & Hs).
  exact Hs.
Defined.

(** ** Ticks without a hand *)

Section undetected_lemmas.

(** The flags of [update]'s loop are only ever set. *)
Lemma process_hands_flags hands now t ld rd t' events ld' rd' :
  process_hands hands now t ld rd = (t', events, Ok (ld', rd')) ->
  (ld = true -> ld' = true) ∧ (rd = true -> rd' = true).
Proof.
  revert t ld rd t' events.
  induction hands as [|hand rest IH]; intros t ld rd t' events; simpl.
  { by intros [= _ _ <- <-]. }
  destruct (String.eqb (label hand) "Right").
  - destruct (processHand _ (leftHandState t) _ _ _ _) as [[h s] [evs|]];
      [|by intros [=]].
    destruct (process_hands rest now _ true rd) as [[t2 ev2] r2] eqn:Hrec.
    intros [= _ _ ->]. apply IH in Hrec as [H1 H2]. split; auto.
  - destruct (processHand _ (rightHandState t) _ _ _ _) as [[h s] [evs|]];
      [|by intros [=]].
    destruct (process_hands rest now _ ld true) as [[t2 ev2] r2] eqn:Hrec.
    intros [= _ _ ->]. apply IH in Hrec as [H1 H2]. split; auto.
Qed.

(** A side that is not flagged at the end of the loop was not touched. *)
Lemma process_hands_left_untouched hands now t ld rd t' events rd' :
  tracker_ok t ->
  process_hands hands now t ld rd = (t', events, Ok (false, rd')) ->
  leftHandState t' = leftHandState t
  ∧ depths t' (leftHandState t) = depths t (leftHandState t)
  ∧ velocities t' (leftHandState t) = velocities t (leftHandState t).
Proof.
  revert t ld rd t' events.
  induction hands as [|hand rest IH]; intros t ld rd t' events Hok; simpl.
  { by intros [= <- _ _ _]. }
  destruct (String.eqb (label hand) "Right").
  - destruct (processHand _ (leftHandState t) _ _ _ _) as [[h s] [evs|]];
      [|by intros [=]].
    destruct (process_hands rest now _ true rd) as [[t2 ev2] r2] eqn:Hrec.
    intros [= _ _ ->]. apply process_hands_flags in Hrec as [H1 _].
    by specialize (H1 eq_refl).
  - destruct (processHand _ (rightHandState t) _ _ _ _) as [[h s] r0] eqn:Hp.
    destruct (processHand_right_ok _ _ _ _ _ _ _ _ Hok Hp) as (Hok' & Hd & Hv).
    destruct r0 as [evs|]; [|by intros [=]].
    destruct (process_hands rest now _ ld true) as [[t2 ev2] r2] eqn:Hrec.
    intros [= <- _ ->]. apply IH in Hrec as (E & Ed & Ev); [|done].
    simpl in E, Ed, Ev. rewrite E, Ed, Ev. done.
Qed.

Lemma process_hands_right_untouched hands now t ld rd t' events ld' :
  tracker_ok t ->
  process_hands hands now t ld rd = (t', events, Ok (ld', false)) ->
  rightHandState t' = rightHandState t
  ∧ depths t' (rightHandState t) = depths t (rightHandState t)
  ∧ velocities t' (rightHandState t) = velocities t (rightHandState t).
Proof.
  revert t ld rd t' events.
  induction hands as [|hand rest IH]; intros t ld rd t' events Hok; simpl.
  { by intros [= <- _ _ _]. }
  destruct (String.eqb (label hand) "Right").
  - destruct (processHand _ (leftHandState t) _ _ _ _) as [[h s] r0] eqn:Hp.
    destruct (processHand_left_ok _ _ _ _ _ _ _ _ Hok Hp) as (Hok' & Hd & Hv).
    destruct r0 as [evs|]; [|by intros [=]].
    destruct (process_hands rest now _ true rd) as [[t2 ev2] r2] eqn:Hrec.
    intros [= <- _ ->]. apply IH in Hrec as (E & Ed & Ev); [|done].
    simpl in E, Ed, Ev. rewrite E, Ed, Ev. done.
  - destruct (processHand _ (rightHandState t) _ _ _ _) as [[h s] [evs|]];
      [|by intros [=]].
    destruct (process_hands rest now _ ld true) as [[t2 ev2] r2] eqn:Hrec.
    intros [= _ _ ->]. apply process_hands_flags in Hrec as [_ H2].
    by specialize (H2 eq_refl).
Qed.

Lemma decayed_intro t t' s :
  depths t' s = depths t s ->
  velocities t' s = velocities t s ->
  decayed t t' s (decay s).
Proof.
  intros Hd Hv. unfold decayed. repeat split; try done.
  intros landmarks name now cb h2 s2 events Hp.
  apply processHand_cases in Hp as [(_ & _ & _ & [=])|Hf].
  destruct Hf as (palmDepth & handScale & center & _ & _ & _ & Hf).
  cbv zeta in Hf.
  destruct Hf as (_ & _ & _ & _ & _ & _ & _ & -> & -> & _).
  reflexivity.
Qed.

(** On frames of 21 landmarks the loop returns, with a side flagged exactly
    when it was flagged before or one of the hands has its label. *)
Lemma process_hands_returns hands now t ld rd :
  Forall (fun hand => (21 <= length (landmarks_of hand))%nat) hands ->
  ∃ t' events,
    process_hands hands now t ld rd
    = (t', events,
       Ok (ld || existsb (fun hand => String.eqb (label hand) "Right") hands,
           rd || existsb (fun hand => negb (String.eqb (label hand) "Right"))
                   hands)).
Proof.
  intros Hall. revert t ld rd.
  induction Hall as [|hand rest Hlen _ IH]; intros t ld rd; simpl.
  { rewrite !orb_false_r. by eexists _, _. }
  destruct (String.eqb (label hand) "Right"); simpl.
  - destruct (processHand_total (landmarks_of hand) (leftHandState t) "left"
                now (onPunchDetected t) (heap t) Hlen) as [evs Hevs].
    destruct (processHand _ (leftHandState t) _ _ _ _) as [[h s] r].
    simpl in Hevs. subst r.
    edestruct IH as (t' & events & ->).
    rewrite orb_true_r. by eexists _, _.
  - destruct (processHand_total (landmarks_of hand) (rightHandState t)
                "right" now (onPunchDetected t) (heap t) Hlen)
      as [evs Hevs].
    destruct (processHand _ (rightHandState t) _ _ _ _) as [[h s] r].
    simpl in Hevs. subst r.
    edestruct IH as (t' & events & ->).
    rewrite orb_true_r. by eexists _, _.
Qed.

Lemma existsb_false_Forall {A : Type} (f : A -> bool) (l : list A) :
  Forall (fun a => f a = false) l -> existsb f l = false.
Proof. induction 1 as [|a l Ha _ IH]; simpl; [done|]. by rewrite Ha, IH. Qed.

End undetected_lemmas.

(** C10.  On every tick from a reachable state whose frames have their 21
    landmarks, [update] returns; and for a side whose hand is not among the
    detected hands of that tick, that side's [smoothedDepth], depth history
    and velocity history are as before, its [depth] has been multiplied by
    0.9, its [velocity] by 0.8, [isPunching] is false and no other field has
    changed; the next frame processed for that hand smooths from the
    [smoothedDepth] of before the loss, not from the decayed [depth]. *)
Theorem undetected_side_decays (t : Tracker) (Hreach : reachable t)
    (results : Results) (now : Z)
    (Hframes : Forall (fun hand => (21 <= length (landmarks_of hand))%nat)
                 results) :
  ∃ t' events snaps,
    update results now t = (t', events, Ok snaps)
    ∧ (Forall (fun hand => label hand ≠ "Right") results ->
       snap_left snaps = None
       ∧ decayed t t' (leftHandState t) (leftHandState t'))
    ∧ (Forall (fun hand => label hand = "Right") results ->
       snap_right snaps = None
       ∧ decayed t t' (rightHandState t) (rightHandState t')).
Proof.
  apply reachable_ok in Hreach as Hok. unfold update.
  destruct (process_hands_returns results now t false false Hframes)
    as (t1 & ev1 & Hp).
  rewrite Hp. simpl. eexists _, _, _. split; [reflexivity|]. simpl. split.
  - intros Hno.
    rewrite existsb_false_Forall in Hp |- *.
    2,3: eapply Forall_impl; [exact Hno|]; simpl; intros hand Hne;
         by apply String.eqb_neq.
    split; [done|].
    apply process_hands_left_untouched in Hp as (E & Ed & Ev); [|done].
    destruct (existsb _ results); simpl; rewrite E; by apply decayed_intro.
  - intros Hall.
    rewrite (existsb_false_Forall
               (fun hand => negb (String.eqb (label hand) "Right")))
      in Hp |- *.
    2,3: eapply Forall_impl; [exact Hall|]; simpl; intros hand ->; done.
    split; [done|].
    apply process_hands_right_untouched in Hp as (E & Ed & Ev); [|done].
    destruct (existsb _ results); simpl; rewrite E; by apply decayed_intro.
Qed.

(** A tick without hands after a frame of the left hand. *)
Lemma undetected_side_decays_witness :
  let t := tick (left_hand (-0.1), 1000) init in
  reachable t
  ∧ ∃ t' events snaps,
      update [] 1033 t = (t', events, Ok snaps)
      ∧ snap_left snaps = None
      ∧ decayed t t' (leftHandState t) (leftHandState t').
Proof.
  assert (Hr : reachable (tick (left_hand (-0.1), 1000) init))
    by apply reach_update, reach_init.
  split; [exact Hr|].
  destruct (undetected_side_decays _ Hr [] 1033 (Forall_nil_2 _))
    as (t' & events & snaps & Hu & Hl & _).
  exists t', events, snaps. split; [exact Hu|]. apply Hl. constructor.
Defined.

(** ** The cooldown while the hand stays detected *)

Section cooldown_lemmas.

Lemma spaced_snoc d times b :
  spaced d times ->
  (∀ a, last times = Some a -> d < b - a) ->
  spaced d (times ++ [b]).
Proof.
  intros Hs Hlast i x y Hx Hy.
  destruct (Nat.lt_ge_cases (S i) (length times)) as [Hlt|Hge].
  - rewrite lookup_app_l in Hx by lia. rewrite lookup_app_l in Hy by lia.
    by eapply Hs.
  - apply lookup_lt_Some in Hy as Hlen. rewrite length_app in Hlen.
    simpl in Hlen. assert (Hi : S i = length times) by lia.
    rewrite lookup_app_l in Hx by lia.
    rewrite lookup_app_r in Hy by lia.
    replace (S i - length times)%nat with 0%nat in Hy by lia.
    injection Hy as <-. apply Hlast.
    rewrite last_lookup. rewrite <- Hx. f_equal. lia.
Qed.

Lemma cooling_later s times now now' :
  now <= now' -> cooling s times now -> cooling s times now'.
Proof.
  intros Hle [Hs Hl]. split; [done|].
  intros a Ha. destruct (Hl a Ha). split; [lia|done].
Qed.

(** The punch detection keeps the invariant, and when it raises an event
    the last one is more than the cooldown back. *)
Lemma punch_stage_cooling s times now :
  cooling s times now ->
  if punch_onset s now
  then cooling (after_offset (after_onset s now) now) (times ++ [now]) now
  else cooling (after_offset (after_onset s now) now) times now.
Proof.
  intros [Hs Hl]. unfold after_onset.
  destruct (punch_onset s now) eqn:Hon.
  - unfold punch_onset in Hon.
    apply andb_true_iff in Hon as [Hon Hcool].
    apply andb_true_iff in Hon as [Hnp _].
    apply negb_true_iff in Hnp. apply Z.ltb_lt in Hcool.
    split.
    + apply spaced_snoc; [done|]. intros a Ha.
      destruct (Hl a Ha) as [_ Hle]. specialize (Hle Hnp). lia.
    + intros a. rewrite last_snoc. intros [= <-]. split; [lia|].
      unfold after_offset. destruct (punch_offset _); simpl; [lia|done].
  - split; [done|]. intros a Ha. destruct (Hl a Ha) as [Hle Hp].
    split; [done|]. unfold after_offset.
    destruct (punch_offset s); simpl; [lia|done].
Qed.

Lemma processHand_cooling landmarks s name now cb h h' s' r times :
  cooling s times now ->
  processHand landmarks s name now cb h = (h', s', r) ->
  cooling s'
    (times ++ times_of name now (match r with Ok evs => evs | _ => [] end))
    now.
Proof.
  intros Hc. rewrite processHand_stages.
  destruct (calculatePalmDepth landmarks) as [palmDepth|];
    [|intros [= _ <- <-]; by rewrite app_nil_r].
  destruct (calculateHandScale landmarks) as [handScale|];
    [|intros [= _ <- <-]; by rewrite app_nil_r].
  destruct (calculateHandCenter landmarks) as [center|];
    [|intros [= _ <- <-]; by rewrite app_nil_r].
  cbv zeta.
  match goal with
  | |- context [set_measurements ?a ?b ?c ?d ?e ?f ?g ?i] =>
      set (s1 := set_measurements a b c d e f g i)
  end.
  assert (Hc1 : ∀ fist, cooling (set_isFist s1 fist) times now).
  { intros fist. destruct Hc as [Hs Hl]. split; [done|]. exact Hl. }
  destruct (detectFist landmarks) as [fist|].
  - intros [= _ <- <-].
    pose proof (punch_stage_cooling _ _ _ (Hc1 fist)) as Hp.
    unfold punch_events, times_of.
    destruct (punch_onset (set_isFist s1 fist) now); simpl.
    + destruct cb; simpl.
      * rewrite filter_cons_True by done. exact Hp.
      * rewrite app_nil_r.
        destruct Hp as [_ Hl]. destruct (Hc1 fist) as [Hs0 Hl0].
        split; [done|]. intros a Ha. destruct (Hl0 a Ha) as [Hle _].
        split; [done|]. intros Hnp.
        destruct (Hl now) as [_ Hle']; [by rewrite last_snoc|].
        specialize (Hle' Hnp). lia.
    + rewrite app_nil_r. exact Hp.
  - intros [= _ <- <-]. simpl. rewrite app_nil_r.
    destruct Hc as [Hs Hl]. split; [done|]. exact Hl.
Qed.

Lemma times_of_app side now ev1 ev2 :
  times_of side now (ev1 ++ ev2)
  = times_of side now ev1 ++ times_of side now ev2.
Proof. unfold times_of. by rewrite filter_app, map_app. Qed.

Lemma times_of_other side name now events :
  name ≠ side ->
  Forall (fun e => ev_hand e = name) events ->
  times_of side now events = [].
Proof.
  intros Hne Hall. unfold times_of.
  induction Hall as [|e events He _ IH]; [done|].
  rewrite filter_cons_False by congruence. exact IH.
Qed.

Lemma processHand_events_hand landmarks s name now cb h h' s' events :
  processHand landmarks s name now cb h = (h', s', Ok events) ->
  Forall (fun e => ev_hand e = name) events.
Proof.
  rewrite processHand_stages.
  destruct (calculatePalmDepth landmarks); [|done].
  destruct (calculateHandScale landmarks); [|done].
  destruct (calculateHandCenter landmarks); [|done].
  cbv zeta. destruct (detectFist landmarks); [|done].
  intros [= _ _ <-]. unfold punch_events.
  destruct (_ && cb); repeat constructor.
Qed.

Lemma punch_times_tick side now events log :
  punch_times side (map (pair now) events ++ log)
  = times_of side now events ++ punch_times side log.
Proof.
  unfold punch_times, times_of. rewrite filter_app, map_app. f_equal.
  induction events as [|e events IH]; [done|]. simpl.
  destruct (decide (ev_hand e = side)) as [He|He].
  - rewrite !filter_cons_True by done. simpl. by rewrite IH.
  - rewrite !filter_cons_False by done. exact IH.
Qed.

(** The flags at the end of the loop. *)
Lemma process_hands_flags_eq hands now t ld rd t' events ld' rd' :
  process_hands hands now t ld rd = (t', events, Ok (ld', rd')) ->
  ld' = ld || has_left hands ∧ rd' = rd || has_right hands.
Proof.
  revert t ld rd t' events.
  induction hands as [|hand rest IH]; intros t ld rd t' events; simpl.
  { intros [= _ _ <- <-]. by rewrite !orb_false_r. }
  destruct (String.eqb (label hand) "Right"); simpl.
  - destruct (processHand _ (leftHandState t) _ _ _ _) as [[h s] [evs|]];
      [|by intros [=]].
    destruct (process_hands rest now _ true rd) as [[t2 ev2] r2] eqn:Hrec.
    intros [= _ _ ->]. apply IH in Hrec as [-> ->].
    by rewrite orb_true_r.
  - destruct (processHand _ (rightHandState t) _ _ _ _) as [[h s] [evs|]];
      [|by intros [=]].
    destruct (process_hands rest now _ ld true) as [[t2 ev2] r2] eqn:Hrec.
    intros [= _ _ ->]. apply IH in Hrec as [-> ->].
    by rewrite orb_true_r.
Qed.

Lemma process_hands_cooling hands now t ld rd t' events r tl tr :
  cooling (leftHandState t) tl now ->
  cooling (rightHandState t) tr now ->
  process_hands hands now t ld rd = (t', events, r) ->
  cooling (leftHandState t') (tl ++ times_of "left" now events) now
  ∧ cooling (rightHandState t') (tr ++ times_of "right" now events) now.
Proof.
  revert t ld rd t' events r tl tr.
  induction hands as [|hand rest IH]; intros t ld rd t' events r tl tr Hl Hr;
    simpl.
  { intros [= <- <- _]. by rewrite !app_nil_r. }
  destruct (String.eqb (label hand) "Right").
  - destruct (processHand _ (leftHandState t) _ _ _ _) as [[h s] r0] eqn:Hp.
    pose proof (processHand_cooling _ _ _ _ _ _ _ _ _ _ Hl Hp) as Hl'.
    destruct r0 as [evs|].
    + pose proof (processHand_events_hand _ _ _ _ _ _ _ _ _ Hp) as Hev.
      destruct (process_hands rest now _ true rd) as [[t2 ev2] r2] eqn:Hrec.
      intros [= <- <- _]. rewrite !times_of_app, !app_assoc.
      rewrite (times_of_other "right" "left") by done. rewrite app_nil_r.
      eapply IH; [| |exact Hrec]; done.
    + intros [= <- <- _]. by rewrite !app_nil_r in *.
  - destruct (processHand _ (rightHandState t) _ _ _ _) as [[h s] r0] eqn:Hp.
    pose proof (processHand_cooling _ _ _ _ _ _ _ _ _ _ Hr Hp) as Hr'.
    destruct r0 as [evs|].
    + pose proof (processHand_events_hand _ _ _ _ _ _ _ _ _ Hp) as Hev.
      destruct (process_hands rest now _ ld true) as [[t2 ev2] r2] eqn:Hrec.
      intros [= <- <- _]. rewrite !times_of_app, !app_assoc.
      rewrite (times_of_other "left" "right") by done. rewrite app_nil_r.
      eapply IH; [| |exact Hrec]; done.
    + intros [= <- <- _]. by rewrite !app_nil_r in *.
Qed.

Lemma update_cooling results now t tl tr :
  cooling (leftHandState t) tl now ->
  cooling (rightHandState t) tr now ->
  (has_left results = true ->
   cooling (leftHandState (update results now t).1.1)
     (tl ++ times_of "left" now (update results now t).1.2) now)
  ∧ (has_right results = true ->
     cooling (rightHandState (update results now t).1.1)
       (tr ++ times_of "right" now (update results now t).1.2) now).
Proof.
  intros Hl Hr. unfold update.
  destruct (process_hands results now t false false) as [[t1 ev1] r] eqn:Hp.
  destruct (process_hands_cooling _ _ _ _ _ _ _ _ _ _ Hl Hr Hp) as [Hl' Hr'].
  destruct r as [[ld rd]|]; [|done].
  apply process_hands_flags_eq in Hp as [-> ->]. simpl.
  split; intros ->; simpl; by destruct (has_left results), (has_right results).
Qed.

Lemma cooling_nil s now : cooling s [] now.
Proof. split; [by intros i a b [=]|by intros a [=]]. Qed.

Lemma run_cooling_left ticks t times lo :
  cooling (leftHandState t) times lo ->
  not_before lo ticks ->
  Forall (fun k => has_left k.1 = true) ticks ->
  spaced PUNCH_COOLDOWN (times ++ punch_times "left" (run ticks t).2).
Proof.
  revert t times lo.
  induction ticks as [|k rest IH]; intros t times lo Hl Hasc Hall; simpl.
  { rewrite app_nil_r. apply Hl. }
  destruct Hasc as [Hlo Hasc]. inversion Hall as [|? ? Hk Hrest]; subst.
  apply (cooling_later _ _ _ _ Hlo) in Hl.
  destruct (update_cooling k.1 k.2 t times [] Hl (cooling_nil _ _))
    as [Hl' _].
  specialize (Hl' Hk).
  destruct (update k.1 k.2 t) as [[t' events] r] eqn:Hu. simpl in Hl'.
  specialize (IH t' _ _ Hl' Hasc Hrest).
  destruct (run rest t') as [t'' log] eqn:Hrun. simpl in IH |- *.
  by rewrite punch_times_tick, app_assoc.
Qed.

Lemma run_cooling_right ticks t times lo :
  cooling (rightHandState t) times lo ->
  not_before lo ticks ->
  Forall (fun k => has_right k.1 = true) ticks ->
  spaced PUNCH_COOLDOWN (times ++ punch_times "right" (run ticks t).2).
Proof.
  revert t times lo.
  induction ticks as [|k rest IH]; intros t times lo Hr Hasc Hall; simpl.
  { rewrite app_nil_r. apply Hr. }
  destruct Hasc as [Hlo Hasc]. inversion Hall as [|? ? Hk Hrest]; subst.
  apply (cooling_later _ _ _ _ Hlo) in Hr.
  destruct (update_cooling k.1 k.2 t [] times (cooling_nil _ _) Hr)
    as [_ Hr'].
  specialize (Hr' Hk).
  destruct (update k.1 k.2 t) as [[t' events] r] eqn:Hu. simpl in Hr'.
  specialize (IH t' _ _ Hr' Hasc Hrest).
  destruct (run rest t') as [t'' log] eqn:Hrun. simpl in IH |- *.
  by rewrite punch_times_tick, app_assoc.
Qed.

End cooldown_lemmas.

(** X1.  The cooldown holds on the path that ends a punch in [processHand]:
    in a run whose times do not decrease, from any state of the tracker, the
    punch events of a side that is detected on every tick are more than
    [PUNCH_COOLDOWN] apart. *)
Lemma cooldown_respected_while_detected (ticks : list Tick) (t : Tracker)
    (lo : Z) :
  not_before lo ticks ->
  (Forall (fun k => has_left k.1 = true) ticks ->
   spaced PUNCH_COOLDOWN (punch_times "left" (run ticks t).2))
  ∧ (Forall (fun k => has_right k.1 = true) ticks ->
     spaced PUNCH_COOLDOWN (punch_times "right" (run ticks t).2)).
Proof.
  intros Hasc. split; intros Hall.
  - apply (run_cooling_left ticks t [] lo (cooling_nil _ _) Hasc Hall).
  - apply (run_cooling_right ticks t [] lo (cooling_nil _ _) Hasc Hall).
Qed.

(** ** The cooldown and the loss of a hand *)

(** C1, on the code: a left hand that keeps moving forward, with one frame
    in between on which it is not detected, raises two punch events 33 ms
    apart.  The frame without the hand clears [isPunching] and leaves
    [lastPunchTime] as it was. *)
Theorem punch_refires_after_tracking_loss :
  let ticks := [ (left_hand 0, 1000); (left_hand (-0.1), 1033);
                 ([], 1050); (left_hand (-0.3), 1066) ] in
  punch_times "left" (run ticks (setOnPunchDetected true init)).2
  = [1033; 1066]
  ∧ 1066 - 1033 < PUNCH_COOLDOWN.
Proof. split; [vm_compute; reflexivity|reflexivity]. Qed.

(** ** Snapshots share the histories and the position *)

(** C4, on the code: a caller that pushes onto the [depthHistory] of a
    snapshot returned by [getHandStates], or assigns to the [x] of the
    [position] of a snapshot returned by [update], changes what the tracker
    reads afterwards; with the pushed entry the next frame even raises a
    punch event that it would not raise otherwise.  A push onto the
    [velocityHistory] that [getDebugData] returns, which is a copy, leaves
    the tracker's as it is. *)
Theorem snapshot_mutation_reaches_tracker :
  let t := tick (left_hand 0, 1000) (setOnPunchDetected true init) in
  let snap := (getHandStates t).1 in
  let t1 := caller_push_depthHistory snap 1 t in
  length (depths t (getHandStates t).1) = 1%nat
  ∧ length (depths t1 (getHandStates t1).1) = 2%nat
  ∧ last (depths t1 (getHandStates t1).1) = Some 1%float
  ∧ (update (left_hand 0) 1033 t).1.2 = []
  ∧ length (update (left_hand 0) 1033 t1).1.2 = 1%nat
  ∧ match update (left_hand 0) 1000 (setOnPunchDetected true init) with
    | (t, _, Ok {| snap_left := Some snap |}) =>
        pos_x (position_of t (leftHandState t)) = 0.5%float
        ∧ pos_x (position_of (caller_set_position_x snap 9 t)
                   (leftHandState (caller_set_position_x snap 9 t)))
          = 9%float
    | _ => False
    end
  ∧ match DepthSensorDebug.getDebugData t with
    | (dbg, _, _, t2) =>
        let t3 :=
          {| heap := array_push (DepthSensorDebug.dbg_velocityHistory dbg) 1
                       (heap t2);
             leftHandState := leftHandState t2;
             rightHandState := rightHandState t2;
             onPunchDetected := onPunchDetected t2 |} in
        velocities t3 (leftHandState t3) = velocities t (leftHandState t)
    end.
Proof. vm_compute. repeat split. Qed.

(** ** The stance classifier *)

Section classifier_lemmas.

Lemma gridPos_col rows x y :
  col (gridPos rows x y) = 0 ∨ col (gridPos rows x y) = 1.
Proof. unfold gridPos; simpl. destruct (x <? 0.5)%float; auto. Qed.

Lemma num_eq_true n k : num_eq n k = true -> n = Int k.
Proof.
  destruct n as [z|]; simpl; [|done]. intros H. apply Z.eqb_eq in H. by subst.
Qed.

Lemma num_ge_true n k : num_ge n k = true -> ∃ z, n = Int z ∧ k <= z.
Proof.
  destruct n as [z|]; simpl; [|done]. intros H. apply Z.leb_le in H. eauto.
Qed.

End classifier_lemmas.

(** C2, on the code: the cell [onResults] computes has column 0 or 1, so the
    logical column of the 4x6 version, the integer half of it, is always 0; a
    right hand alone at (0.25, 0.5) is [hookRight] for the 3x2 classifier and
    [blockBody] for the 4x6 one. *)
Theorem fine_grid_never_reaches_right_column :
  (∀ x y : float,
     CameraDetection4x6.getLogicalCol
       (col (gridPos CameraDetection4x6.GRID_ROWS x y)) = 0)
  ∧ CameraDetection.classify None (Some (0.25, 0.5)%float) = hookRight
  ∧ CameraDetection4x6.classify None (Some (0.25, 0.5)%float) = blockBody.
Proof.
  split; [|split; reflexivity].
  intros x y. unfold CameraDetection4x6.getLogicalCol.
  by destruct (gridPos_col CameraDetection4x6.GRID_ROWS x y) as [-> | ->].
Qed.




(** On the cells [onResults] computes, whose column is 0 or 1, the 4x4 and
    4x6 versions therefore always return [duckLeft] for two hands in the
    bottom row: there [duckRight] needs a left hand in column 2 or 3. *)
Lemma fine_grids_always_duck_left (lx ly rx ry : float) :
  (let lg := gridPos CameraDetection4x4.GRID_ROWS lx ly in
   let rg := gridPos CameraDetection4x4.GRID_ROWS rx ry in
   num_ge (row lg) 3 = true -> num_ge (row rg) 3 = true ->
   CameraDetection4x4.detectStance (Some lg) (Some rg) = duckLeft)
  ∧ (let lg := gridPos CameraDetection4x6.GRID_ROWS lx ly in
     let rg := gridPos CameraDetection4x6.GRID_ROWS rx ry in
     num_eq (CameraDetection4x6.getLogicalRow (row lg)) 2 = true ->
     num_eq (CameraDetection4x6.getLogicalRow (row rg)) 2 = true ->
     CameraDetection4x6.detectStance (Some lg) (Some rg) = duckLeft).
Proof.
  split; cbv zeta; intros Hl Hr.
  - unfold CameraDetection4x4.detectStance.
    destruct (num_ge_true _ _ Hl) as (zl & El & Hzl).
    destruct (num_ge_true _ _ Hr) as (zr & Er & Hzr).
    rewrite El, Er. cbv zeta. simpl num_le. simpl num_ge.
    destruct (Z.leb_spec zl 1); [lia|].
    destruct (Z.leb_spec 3 zl); [|lia].
    destruct (Z.leb_spec 3 zr); [|lia]. simpl.
    by destruct (lx <? 0.5)%float.
  - unfold CameraDetection4x6.detectStance. cbv zeta.
    rewrite (num_eq_true _ _ Hl), (num_eq_true _ _ Hr). simpl.
    by destruct (lx <? 0.5)%float.
Qed.

(** C9.  For every combination of optional left and right cells, none of the
    three versions of [detectStance] returns [uppercutLeft] or
    [uppercutRight], two of the keys of the renderer's [stances] table. *)
Theorem classifier_never_uppercut (lg rg : option GridPos) :
  (CameraDetection.detectStance lg rg ≠ uppercutLeft
   ∧ CameraDetection.detectStance lg rg ≠ uppercutRight)
  ∧ (CameraDetection4x4.detectStance lg rg ≠ uppercutLeft
     ∧ CameraDetection4x4.detectStance lg rg ≠ uppercutRight)
  ∧ (CameraDetection4x6.detectStance lg rg ≠ uppercutLeft
     ∧ CameraDetection4x6.detectStance lg rg ≠ uppercutRight).
Proof.
  unfold CameraDetection.detectStance, CameraDetection4x4.detectStance,
    CameraDetection4x6.detectStance.
  destruct lg as [lg|], rg as [rg|]; cbv zeta;
    repeat match goal with
           | |- context [if ?b then _ else _] => destruct b
           end;
    repeat split; discriminate.
Qed.

(** * Further properties of the code *)

(** ** Punch events *)

Section event_lemmas.

(** A quotient of an absolute value by a positive constant is NaN or has a
    positive sign: it is never below zero. *)
Lemma abs_div_not_negative (v c : float) (mc : positive) (ec : Z) :
  Prim2SF c = S754_finite false mc ec ->
  (Math_abs v / c <? 0)%float = false.
Proof.
  intros Hc. rewrite ltb_spec, div_spec. unfold Math_abs.
  rewrite abs_spec, Hc.
  change (Prim2SF 0) with (S754_zero false).
  destruct (Prim2SF v) as [s|s| |s m e]; simpl; try reflexivity.
  unfold SF64div, SFdiv.
  destruct (SFdiv_core_binary prec emax (Z.pos m) e (Z.pos mc) ec)
    as [[mz ez] lz].
  unfold binary_round_aux.
  destruct (shr_fexp prec emax mz ez lz) as [mrs' e'].
  destruct (shr_fexp prec emax _ e' loc_Exact) as [mrs'' e''].
  destruct (shr_m mrs'') as [|p|p]; try reflexivity.
  destruct (e'' <=? emax - prec); reflexivity.
Qed.

Lemma Math_min_one_bounds (x : float) :
  (x <? 0)%float = false ->
  (1 <? Math_min 1 x)%float = false ∧ (Math_min 1 x <? 0)%float = false.
Proof.
  intros Hx. unfold Math_min.
  destruct (is_nan 1 || is_nan x); [by split|].
  destruct (1 <? x)%float eqn:H1; [by split|].
  destruct (x <? 1)%float; [by split|].
  change (get_sign 1) with false. cbv iota. by split.
Qed.

Lemma punch_power_bounds s :
  (1 <? punch_power s)%float = false ∧ (punch_power s <? 0)%float = false.
Proof.
  unfold punch_power. apply Math_min_one_bounds.
  by eapply abs_div_not_negative.
Qed.

End event_lemmas.

(** A punch that starts in a frame cannot end in the same frame: a velocity
    below [-VELOCITY_THRESHOLD] is not above [-VELOCITY_THRESHOLD * 0.3]. *)
Lemma onset_excludes_offset (v : float) :
  (v <? - VELOCITY_THRESHOLD)%float = true ->
  (- VELOCITY_THRESHOLD * 0.3 <? v)%float = false.
Proof.
  rewrite !ltb_spec.
  assert (Ha : Prim2SF (- VELOCITY_THRESHOLD)%float
               = S754_finite true 6917529027641082 (-60)) by reflexivity.
  assert (Hb : Prim2SF (- VELOCITY_THRESHOLD * 0.3)%float
               = S754_finite true 8301034833169298 (-62)) by reflexivity.
  rewrite Ha, Hb. clear Ha Hb.
  destruct (Prim2SF v) as [s|s| |s m e]; try done.
  - by destruct s.
  - unfold SFltb, SFcompare. destruct s; [|done].
    destruct (Z.compare_spec e (-60)) as [He|He|He]; try done.
    + subst e. simpl Z.compare.
      rewrite !Pos.compare_cont_spec. simpl.
      destruct (Pos.compare_spec m 6917529027641082); try done.
    + destruct (Z.compare_spec (-62) e) as [He'|He'|He']; try done; lia.
Qed.

Lemma punch_stage_started s now :
  punch_onset s now = true ->
  let s' := after_offset (after_onset s now) now in
  isPunching s' = true ∧ punchStartTime s' = now
  ∧ punchPower s' = punch_power s ∧ lastPunchTime s' = lastPunchTime s.
Proof.
  intros Hon. unfold after_onset. rewrite Hon.
  assert (Hv : (velocity s <? - VELOCITY_THRESHOLD)%float = true).
  { unfold punch_onset in Hon. apply andb_true_iff in Hon as [Hon _].
    by apply andb_true_iff in Hon as [_ Hon]. }
  assert (Hoff : punch_offset (set_punch_started s now (punch_power s))
                 = false).
  { unfold punch_offset.
    change (velocity (set_punch_started s now (punch_power s)))
      with (velocity s).
    rewrite (onset_excludes_offset _ Hv). apply andb_false_r. }
  unfold after_offset. rewrite Hoff. done.
Qed.

(** X2.  Every punch event [processHand] raises is the only one of its call
    and is raised only with a callback registered, for a hand that was not
    punching and whose recorded [lastPunchTime] is more than
    [PUNCH_COOLDOWN] ms before [now] (the field is written only where
    [processHand] itself ends a punch and is 0 before, so a punch ended
    by the decay of [update] does not count);
    it carries the name of the hand, a velocity below
    [-VELOCITY_THRESHOLD], a power that is neither above 1 nor below 0, and
    the velocity, power, fist flag and position the hand state holds when
    the call returns; the hand is then punching, from [now] on. *)
Theorem punch_event_fields (landmarks : list Landmark) (s : HandState)
    (name : string) (now : Z) (cb : bool) (h h' : Heap) (s' : HandState)
    (events : list PunchEvent) (e : PunchEvent) :
  processHand landmarks s name now cb h = (h', s', Ok events) ->
  e ∈ events ->
  events = [e] ∧ cb = true
  ∧ isPunching s = false ∧ PUNCH_COOLDOWN < now - lastPunchTime s
  ∧ ev_hand e = name
  ∧ (ev_velocity e <? - VELOCITY_THRESHOLD)%float = true
  ∧ (1 <? ev_power e)%float = false ∧ (ev_power e <? 0)%float = false
  ∧ isPunching s' = true ∧ punchStartTime s' = now
  ∧ punchPower s' = ev_power e ∧ velocity s' = ev_velocity e
  ∧ isFist s' = ev_isFist e
  ∧ object_get (position s') h' = ev_position e.
Proof.
  rewrite processHand_stages.
  destruct (calculatePalmDepth landmarks) as [palmDepth|]; [|done].
  destruct (calculateHandScale landmarks) as [handScale|]; [|done].
  destruct (calculateHandCenter landmarks) as [center|]; [|done].
  cbv zeta.
  match goal with
  | |- context [set_measurements ?a ?b ?c ?d ?e ?f ?g ?i] =>
      set (s1 := set_measurements a b c d e f g i)
  end.
  match goal with
  | |- context [push_bounded (velocityHistory s) ?m ?v ?hh] =>
      set (h2 := push_bounded (velocityHistory s) m v hh)
  end.
  destruct (detectFist landmarks) as [fist|]; [|done].
  intros [= <- <- <-]. unfold punch_events.
  destruct (punch_onset (set_isFist s1 fist) now) eqn:Hon;
    [|by intros ?%elem_of_nil].
  destruct cb; [|by intros ?%elem_of_nil].
  intros ->%list_elem_of_singleton. simpl ev_hand. simpl ev_power.
  simpl ev_velocity. simpl ev_isFist. simpl ev_position.
  destruct (punch_stage_started _ _ Hon) as (Hp & Hst & Hpw & _).
  destruct (punch_stage_fields (set_isFist s1 fist) now)
    as (_ & _ & _ & _ & _ & _ & _ & _ & _ & Hvel & _ & Hpos & Hfist).
  destruct (punch_power_bounds (set_isFist s1 fist)) as [Hle Hge].
  unfold punch_onset in Hon.
  apply andb_true_iff in Hon as [Hon Hcool].
  apply andb_true_iff in Hon as [Hnp Hv].
  apply negb_true_iff in Hnp. apply Z.ltb_lt in Hcool.
  repeat split; try done.
  rewrite Hpos. subst s1 h2. simpl position.
  unfold push_bounded, array_push, array_shift, array_set, object_get,
    alloc_object; simpl.
  repeat match goal with
         | |- context [if ?b then _ else _] => destruct b
         end;
    simpl; by rewrite lookup_insert_eq.
Qed.

Lemma punch_event_fields_witness :
  let t := tick (left_hand 0, 1000) (setOnPunchDetected true init) in
  ∃ h' s' e,
    processHand (frame (-0.1)) (leftHandState t) "left" 1033 true (heap t)
    = (h', s', Ok [e])
    ∧ ev_hand e = "left" ∧ isPunching s' = true.
Proof.
  assert (Hev : ∃ e,
            (processHand (frame (-0.1))
               (leftHandState
                  (tick (left_hand 0, 1000) (setOnPunchDetected true init)))
               "left" 1033 true
               (heap (tick (left_hand 0, 1000)
                        (setOnPunchDetected true init)))).2 = Ok [e])
    by (vm_compute; eauto).
  cbv zeta.
  destruct (processHand (frame (-0.1))
              (leftHandState
                 (tick (left_hand 0, 1000) (setOnPunchDetected true init)))
              "left" 1033 true
              (heap (tick (left_hand 0, 1000)
                       (setOnPunchDetected true init))))
    as [[h' s'] r] eqn:E.
  destruct Hev as [e He]. change (r = Ok [e]) in He. subst r.
  exists h', s', e. split; [reflexivity|].
  destruct (punch_event_fields _ _ _ _ _ _ _ _ _ e E (list_elem_of_here _ _))
    as (_ & _ & _ & _ & Hh & _ & _ & _ & Hp & _).
  split; [exact Hh|exact Hp].
Defined.

(** ** Invariants of a hand state over the reachable trackers *)

Section hand_invariants.

(** A property of hand states that holds of a fresh state and that
    [processHand] and the decay keep holds of both hands of every reachable
    tracker. *)
Lemma reachable_hand_invariant (P : HandState -> Prop) :
  (∀ h, P (createHandState h).1) ->
  (∀ landmarks s name now cb h,
     P s -> P (processHand landmarks s name now cb h).1.2) ->
  (∀ s, P s -> P (decay s)) ->
  ∀ t, reachable t -> P (leftHandState t) ∧ P (rightHandState t).
Proof.
  intros Hnew Hproc Hdecay.
  assert (Hloop : ∀ hands now t ld rd,
            P (leftHandState t) ∧ P (rightHandState t) ->
            P (leftHandState (process_hands hands now t ld rd).1.1)
            ∧ P (rightHandState (process_hands hands now t ld rd).1.1)).
  { induction hands as [|hand rest IH]; intros now t ld rd [Hl Hr]; simpl;
      [done|].
    destruct (String.eqb (label hand) "Right").
    - pose proof (Hproc (landmarks_of hand) _ "left" now (onPunchDetected t)
                    (heap t) Hl) as Hl'.
      destruct (processHand _ (leftHandState t) _ _ _ _) as [[h s] [evs|]];
        simpl in Hl'; [|done].
      specialize (IH now {| heap := h; leftHandState := s;
                            rightHandState := rightHandState t;
                            onPunchDetected := onPunchDetected t |}
                    true rd (conj Hl' Hr)).
      by destruct (process_hands rest now _ true rd) as [[t2 ev2] r2].
    - pose proof (Hproc (landmarks_of hand) _ "right" now (onPunchDetected t)
                    (heap t) Hr) as Hr'.
      destruct (processHand _ (rightHandState t) _ _ _ _) as [[h s] [evs|]];
        simpl in Hr'; [|done].
      specialize (IH now {| heap := h; leftHandState := leftHandState t;
                            rightHandState := s;
                            onPunchDetected := onPunchDetected t |}
                    ld true (conj Hl Hr')).
      by destruct (process_hands rest now _ ld true) as [[t2 ev2] r2]. }
  induction 1 as [|t results now _ IH|t _ _|t callback _ IH].
  - split; apply Hnew.
  - specialize (Hloop results now t false false IH). unfold update.
    destruct (process_hands results now t false false)
      as [[t1 ev1] [[ld rd]|]]; simpl in *; [|done].
    destruct Hloop as [Hl Hr]. destruct ld, rd; simpl; auto.
  - split; apply Hnew.
  - exact IH.
Qed.

(** X3.  In every reachable state, for each side, the [depth] field is the
    [smoothedDepth] multiplied by 0.9 some number of times: they are equal
    after a processed frame, and every tick without the hand multiplies
    [depth] once more. *)
Theorem depth_is_decayed_smoothed_depth (t : Tracker) (Hreach : reachable t) :
  (∃ k, depth (leftHandState t)
        = decayed_depth k (smoothedDepth (leftHandState t)))
  ∧ (∃ k, depth (rightHandState t)
          = decayed_depth k (smoothedDepth (rightHandState t))).
Proof.
  revert t Hreach.
  apply (reachable_hand_invariant
           (fun s => ∃ k, depth s = decayed_depth k (smoothedDepth s))).
  - intros h. by exists 0%nat.
  - intros landmarks s name now cb h Hs.
    destruct (processHand landmarks s name now cb h) as [[h' s'] r] eqn:Hp.
    apply processHand_cases in Hp as [(_ & _ & -> & _)|Hf]; [done|].
    destruct Hf as (palmDepth & handScale & center & _ & _ & _ & Hf).
    cbv zeta in Hf.
    destruct Hf as (_ & _ & _ & _ & _ & _ & _ & _ & Esm & Ed & _).
    exists 0%nat. simpl. by rewrite Esm, Ed.
  - intros s [k Hk]. exists (S k). simpl. by rewrite Hk.
Qed.

End hand_invariants.

Lemma depth_is_decayed_smoothed_depth_witness :
  let t := tick ([], 1050) (tick (left_hand (-0.1), 1033) init) in
  reachable t
  ∧ ∃ k, depth (leftHandState t)
         = decayed_depth k (smoothedDepth (leftHandState t)).
Proof.
  assert (Hr : reachable (tick ([], 1050) (tick (left_hand (-0.1), 1033) init)))
    by (do 2 apply reach_update; apply reach_init).
  split; [exact Hr|].
  exact (proj1 (depth_is_decayed_smoothed_depth _ Hr)).
Defined.

(** ** Frames on a reachable state *)

(** X4.  On a hand whose depth history is empty (as after [init] or
    [reset]), in a reachable state, [processHand] raises no punch event,
    whatever the frame: the first depth sample gives no velocity. *)
Theorem first_frame_raises_no_punch (t : Tracker) (Hreach : reachable t)
    (s : HandState) (landmarks : list Landmark) (name : string) (now : Z)
    (cb : bool) (h' : Heap) (s' : HandState) (events : list PunchEvent) :
  s = leftHandState t ∨ s = rightHandState t ->
  depths t s = [] ->
  processHand landmarks s name now cb (heap t) = (h', s', Ok events) ->
  events = [] ∧ velocity s' = 0%float.
Proof.
  intros Hs Hempty Hp.
  apply reachable_ok in Hreach as (Hsep & Hl & Hr).
  assert (Hok : hand_ok (heap t) s ∧ depthHistory s ≠ velocityHistory s).
  { destruct Hsep as (? & ? & _). by destruct Hs as [->| ->]. }
  destruct Hok as ((Hmax & _ & _ & _ & Hq) & Hne).
  unfold depths in Hempty.
  assert (Hv0 : velocity s = 0%float) by (apply Hq; rewrite Hempty; simpl; lia).
  revert Hp. rewrite processHand_stages.
  destruct (calculatePalmDepth landmarks) as [palmDepth|]; [|done].
  destruct (calculateHandScale landmarks) as [handScale|]; [|done].
  destruct (calculateHandCenter landmarks) as [center|]; [|done].
  cbv zeta. rewrite array_get_push_bounded, array_get_alloc_object.
  rewrite Hempty, Hmax, Hv0.
  change (velocity_after (evict 5 ([] ++ [_])) 0%float) with 0%float.
  match goal with
  | |- context [set_measurements ?a ?b ?c ?d ?e ?f ?g ?i] =>
      set (s1 := set_measurements a b c d e f g i)
  end.
  destruct (detectFist landmarks) as [fist|]; [|done].
  assert (Hon : punch_onset (set_isFist s1 fist) now = false).
  { unfold punch_onset. change (velocity (set_isFist s1 fist)) with 0%float.
    change (0 <? - VELOCITY_THRESHOLD)%float with false.
    by rewrite andb_false_r. }
  intros [= _ <- <-]. unfold punch_events, after_onset. rewrite Hon.
  split; [done|].
  destruct (punch_stage_fields (set_isFist s1 fist) now)
    as (_ & _ & _ & _ & _ & _ & _ & _ & _ & Hvel & _).
  unfold after_onset in Hvel. rewrite Hon in Hvel. by rewrite Hvel.
Qed.

Lemma first_frame_raises_no_punch_witness :
  ∃ h' s',
    processHand (frame (-0.3)) (leftHandState init) "left" 1000 true
      (heap init) = (h', s', Ok [])
    ∧ velocity s' = 0%float.
Proof.
  assert (Hev : ∃ events,
            (processHand (frame (-0.3)) (leftHandState init) "left" 1000 true
               (heap init)).2 = Ok events)
    by (vm_compute; eauto).
  destruct (processHand (frame (-0.3)) (leftHandState init) "left" 1000 true
              (heap init)) as [[h' s'] r] eqn:E.
  destruct Hev as [events He]. change (r = Ok events) in He. subst r.
  destruct (first_frame_raises_no_punch init reach_init _ _ _ _ _ _ _ _
              (or_introl eq_refl) eq_refl E) as [-> Hv].
  by exists h', s'.
Defined.

Section history_lemmas.

Lemma last_evict_snoc max a v :
  (0 < max)%nat -> last (evict max (a ++ [v])) = Some v.
Proof.
  intros Hmax. unfold evict.
  destruct (Nat.ltb_spec max (length (a ++ [v]))) as [Hlt|_];
    [|apply last_snoc].
  destruct a as [|x a]; simpl in *; [lia|apply last_snoc].
Qed.

End history_lemmas.

(** X5.  In a reachable state, when [processHand] gets past the three
    measurements of a frame (it returns, or throws in [detectFist]), the
    last entry of the hand's depth history is its new [smoothedDepth], which
    is also its [depth], and the last entry of its velocity history is its
    new [velocity]. *)
Theorem histories_end_with_current_values (t : Tracker)
    (Hreach : reachable t) (s : HandState) (landmarks : list Landmark)
    (name : string) (now : Z) (cb : bool) (h' : Heap) (s' : HandState)
    (r : result (list PunchEvent)) :
  s = leftHandState t ∨ s = rightHandState t ->
  (18 <= length landmarks)%nat ->
  processHand landmarks s name now cb (heap t) = (h', s', r) ->
  last (array_get (depthHistory s') h') = Some (smoothedDepth s')
  ∧ depth s' = smoothedDepth s'
  ∧ last (array_get (velocityHistory s') h') = Some (velocity s').
Proof.
  intros Hs Hlen Hp.
  apply reachable_ok in Hreach as (Hsep & Hl & Hr).
  assert (Hok : hand_ok (heap t) s ∧ depthHistory s ≠ velocityHistory s).
  { destruct Hsep as (? & ? & _). by destruct Hs as [->| ->]. }
  destruct Hok as ((Hmax & Hvmax & _) & Hne).
  destruct (measurements_total landmarks Hlen) as (p & sc & c & Ep & Es & Ec).
  apply processHand_cases in Hp as [([E|[E|E]] & _)|Hf]; [congruence..|].
  destruct (frame_processed_histories _ _ _ _ _ Hne Hf) as (Hd & Hv & _).
  destruct Hf as (palmDepth & handScale & center & _ & _ & _ & Hf).
  cbv zeta in Hf.
  destruct Hf as (_ & Edh & Evh & _ & _ & _ & _ & _ & Esm & Edepth & _).
  rewrite Edh, Evh, Hd, Hv, Hmax, Hvmax.
  split; [apply last_evict_snoc; lia|].
  split; [by rewrite Edepth, Esm|apply last_evict_snoc; lia].
Qed.

Lemma histories_end_with_current_values_witness :
  ∃ h' s' r,
    processHand (frame (-0.3)) (leftHandState init) "left" 1000 true
      (heap init) = (h', s', r)
    ∧ last (array_get (depthHistory s') h') = Some (smoothedDepth s').
Proof.
  destruct (processHand (frame (-0.3)) (leftHandState init) "left" 1000 true
              (heap init)) as [[h' s'] r] eqn:E.
  exists h', s', r. split; [reflexivity|].
  refine (proj1 (histories_end_with_current_values init reach_init _ _ _ _ _
                   _ _ _ (or_introl eq_refl) _ E)).
  vm_compute. lia.
Defined.

(** ** Ticks without hands *)

Lemma decay_iter_fields (n : nat) (s : HandState) :
  smoothedDepth (Nat.iter n decay s) = smoothedDepth s
  ∧ depth (Nat.iter n decay s) = decayed_depth n (depth s)
  ∧ velocity (Nat.iter n decay s)
    = Nat.iter n (fun v => (v * 0.8)%float) (velocity s)
  ∧ lastPunchTime (Nat.iter n decay s) = lastPunchTime s
  ∧ ((0 < n)%nat -> isPunching (Nat.iter n decay s) = false).
Proof.
  induction n as [|n (Hs & Hd & Hv & Hl & _)]; simpl.
  { repeat split; try done. lia. }
  unfold decayed_depth in *. simpl. rewrite Hs, Hd, Hv, Hl. done.
Qed.

(** X6.  A run of [n] ticks without hands, from any state and at any times,
    raises no punch event, leaves the heap (both histories and positions)
    and the callback as they are and applies the decay [n] times to both
    hands: [depth] is multiplied by 0.9 and [velocity] by 0.8 [n] times,
    [smoothedDepth] and [lastPunchTime] are unchanged, and [isPunching] is
    false once [n > 0]. *)
Theorem empty_ticks_only_decay (times : list Z) (t : Tracker) :
  let n := length times in
  let out := run (map (fun now => ([], now)) times) t in
  out.2 = []
  ∧ heap out.1 = heap t
  ∧ onPunchDetected out.1 = onPunchDetected t
  ∧ leftHandState out.1 = Nat.iter n decay (leftHandState t)
  ∧ rightHandState out.1 = Nat.iter n decay (rightHandState t)
  ∧ depth (leftHandState out.1) = decayed_depth n (depth (leftHandState t))
  ∧ depth (rightHandState out.1) = decayed_depth n (depth (rightHandState t))
  ∧ smoothedDepth (leftHandState out.1) = smoothedDepth (leftHandState t)
  ∧ smoothedDepth (rightHandState out.1) = smoothedDepth (rightHandState t)
  ∧ ((0 < n)%nat ->
     isPunching (leftHandState out.1) = false
     ∧ isPunching (rightHandState out.1) = false).
Proof.
  cbv zeta.
  assert (H : (run (map (fun now => ([], now)) times) t).2 = []
              ∧ heap (run (map (fun now => ([], now)) times) t).1 = heap t
              ∧ onPunchDetected (run (map (fun now => ([], now)) times) t).1
                = onPunchDetected t
              ∧ leftHandState (run (map (fun now => ([], now)) times) t).1
                = Nat.iter (length times) decay (leftHandState t)
              ∧ rightHandState (run (map (fun now => ([], now)) times) t).1
                = Nat.iter (length times) decay (rightHandState t)).
  { revert t. induction times as [|now times IH]; intros t; [done|].
    cbn [map run fst snd update process_hands].
    specialize (IH {| heap := heap t;
                      leftHandState := decay (leftHandState t);
                      rightHandState := decay (rightHandState t);
                      onPunchDetected := onPunchDetected t |}).
    destruct (run (map (fun now => ([], now)) times) _) as [t'' log].
    cbn [fst snd heap leftHandState rightHandState onPunchDetected]
      in IH |- *.
    destruct IH as (-> & Hh & Hcb & Hl & Hr).
    rewrite Hh, Hl, Hr, Hcb. cbn [length]. rewrite !Nat.iter_succ_r. done. }
  destruct H as (He & Hh & Hcb & Hl & Hr).
  destruct (decay_iter_fields (length times) (leftHandState t))
    as (Ls & Ld & _ & _ & Lp).
  destruct (decay_iter_fields (length times) (rightHandState t))
    as (Rs & Rd & _ & _ & Rp).
  rewrite Hl, Hr. repeat split; try done; auto.
Qed.

(** ** What update returns *)

Section update_lemmas.

Lemma sum_palm_short landmarks idxs totalZ :
  Exists (fun i => (length landmarks <= i)%nat) idxs ->
  sum_palm landmarks idxs totalZ = TypeError.
Proof.
  intros Hex. revert totalZ.
  induction Hex as [i idxs Hi|i idxs _ IH]; intros totalZ; simpl.
  - by rewrite (at_index_ge landmarks i Hi).
  - destruct (at_index landmarks i); [apply IH|done].
Qed.

Lemma calculatePalmDepth_short landmarks :
  (length landmarks < 18)%nat -> calculatePalmDepth landmarks = TypeError.
Proof.
  intros Hlen. unfold calculatePalmDepth.
  rewrite sum_palm_short; [done|].
  unfold palmIndices. do 5 apply Exists_cons_tl. apply Exists_cons_hd. lia.
Qed.

Lemma processHand_returns_iff landmarks s name now cb h :
  (∃ events, (processHand landmarks s name now cb h).2 = Ok events)
  ↔ (21 <= length landmarks)%nat.
Proof.
  split; [|apply processHand_total].
  intros [events Hev].
  destruct (Nat.le_gt_cases 21 (length landmarks)) as [|Hlt]; [done|].
  by rewrite (processHand_short _ s name now cb h Hlt) in Hev.
Qed.

Lemma process_hands_returns_inv hands now t ld rd t' events flags :
  process_hands hands now t ld rd = (t', events, Ok flags) ->
  Forall (fun hand => (21 <= length (landmarks_of hand))%nat) hands.
Proof.
  revert t ld rd t' events.
  induction hands as [|hand rest IH]; intros t ld rd t' events; simpl;
    [by constructor|].
  destruct (String.eqb (label hand) "Right").
  - pose proof (processHand_returns_iff (landmarks_of hand) (leftHandState t)
                  "left" now (onPunchDetected t) (heap t)) as Hiff.
    destruct (processHand _ (leftHandState t) _ _ _ _) as [[h s] [evs|]];
      [|by intros [=]].
    destruct (process_hands rest now _ true rd) as [[t2 ev2] r2] eqn:Hrec.
    intros [= _ _ ->]. constructor; [apply Hiff; by eexists|by eapply IH].
  - pose proof (processHand_returns_iff (landmarks_of hand) (rightHandState t)
                  "right" now (onPunchDetected t) (heap t)) as Hiff.
    destruct (processHand _ (rightHandState t) _ _ _ _) as [[h s] [evs|]];
      [|by intros [=]].
    destruct (process_hands rest now _ ld true) as [[t2 ev2] r2] eqn:Hrec.
    intros [= _ _ ->]. constructor; [apply Hiff; by eexists|by eapply IH].
Qed.

End update_lemmas.

(** X7.  [update] returns (rather than throws) exactly when every hand of
    the frame has at least 21 landmarks; it then returns a snapshot for
    exactly the sides that have a hand in the frame (the left side for the
    label "Right"), each being the state of that side after the tick. *)
Theorem update_returns_snapshots (results : Results) (now : Z) (t : Tracker) :
  ((∃ snaps, (update results now t).2 = Ok snaps)
   ↔ Forall (fun hand => (21 <= length (landmarks_of hand))%nat) results)
  ∧ ∀ t' events snaps,
      update results now t = (t', events, Ok snaps) ->
      snap_left snaps
      = (if has_left results then Some (leftHandState t') else None)
      ∧ snap_right snaps
        = (if has_right results then Some (rightHandState t') else None).
Proof.
  split.
  - unfold update. split.
    + intros [snaps Hs].
      destruct (process_hands results now t false false)
        as [[t1 ev1] [flags|]] eqn:Hp; [|done].
      by eapply process_hands_returns_inv.
    + intros Hall.
      destruct (process_hands_returns results now t false false Hall)
        as (t1 & ev1 & ->).
      by eexists.
  - intros t' events snaps. unfold update.
    destruct (process_hands results now t false false)
      as [[t1 ev1] [[ld rd]|]] eqn:Hp; [|by intros [=]].
    apply process_hands_flags_eq in Hp as [-> ->].
    intros [= <- _ <-]. simpl.
    by destruct (has_left results), (has_right results).
Qed.

(** X8.  On a frame of fewer than 18 landmarks [processHand] throws and
    leaves the hand state and the heap untouched; on a frame of 18 to 20
    landmarks it also throws, but only in [detectFist], after the frame has
    been counted: in a reachable state the depth history then ends with the
    new [smoothedDepth] and the velocity history with the new [velocity]. *)
Theorem short_frame_partial_update (t : Tracker) (Hreach : reachable t)
    (s : HandState) (landmarks : list Landmark) (name : string) (now : Z)
    (cb : bool) (h' : Heap) (s' : HandState) (r : result (list PunchEvent)) :
  s = leftHandState t ∨ s = rightHandState t ->
  processHand landmarks s name now cb (heap t) = (h', s', r) ->
  ((length landmarks < 18)%nat -> r = TypeError ∧ s' = s ∧ h' = heap t)
  ∧ ((18 <= length landmarks < 21)%nat ->
     r = TypeError
     ∧ array_get (depthHistory s) h'
       = evict 5 (depths t s ++ [smoothedDepth s'])
     ∧ array_get (velocityHistory s) h'
       = evict 50 (velocities t s ++ [velocity s'])).
Proof.
  intros Hs Hp. split.
  - intros Hlen. apply calculatePalmDepth_short in Hlen.
    apply processHand_cases in Hp as [(_ & -> & -> & ->)|Hf]; [done|].
    destruct Hf as (p & sc & c & Ep & _). congruence.
  - intros [Hge Hlt].
    assert (Hr : r = TypeError).
    { pose proof (processHand_short landmarks s name now cb (heap t) Hlt)
        as Hsh.
      by rewrite Hp in Hsh. }
    split; [done|].
    apply reachable_ok in Hreach as (Hsep & Hl & Hr').
    assert (Hok : hand_ok (heap t) s ∧ depthHistory s ≠ velocityHistory s).
    { destruct Hsep as (? & ? & _). by destruct Hs as [->| ->]. }
    destruct Hok as ((Hmax & Hvmax & _) & Hne).
    destruct (measurements_total landmarks Hge) as (p & sc & c & Ep & Es & Ec).
    apply processHand_cases in Hp as [([E|[E|E]] & _)|Hf]; [congruence..|].
    destruct (frame_processed_histories _ _ _ _ _ Hne Hf) as (Hd & Hv & _).
    by rewrite Hd, Hv, Hmax, Hvmax.
Qed.

Lemma short_frame_partial_update_witness :
  ∃ h' s',
    processHand (take 19 (frame (-0.1))) (leftHandState init) "left" 1000 true
      (heap init) = (h', s', TypeError)
    ∧ array_get (depthHistory (leftHandState init)) h'
      = evict 5 (depths init (leftHandState init) ++ [smoothedDepth s']).
Proof.
  destruct (processHand (take 19 (frame (-0.1))) (leftHandState init) "left"
              1000 true (heap init)) as [[h' s'] r] eqn:E.
  destruct (short_frame_partial_update init reach_init _ _ _ _ _ _ _ _
              (or_introl eq_refl) E) as [_ Hlate].
  destruct Hlate as (-> & Hd & _); [vm_compute; lia|].
  by exists h', s'.
Defined.

(** ** reset *)

Section reset_lemmas.

Lemma createHandState_view h cb l r :
  let t := {| heap := (createHandState (createHandState h).2).2;
              leftHandState := l; rightHandState := r;
              onPunchDetected := cb |} in
  view t (createHandState h).1 = fresh_view
  ∧ view t (createHandState (createHandState h).2).1 = fresh_view.
Proof.
  unfold view, fresh_view, depths, velocities, position_of, array_get,
    object_get; simpl.
  split; f_equal;
    repeat (rewrite lookup_insert_ne by lia); rewrite ?lookup_insert_eq;
    done.
Qed.

End reset_lemmas.

(** X9.  After [reset], from any state, both hands read as
    [createHandState] makes them: zero depths and velocity, empty
    histories, no punch in progress, last punch time 0, position (0, 0, 0);
    the registered callback is kept.  So does the initial tracker, and a
    second [reset] changes nothing a caller can read. *)
Theorem reset_restores_fresh_view (t : Tracker) :
  view (reset t) (leftHandState (reset t)) = fresh_view
  ∧ view (reset t) (rightHandState (reset t)) = fresh_view
  ∧ onPunchDetected (reset t) = onPunchDetected t
  ∧ view init (leftHandState init) = fresh_view
  ∧ view init (rightHandState init) = fresh_view
  ∧ view (reset (reset t)) (leftHandState (reset (reset t)))
    = view (reset t) (leftHandState (reset t))
  ∧ view (reset (reset t)) (rightHandState (reset (reset t)))
    = view (reset t) (rightHandState (reset t)).
Proof.
  assert (H : ∀ t, view (reset t) (leftHandState (reset t)) = fresh_view
                   ∧ view (reset t) (rightHandState (reset t)) = fresh_view).
  { intros t0. apply (createHandState_view (heap t0)). }
  destruct (H t) as [Hl Hr]. destruct (H (reset t)) as [Hl2 Hr2].
  rewrite Hl, Hr, Hl2, Hr2.
  destruct (createHandState_view empty_heap false (leftHandState init)
              (rightHandState init)) as [Il Ir].
  repeat split; try done.
Qed.

(** ** getDebugData *)

Section debug_lemmas.

Lemma next_push_bounded l max v h : next (push_bounded l max v h) = next h.
Proof. unfold push_bounded. cbv zeta. by destruct (max <? _)%nat. Qed.

Lemma processHand_allocated landmarks s name now cb h h' s' r :
  allocated h s ->
  processHand landmarks s name now cb h = (h', s', r) ->
  allocated h' s' ∧ (next h <= next h')%nat.
Proof.
  intros (Hd & Hv & Hpos). rewrite processHand_stages.
  destruct (calculatePalmDepth landmarks) as [palmDepth|];
    [|by intros [= <- <- _]].
  destruct (calculateHandScale landmarks) as [handScale|];
    [|by intros [= <- <- _]].
  destruct (calculateHandCenter landmarks) as [center|];
    [|by intros [= <- <- _]].
  cbv zeta.
  match goal with
  | |- context [set_measurements ?a ?b ?c ?d ?e ?f ?g ?i] =>
      set (s1 := set_measurements a b c d e f g i)
  end.
  match goal with
  | |- context [push_bounded (velocityHistory s) ?m ?v ?hh] =>
      set (h2 := push_bounded (velocityHistory s) m v hh)
  end.
  assert (Hn : next h2 = S (next h)).
  { subst h2. by rewrite !next_push_bounded. }
  assert (H1 : allocated h2 s1).
  { unfold allocated. rewrite Hn. subst s1. simpl. lia. }
  destruct (detectFist landmarks) as [fist|]; intros [= <- <- _].
  - destruct (punch_stage_fields (set_isFist s1 fist) now)
      as (_ & _ & _ & _ & _ & Ed & Ev & _ & _ & _ & _ & Ep & _).
    split; [|lia]. unfold allocated. rewrite Ed, Ev, Ep. exact H1.
  - split; [exact H1|lia].
Qed.

Lemma allocated_mono h h' s :
  (next h <= next h')%nat -> allocated h s -> allocated h' s.
Proof. unfold allocated. lia. Qed.

Lemma process_hands_allocated hands now t ld rd :
  allocated (heap t) (leftHandState t) ->
  allocated (heap t) (rightHandState t) ->
  let t' := (process_hands hands now t ld rd).1.1 in
  allocated (heap t') (leftHandState t')
  ∧ allocated (heap t') (rightHandState t').
Proof.
  revert t ld rd. induction hands as [|hand rest IH]; intros t ld rd Hl Hr;
    simpl; [done|].
  destruct (String.eqb (label hand) "Right").
  - destruct (processHand _ (leftHandState t) _ _ _ _) as [[h s] r] eqn:Hp.
    apply (processHand_allocated _ _ _ _ _ _ _ _ _ Hl) in Hp as [Hl' Hn].
    apply (allocated_mono _ _ _ Hn) in Hr.
    destruct r as [evs|]; [|done].
    specialize (IH {| heap := h; leftHandState := s;
                      rightHandState := rightHandState t;
                      onPunchDetected := onPunchDetected t |} true rd Hl' Hr).
    by destruct (process_hands rest now _ true rd) as [[t2 ev2] r2].
  - destruct (processHand _ (rightHandState t) _ _ _ _) as [[h s] r] eqn:Hp.
    apply (processHand_allocated _ _ _ _ _ _ _ _ _ Hr) in Hp as [Hr' Hn].
    apply (allocated_mono _ _ _ Hn) in Hl.
    destruct r as [evs|]; [|done].
    specialize (IH {| heap := h; leftHandState := leftHandState t;
                      rightHandState := s;
                      onPunchDetected := onPunchDetected t |} ld true Hl Hr').
    by destruct (process_hands rest now _ ld true) as [[t2 ev2] r2].
Qed.

Lemma createHandState_pair_allocated h :
  allocated (createHandState (createHandState h).2).2 (createHandState h).1
  ∧ allocated (createHandState (createHandState h).2).2
      (createHandState (createHandState h).2).1.
Proof. unfold allocated; simpl. lia. Qed.

Lemma reachable_allocated t :
  reachable t ->
  allocated (heap t) (leftHandState t) ∧ allocated (heap t) (rightHandState t).
Proof.
  induction 1 as [|t results now _ [Hl Hr]|t _ _|t callback _ IH].
  - apply (createHandState_pair_allocated empty_heap).
  - pose proof (process_hands_allocated results now t false false Hl Hr)
      as Hp.
    unfold update.
    destruct (process_hands results now t false false)
      as [[t1 ev1] [[ld rd]|]]; simpl in *; [|done].
    by destruct ld, rd.
  - apply (createHandState_pair_allocated (heap t)).
  - exact IH.
Qed.

(** A write at an address no hand state holds changes no view. *)
Lemma view_array_set_fresh t s l a :
  (depthHistory s < l)%nat -> (velocityHistory s < l)%nat ->
  view (with_heap (array_set l a (heap t)) t) s = view t s.
Proof.
  intros Hd Hv. unfold view, depths, velocities, position_of; simpl.
  rewrite !array_get_set_ne by lia. done.
Qed.

Lemma view_object_set_fresh t s l p :
  (position s < l)%nat ->
  view (with_heap (object_set l p (heap t)) t) s = view t s.
Proof.
  intros Hp. unfold view, depths, velocities, position_of, object_get,
    array_get; simpl.
  rewrite lookup_insert_ne by lia. done.
Qed.

End debug_lemmas.

(** X10.  In a reachable state [getDebugData] returns copies: the
    [velocityHistory] and [position] of each side of its result hold the
    tracker's values at the time of the call, the tracker's hand states and
    what a caller reads of them are as before the call, and whatever a
    caller then writes into those copies changes nothing a caller reads of
    the tracker's hands. *)
Theorem debug_data_is_independent (t : Tracker) (Hreach : reachable t) :
  let out := DepthSensorDebug.getDebugData t in
  let dl := out.1.1.1 in
  let dr := out.1.1.2 in
  let t2 := out.2 in
  (leftHandState t2 = leftHandState t ∧ rightHandState t2 = rightHandState t
   ∧ view t2 (leftHandState t) = view t (leftHandState t)
   ∧ view t2 (rightHandState t) = view t (rightHandState t))
  ∧ (array_get (DepthSensorDebug.dbg_velocityHistory dl) (heap t2)
     = velocities t (leftHandState t)
     ∧ array_get (DepthSensorDebug.dbg_velocityHistory dr) (heap t2)
       = velocities t (rightHandState t)
     ∧ object_get (DepthSensorDebug.dbg_position dl) (heap t2)
       = position_of t (leftHandState t)
     ∧ object_get (DepthSensorDebug.dbg_position dr) (heap t2)
       = position_of t (rightHandState t))
  ∧ ∀ s l a p,
      s = leftHandState t ∨ s = rightHandState t ->
      (l = DepthSensorDebug.dbg_velocityHistory dl
       ∨ l = DepthSensorDebug.dbg_velocityHistory dr ->
       view (with_heap (array_set l a (heap t2)) t2) s = view t s)
      ∧ (l = DepthSensorDebug.dbg_position dl
         ∨ l = DepthSensorDebug.dbg_position dr ->
         view (with_heap (object_set l p (heap t2)) t2) s = view t s).
Proof.
  apply reachable_allocated in Hreach as [Hl Hr].
  cbv zeta.
  assert (Hview : ∀ s, s = leftHandState t ∨ s = rightHandState t ->
                       allocated (heap t) s
                       ∧ view (DepthSensorDebug.getDebugData t).2 s
                         = view t s).
  { intros s Hs.
    assert (Ha : allocated (heap t) s) by (by destruct Hs as [->| ->]).
    split; [done|]. destruct Ha as (Hd & Hv & Hp).
    unfold view, depths, velocities, position_of, array_get, object_get;
      simpl.
    rewrite !lookup_insert_ne by lia. done. }
  split; [|split].
  - split; [done|]. split; [done|].
    split; apply Hview; auto.
  - destruct Hl as (? & ? & ?), Hr as (? & ? & ?).
    unfold velocities, position_of.
    repeat (progress (unfold array_get, object_get; simpl);
            repeat first [ rewrite lookup_insert_eq
                         | rewrite lookup_insert_ne by lia ]).
    done.
  - intros s l a p Hs. destruct (Hview s Hs) as [(Hd & Hv & Hp) <-].
    split; intros Hloc.
    + apply (view_array_set_fresh (DepthSensorDebug.getDebugData t).2);
        destruct Hloc as [->| ->]; simpl; lia.
    + apply (view_object_set_fresh (DepthSensorDebug.getDebugData t).2);
        destruct Hloc as [->| ->]; simpl; lia.
Qed.

Lemma debug_data_is_independent_witness :
  let t := tick (left_hand (-0.1), 1000) init in
  let out := DepthSensorDebug.getDebugData t in
  reachable t
  ∧ view (with_heap
            (array_set (DepthSensorDebug.dbg_velocityHistory out.1.1.1)
               [1%float] (heap out.2)) out.2) (leftHandState t)
    = view t (leftHandState t).
Proof.
  assert (Hr : reachable (tick (left_hand (-0.1), 1000) init))
    by apply reach_update, reach_init.
  split; [exact Hr|].
  destruct (debug_data_is_independent _ Hr) as (_ & _ & Hind).
  exact (proj1 (Hind _ _ [1%float] (mkPosition 0 0 0) (or_introl eq_refl))
           (or_introl eq_refl)).
Defined.

(** ** Runs on concrete frames *)

Lemma empty_ticks_only_decay_witness :
  let out := run (map (fun now => ([], now)) [1000; 1033]) init in
  out.2 = []
  ∧ isPunching (leftHandState out.1) = false.
Proof.
  destruct (empty_ticks_only_decay [1000; 1033] init)
    as (He & _ & _ & _ & _ & _ & _ & _ & _ & Hp).
  split; [exact He|]. apply Hp. simpl. lia.
Defined.

Lemma update_returns_snapshots_witness :
  Forall (fun hand => (21 <= length (landmarks_of hand))%nat) (left_hand 0)
  ∧ ∃ snaps, (update (left_hand 0) 1000 init).2 = Ok snaps.
Proof.
  assert (H : Forall (fun hand => (21 <= length (landmarks_of hand))%nat)
                (left_hand 0))
    by (repeat constructor; vm_compute; lia).
  split; [exact H|].
  exact (proj2 (proj1 (update_returns_snapshots (left_hand 0) 1000 init)) H).
Defined.

Lemma cooldown_respected_while_detected_witness :
  not_before 1000 two_punches
  ∧ Forall (fun k => has_left k.1 = true) two_punches
  ∧ spaced PUNCH_COOLDOWN
      (punch_times "left" (run two_punches (setOnPunchDetected true init)).2).
Proof.
  assert (Hn : not_before 1000 two_punches) by (simpl; lia).
  assert (Hl : Forall (fun k => has_left k.1 = true) two_punches)
    by (repeat constructor).
  split; [exact Hn|]. split; [exact Hl|].
  exact (proj1 (cooldown_respected_while_detected two_punches
                  (setOnPunchDetected true init) 1000 Hn) Hl).
Defined.

(** The two punches of that run, 167 ms apart; the frame at 1133, 33 ms
    after the first punch ended, does not start one. *)
Example two_punches_times :
  punch_times "left" (run two_punches (setOnPunchDetected true init)).2
  = [1033; 1200].
Proof. vm_compute. reflexivity. Qed.

(** ** One punch per side and tick *)

Section one_punch_lemmas.

Lemma spaced_same_time d now times :
  0 <= d -> Forall (fun a => a = now) times -> spaced d times ->
  (length times <= 1)%nat.
Proof.
  intros Hd Hall Hs.
  destruct times as [|a [|b rest]]; simpl; [lia..|].
  exfalso.
  inversion Hall as [|? ? Ha Hall']; subst.
  inversion Hall' as [|? ? Hb _]; subst.
  specialize (Hs 0%nat now now eq_refl eq_refl). lia.
Qed.

Lemma times_of_same_time side now events :
  Forall (fun a => a = now) (times_of side now events)
  ∧ length (times_of side now events)
    = length (filter (fun e => ev_hand e = side) events).
Proof.
  unfold times_of. split; [|by rewrite length_map].
  apply Forall_forall. intros a Ha.
  apply list_elem_of_fmap in Ha as (e & -> & _). done.
Qed.

Lemma process_hands_events_hand hands now t ld rd :
  Forall (fun e => ev_hand e = "left" ∨ ev_hand e = "right")
    (process_hands hands now t ld rd).1.2.
Proof.
  revert t ld rd.
  induction hands as [|hand rest IH]; intros t ld rd; simpl; [done|].
  destruct (String.eqb (label hand) "Right").
  - destruct (processHand _ (leftHandState t) _ _ _ _) as [[h s] r0] eqn:Hp.
    destruct r0 as [evs|]; [|done].
    apply processHand_events_hand in Hp.
    match goal with
    | |- context [process_hands rest now ?t2 ?a ?b] =>
        specialize (IH t2 a b);
        destruct (process_hands rest now t2 a b) as [[t3 ev3] r3]
    end.
    simpl in *. apply Forall_app. split; [|done].
    eapply Forall_impl; [exact Hp|]. intros e He. by left.
  - destruct (processHand _ (rightHandState t) _ _ _ _) as [[h s] r0] eqn:Hp.
    destruct r0 as [evs|]; [|done].
    apply processHand_events_hand in Hp.
    match goal with
    | |- context [process_hands rest now ?t2 ?a ?b] =>
        specialize (IH t2 a b);
        destruct (process_hands rest now t2 a b) as [[t3 ev3] r3]
    end.
    simpl in *. apply Forall_app. split; [|done].
    eapply Forall_impl; [exact Hp|]. intros e He. by right.
Qed.

Lemma update_events results now t :
  (update results now t).1.2
  = (process_hands results now t false false).1.2.
Proof.
  unfold update.
  destruct (process_hands results now t false false) as [[t1 ev1] r].
  by destruct r as [[ld rd]|].
Qed.

End one_punch_lemmas.

(** X11.  One call of [update] raises at most one punch event for the left
    hand and at most one for the right hand, from any state and for any
    frame, also when the frame holds several hands with the same label;
    every event it raises is for "left" or "right". *)
Theorem one_punch_per_side_and_tick (results : Results) (now : Z)
    (t : Tracker) :
  let events := (update results now t).1.2 in
  (length (filter (fun e => ev_hand e = "left") events) <= 1)%nat
  ∧ (length (filter (fun e => ev_hand e = "right") events) <= 1)%nat
  ∧ Forall (fun e => ev_hand e = "left" ∨ ev_hand e = "right") events.
Proof.
  cbv zeta. rewrite update_events.
  destruct (process_hands results now t false false) as [[t1 ev1] r] eqn:Hp.
  destruct (process_hands_cooling _ _ _ _ _ _ _ _ [] []
              (cooling_nil _ _) (cooling_nil _ _) Hp) as [[Hl _] [Hr _]].
  simpl in Hl, Hr |- *.
  destruct (times_of_same_time "left" now ev1) as [Hal Hll].
  destruct (times_of_same_time "right" now ev1) as [Har Hlr].
  split; [|split].
  - rewrite <- Hll. eapply spaced_same_time; [|exact Hal|exact Hl]. done.
  - rewrite <- Hlr. eapply spaced_same_time; [|exact Har|exact Hr]. done.
  - pose proof (process_hands_events_hand results now t false false) as H.
    by rewrite Hp in H.
Qed.

(** ** What the measurements read *)

Section reads_lemmas.

Lemma at_index_Forall2 {A : Type} (R : A -> A -> Prop) l1 l2 i :
  Forall2 R l1 l2 ->
  match at_index l1 i, at_index l2 i with
  | Ok a, Ok b => R a b
  | TypeError, TypeError => True
  | _, _ => False
  end.
Proof.
  intros H. unfold at_index.
  destruct (l1 !! i) as [a|] eqn:E1.
  - destruct (Forall2_lookup_l _ _ _ _ _ H E1) as (b & -> & HR). done.
  - destruct (l2 !! i) as [b|] eqn:E2; [|done].
    destruct (Forall2_lookup_r _ _ _ _ _ H E2) as (a & Ha & _). congruence.
Qed.

Lemma count_curled_reads_xy l1 l2 fingers n :
  Forall2 same_xy l1 l2 ->
  count_curled l1 fingers n = count_curled l2 fingers n.
Proof.
  intros H. revert n.
  induction fingers as [|[tipIdx mcpIdx] fingers IH]; intros n; simpl;
    [done|].
  pose proof (at_index_Forall2 _ _ _ tipIdx H) as Ht.
  pose proof (at_index_Forall2 _ _ _ 0%nat H) as Hw.
  pose proof (at_index_Forall2 _ _ _ mcpIdx H) as Hm.
  destruct (at_index l1 tipIdx) as [t1|], (at_index l2 tipIdx) as [t2|];
    simpl; try done.
  destruct (at_index l1 0) as [w1|], (at_index l2 0) as [w2|];
    simpl; try done.
  destruct (at_index l1 mcpIdx) as [m1|], (at_index l2 mcpIdx) as [m2|];
    simpl; try done.
  destruct Ht as [-> ->], Hw as [-> ->], Hm as [-> ->]. apply IH.
Qed.

Lemma sum_palm_reads_z l1 l2 idxs totalZ :
  Forall2 same_z l1 l2 ->
  sum_palm l1 idxs totalZ = sum_palm l2 idxs totalZ.
Proof.
  intros H. revert totalZ.
  induction idxs as [|idx idxs IH]; intros totalZ; simpl; [done|].
  pose proof (at_index_Forall2 _ _ _ idx H) as Hi.
  destruct (at_index l1 idx) as [a|], (at_index l2 idx) as [b|];
    simpl; try done.
  unfold same_z in Hi. rewrite Hi. apply IH.
Qed.

End reads_lemmas.

(** X12.  The fist test reads the x and y coordinates only, and the palm
    depth the z coordinates only, a missing, zero or NaN z counting as 0:
    on two frames of the same length whose landmarks agree on x and y
    [detectFist] gives the same answer, its [TypeError] on a short frame
    included, and on two frames that agree on [z || 0]
    [calculatePalmDepth] gives the same answer. *)
Theorem fist_reads_xy_palm_depth_reads_z (l1 l2 : list Landmark) :
  (Forall2 same_xy l1 l2 -> detectFist l1 = detectFist l2)
  ∧ (Forall2 same_z l1 l2 -> calculatePalmDepth l1 = calculatePalmDepth l2).
Proof.
  split; intros H.
  - unfold detectFist. by rewrite (count_curled_reads_xy l1 l2).
  - unfold calculatePalmDepth. by rewrite (sum_palm_reads_z l1 l2).
Qed.

Lemma fist_reads_xy_palm_depth_reads_z_witness :
  Forall2 same_xy (frame 0) (frame (-0.1))
  ∧ Forall2 same_z (frame 0)
      (map (fun lm => mkLandmark 0.25 0.75 None) (frame 0))
  ∧ detectFist (frame 0) = detectFist (frame (-0.1))
  ∧ calculatePalmDepth (frame 0)
    = calculatePalmDepth
        (map (fun lm => mkLandmark 0.25 0.75 None) (frame 0)).
Proof.
  assert (Hxy : Forall2 same_xy (frame 0) (frame (-0.1))).
  { unfold frame. repeat constructor. }
  assert (Hz : Forall2 same_z (frame 0)
                 (map (fun lm => mkLandmark 0.25 0.75 None) (frame 0))).
  { unfold frame. repeat constructor. }
  split; [exact Hxy|]. split; [exact Hz|]. split.
  - exact (proj1 (fist_reads_xy_palm_depth_reads_z _ _) Hxy).
  - exact (proj2 (fist_reads_xy_palm_depth_reads_z _ _) Hz).
Defined.

(** ** Stances of the classifier *)

Section stance_lemmas.

Lemma num_eq_ge n k j : num_eq n k = true -> j <= k -> num_ge n j = true.
Proof.
  destruct n as [z|]; simpl; [|done].
  intros H Hj. apply Z.eqb_eq in H. apply Z.leb_le. lia.
Qed.

End stance_lemmas.

(** X13.  In the three versions of [detectStance] the stance is idle exactly
    when no hand is detected: with a hand in any cell, NaN rows included,
    the classifier never reports idle. *)
Theorem idle_iff_no_hand (lg rg : option GridPos) :
  (CameraDetection.detectStance lg rg = idle <-> lg = None ∧ rg = None)
  ∧ (CameraDetection4x4.detectStance lg rg = idle <-> lg = None ∧ rg = None)
  ∧ (CameraDetection4x6.detectStance lg rg = idle <-> lg = None ∧ rg = None).
Proof.
  assert (Hne : ∀ s : Stance, s ≠ idle -> s = idle -> lg = None ∧ rg = None)
    by (intros s Hs He; by destruct Hs).
  split; [|split]; (split; [|by intros [-> ->]]);
    (destruct lg as [lg|], rg as [rg|]; [| | |done]); apply Hne;
    unfold CameraDetection.detectStance, CameraDetection4x4.detectStance,
      CameraDetection4x6.detectStance; cbv zeta;
    repeat match goal with
           | |- context [if ?b then _ else _] => destruct b
           end; discriminate.
Qed.

(** X14.  With one hand detected the three versions of [detectStance]
    report a stance of that hand, or the body block: a left hand alone
    gives a left jab, a left hook, a left duck or the body block, never a
    guard and never a stance of the right hand, and likewise for a right
    hand alone. *)
Theorem single_hand_stance_is_of_that_hand (g : GridPos) :
  let of_left := [jabLeft; hookLeft; duckLeft; blockBody] in
  let of_right := [jabRight; hookRight; duckRight; blockBody] in
  (CameraDetection.detectStance (Some g) None ∈ of_left
   ∧ CameraDetection.detectStance None (Some g) ∈ of_right)
  ∧ (CameraDetection4x4.detectStance (Some g) None ∈ of_left
     ∧ CameraDetection4x4.detectStance None (Some g) ∈ of_right)
  ∧ (CameraDetection4x6.detectStance (Some g) None ∈ of_left
     ∧ CameraDetection4x6.detectStance None (Some g) ∈ of_right).
Proof.
  cbv zeta. repeat apply conj;
    unfold CameraDetection.detectStance, CameraDetection4x4.detectStance,
      CameraDetection4x6.detectStance; cbv zeta;
    repeat match goal with
           | |- context [if ?b then _ else _] => destruct b
           end;
    repeat first [apply list_elem_of_here | apply list_elem_of_further].
Qed.

(** X15.  The classifier of [camera.js] treats left and right alike, except
    in one case.  Exchanging the two hands and the two columns exchanges
    left and right in the stance it reports, for all cells of the two
    columns (NaN rows included), unless both hands are in the bottom row in
    different columns: there it reports the left duck before and after the
    exchange. *)
Theorem stance_mirror_symmetry (lg rg : option GridPos) :
  two_columns lg -> two_columns rg ->
  let mirrored :=
    CameraDetection.detectStance (mirror_cell <$> rg) (mirror_cell <$> lg) in
  if bottom_apart lg rg
  then CameraDetection.detectStance lg rg = duckLeft ∧ mirrored = duckLeft
  else mirrored = mirror_stance (CameraDetection.detectStance lg rg).
Proof.
  intros Hl Hr. cbv zeta.
  destruct lg as [[lr lc]|], rg as [[rr rc]|]; simpl in *.
  - destruct Hl as [-> | ->], Hr as [-> | ->];
      destruct lr as [a|], rr as [b|]; simpl;
      repeat match goal with
             | |- context [?x =? ?y] =>
                 destruct (Z.eqb_spec x y); simpl
             | |- context [?x <=? ?y] =>
                 destruct (Z.leb_spec x y); simpl
             end; try done; try lia.
  - destruct Hl as [-> | ->]; destruct lr as [a|]; simpl;
      repeat match goal with
             | |- context [?x =? ?y] =>
                 destruct (Z.eqb_spec x y); simpl
             end; try done; try lia.
  - destruct Hr as [-> | ->]; destruct rr as [a|]; simpl;
      repeat match goal with
             | |- context [?x =? ?y] =>
                 destruct (Z.eqb_spec x y); simpl
             end; try done; try lia.
  - done.
Qed.

Lemma stance_mirror_symmetry_witness :
  two_columns (Some (mkGridPos (Int 0) 0))
  ∧ two_columns (Some (mkGridPos (Int 1) 1))
  ∧ CameraDetection.detectStance
      (Some (mkGridPos (Int 1) 0)) (Some (mkGridPos (Int 0) 1)) = jabRight.
Proof.
  assert (Hl : two_columns (Some (mkGridPos (Int 0) 0))) by (by left).
  assert (Hr : two_columns (Some (mkGridPos (Int 1) 1))) by (by right).
  split; [exact Hl|]. split; [exact Hr|].
  exact (stance_mirror_symmetry _ _ Hl Hr).
Defined.

(** ** Highlighted cells and position text *)

Section display_lemmas.

Lemma floor_clamp_range lo hi v :
  lo <= hi ->
  floor_clamp lo hi v = NaN ∨ ∃ r, floor_clamp lo hi v = Int r ∧ lo <= r <= hi.
Proof.
  intros Hle. unfold floor_clamp.
  destruct (Prim2SF v) as [s|s| |s m e]; [right|right|by left|right].
  - eexists. split; [reflexivity|lia].
  - destruct s; eexists; (split; [reflexivity|lia]).
  - eexists. split; [reflexivity|lia].
Qed.

Lemma gridPos_row rows x y :
  1 <= rows ->
  row (gridPos rows x y) = NaN
  ∨ ∃ r, row (gridPos rows x y) = Int r ∧ 0 <= r < rows.
Proof.
  intros Hrows. unfold gridPos; simpl.
  destruct (floor_clamp_range 0 (rows - 1) (y * of_int rows)%float)
    as [->|(r & -> & Hr)]; [lia|by left|].
  right. exists r. split; [done|lia].
Qed.

(** On a grid of at least two columns the index names the cell. *)
Lemma cellIndex_gridPos rows cols x y :
  1 <= rows -> 2 <= cols ->
  cellIndex cols (gridPos rows x y) = NaN
  ∨ ∃ i, cellIndex cols (gridPos rows x y) = Int i
         ∧ 0 <= i < rows * cols
         ∧ i mod cols < 2
         ∧ row (gridPos rows x y) = Int (i / cols)
         ∧ col (gridPos rows x y) = i mod cols.
Proof.
  intros Hrows Hcols. unfold cellIndex.
  destruct (gridPos_row rows x y Hrows) as [->|(r & -> & Hr)]; [by left|].
  right. exists (r * cols + col (gridPos rows x y)).
  assert (Hc : 0 <= col (gridPos rows x y) < 2)
    by (destruct (gridPos_col rows x y) as [-> | ->]; lia).
  set (c := col (gridPos rows x y)) in *.
  assert (Hmod : (r * cols + c) mod cols = c).
  { rewrite Z.add_comm, Z.mod_add by lia. apply Z.mod_small. lia. }
  assert (Hdiv : (r * cols + c) / cols = r).
  { rewrite Z.add_comm, Z.div_add by lia. rewrite Z.div_small by lia. lia. }
  rewrite Hmod, Hdiv. repeat split; try done; try lia. nia.
Qed.

End display_lemmas.

(** X16.  The highlight of [camera.js] names the hand's cell.  For every
    hand position the index [updateGridHighlights] looks up is NaN (when the
    row is) or one of the six indices 0..5 of the 3x2 grid, and two hand
    positions with the same index, not NaN, are in the same cell. *)
Theorem highlight_index_names_cell (x y x' y' : float) :
  let g := gridPos CameraDetection.GRID_ROWS x y in
  let g' := gridPos CameraDetection.GRID_ROWS x' y' in
  let index c := (CameraDisplay.updateGridHighlights (Some c) None).1 in
  (index g = Some NaN ∨ ∃ i, index g = Some (Int i) ∧ 0 <= i <= 5)
  ∧ (index g ≠ Some NaN -> index g = index g' -> g = g').
Proof.
  cbv zeta. unfold CameraDisplay.updateGridHighlights; simpl.
  destruct (cellIndex_gridPos CameraDetection.GRID_ROWS
              CameraDetection.GRID_COLS x y) as [E|(i & E & Hi & _ & Hr & Hc)];
    [done|done| |]; rewrite E.
  { split; [by left|]. by intros []. }
  split.
  { right. exists i. split; [done|].
    unfold CameraDetection.GRID_ROWS, CameraDetection.GRID_COLS in Hi. lia. }
  intros _ E'. injection E' as E'. symmetry in E'.
  destruct (cellIndex_gridPos CameraDetection.GRID_ROWS
              CameraDetection.GRID_COLS x' y')
    as [E2|(i' & E2 & _ & _ & Hr' & Hc')]; [done|done|congruence|].
  assert (i' = i) by congruence. subst i'.
  destruct (gridPos _ x y) as [r c], (gridPos _ x' y') as [r' c'].
  simpl in *. congruence.
Qed.

(** X17.  The 4x4 version highlights cells of the two left-hand columns
    only.  For every hand position the index its [updateGridHighlights]
    looks up is NaN or an index of the 16 cells whose column, the index
    modulo 4, is 0 or 1: no cell of columns 2 and 3 is ever highlighted. *)
Theorem highlight_4x4_never_in_right_columns (x y : float) :
  let g := gridPos CameraDetection4x4.GRID_ROWS x y in
  let index := (CameraDisplay4x4.updateGridHighlights (Some g) None).1 in
  index = Some NaN
  ∨ ∃ i, index = Some (Int i) ∧ 0 <= i <= 15 ∧ i mod 4 < 2.
Proof.
  cbv zeta. unfold CameraDisplay4x4.updateGridHighlights; simpl.
  destruct (cellIndex_gridPos CameraDetection4x4.GRID_ROWS
              CameraDetection4x4.GRID_COLS x y) as [E|(i & E & Hi & Hm & _)];
    [done|done| |]; rewrite E; [by left|].
  right. exists i.
  unfold CameraDetection4x4.GRID_ROWS, CameraDetection4x4.GRID_COLS in *.
  repeat split; try done; lia.
Qed.

(** X18.  The position text of the 4x4 and 4x6 versions never names a right
    column.  For every hand position the text [updateDetectionInfo] shows
    ends with the column name Far Left or Left in the 4x4 version and with
    Left in the 4x6 version, after one of the row names of the version (or
    undefined, when the row is NaN); the entries Right and Far Right of
    [colNames] are never shown. *)
Theorem position_text_never_names_right_column (x y : float) :
  let g4 := gridPos CameraDetection4x4.GRID_ROWS x y in
  let g6 := gridPos CameraDetection4x6.GRID_ROWS x y in
  (∃ rowName colName,
     (CameraDisplay4x4.updateDetectionInfo (Some g4) None).1
     = rowName +:+ " " +:+ colName
     ∧ rowName ∈ "undefined" :: CameraDisplay4x4.rowNames
     ∧ colName ∈ ["Far Left"; "Left"])
  ∧ (∃ rowName,
       (CameraDisplay4x6.updateDetectionInfo (Some g6) None).1
       = rowName +:+ " Left"
       ∧ rowName ∈ "undefined" :: CameraDisplay4x6.rowNames).
Proof.
  cbv zeta. split.
  - exists (name_at CameraDisplay4x4.rowNames
              (row (gridPos CameraDetection4x4.GRID_ROWS x y))),
           (name_at CameraDisplay4x4.colNames
              (Int (col (gridPos CameraDetection4x4.GRID_ROWS x y)))).
    split; [reflexivity|]. split.
    + destruct (gridPos_row CameraDetection4x4.GRID_ROWS x y)
        as [->|(r & -> & Hr)]; [done|apply list_elem_of_here|].
      unfold CameraDetection4x4.GRID_ROWS in Hr.
      assert (r = 0 ∨ r = 1 ∨ r = 2 ∨ r = 3) as [-> | [-> | [-> | ->]]] by lia;
        simpl;
        repeat first [apply list_elem_of_here | apply list_elem_of_further].
    + destruct (gridPos_col CameraDetection4x4.GRID_ROWS x y) as [-> | ->];
        simpl;
        repeat first [apply list_elem_of_here | apply list_elem_of_further].
  - exists (name_at CameraDisplay4x6.rowNames
              (row (gridPos CameraDetection4x6.GRID_ROWS x y))).
    split.
    + unfold CameraDisplay4x6.updateDetectionInfo, positionText; cbn [fst].
      destruct (gridPos_col CameraDetection4x6.GRID_ROWS x y) as [-> | ->];
        reflexivity.
    + destruct (gridPos_row CameraDetection4x6.GRID_ROWS x y)
        as [->|(r & -> & Hr)]; [done|apply list_elem_of_here|].
      unfold CameraDetection4x6.GRID_ROWS in Hr.
      assert (r = 0 ∨ r = 1 ∨ r = 2 ∨ r = 3 ∨ r = 4 ∨ r = 5)
        as [-> | [-> | [-> | [-> | [-> | ->]]]]] by lia; simpl;
        repeat first [apply list_elem_of_here | apply list_elem_of_further].
Qed.

(** ** The classifier's stances in the renderer *)

(** X19.  Every stance the classifier can assign is a stance of the
    renderer.  For each of the stance strings of [detectStance] (the three
    versions assign no other), [BoxingGame.setStance] accepts it whatever
    the current stance, so that [getStance] then returns it; [drawBoxer]
    draws the table's own entry for it, not the idle fallback and not a
    property inherited from [Object.prototype]; and [getStanceName] is that
    entry's name, never Unknown.  Different stances have different
    entries' names. *)
Theorem detected_stance_is_drawn (s : Stance) (cur : string) :
  let k := stance_key s in
  BoxingGame.getStance (BoxingGame.setStance k cur) = k
  ∧ (∃ d, BoxingGame.assoc k BoxingGame.stances = Some d
          ∧ BoxingGame.drawn k = Some (BoxingGame.Own d)
          ∧ BoxingGame.getStanceName k = BoxingGame.name d
          ∧ BoxingGame.name d ≠ "Unknown")
  ∧ (∀ s', BoxingGame.getStanceName (stance_key s') = BoxingGame.getStanceName k
           -> s' = s).
Proof.
  cbv zeta. split; [by destruct s|]. split.
  - destruct s; eexists; (split; [reflexivity|]); repeat split; done.
  - intros s'. destruct s, s'; (reflexivity || (vm_compute; discriminate)).
Qed.

(** ** Frames the camera module processes *)

Section onResults_lemmas.

Lemma draw_connections_spec landmarks cs :
  draw_connections landmarks cs
  = if forallb (fun c => (c.1 <? length landmarks)%nat
                         && (c.2 <? length landmarks)%nat) cs
    then Ok tt else TypeError.
Proof.
  induction cs as [|[i j] cs IH]; simpl; [done|].
  destruct (Nat.ltb_spec i (length landmarks)) as [Hi|Hi]; simpl.
  - destruct (at_index_lt landmarks i Hi) as [a ->]. simpl.
    destruct (Nat.ltb_spec j (length landmarks)) as [Hj|Hj]; simpl.
    + destruct (at_index_lt landmarks j Hj) as [b ->]. simpl. exact IH.
    + by rewrite (at_index_ge landmarks j Hj).
  - by rewrite (at_index_ge landmarks i Hi).
Qed.

Lemma drawHandLandmarks_spec landmarks :
  drawHandLandmarks landmarks
  = if (21 <=? length landmarks)%nat then Ok tt else TypeError.
Proof.
  unfold drawHandLandmarks. rewrite draw_connections_spec.
  unfold connections. cbn [forallb fst snd].
  destruct (Nat.leb_spec 21 (length landmarks)) as [H|H].
  - repeat match goal with
           | |- context [(?i <? length landmarks)%nat] =>
               destruct (Nat.ltb_spec i (length landmarks)); [|lia]
           end. done.
  - destruct (Nat.ltb_spec 20 (length landmarks)); [lia|].
    by rewrite !andb_false_r.
Qed.

Lemma handPosition_spec landmarks :
  (∃ p, handPosition landmarks = Ok p) <-> (10 <= length landmarks)%nat.
Proof.
  unfold handPosition. split.
  - intros [p Hp].
    destruct (Nat.le_gt_cases 10 (length landmarks)) as [|Hlt]; [done|].
    destruct (at_index landmarks 0); simpl in Hp; [|done].
    rewrite (at_index_ge landmarks 9) in Hp by lia. done.
  - intros Hlen.
    destruct (at_index_lt landmarks 0) as [a ->]; [lia|].
    destruct (at_index_lt landmarks 9) as [b ->]; [lia|].
    by eexists.
Qed.

Lemma last_cons_default {A : Type} (x : A) (l : list A) :
  last (x :: l) = Some (default x (last l)).
Proof.
  revert x. induction l as [|y l IH]; intros x; [done|].
  change (last (x :: y :: l)) with (last (y :: l)). rewrite IH.
  by destruct (last l).
Qed.

Lemma cell_at_last overlay rows (P : Hand -> Prop) `{∀ x, Decision (P x)}
    hands h1 :
  Forall (fun hand =>
            (landmarks_needed overlay <= length (landmarks_of hand))%nat)
    hands ->
  last (filter P hands) = Some h1 ->
  ∃ c, cell_at rows h1 = Some c.
Proof.
  intros Hall Hlast.
  assert (Hin : h1 ∈ hands).
  { apply last_Some_elem_of in Hlast.
    by apply list_elem_of_filter in Hlast as [_ Hin]. }
  rewrite Forall_forall in Hall. specialize (Hall h1 Hin).
  assert (H10 : (10 <= length (landmarks_of h1))%nat)
    by (destruct overlay; simpl in Hall; lia).
  destruct (proj2 (handPosition_spec _) H10) as [p Hp].
  unfold cell_at. rewrite Hp. by eexists.
Qed.

(** The loop on a frame all of whose hands have the landmarks needed: each
    cell is that of the last hand of its side, or what it was. *)
Lemma hands_loop_returns overlay rows hands lg rg :
  Forall (fun hand =>
            (landmarks_needed overlay <= length (landmarks_of hand))%nat)
    hands ->
  hands_loop overlay rows hands lg rg
  = (match last_cell rows true hands with Some c => Some c | None => lg end,
     match last_cell rows false hands with Some c => Some c | None => rg end,
     Ok tt).
Proof.
  intros Hall. revert lg rg.
  induction Hall as [|hand rest Hlen Hrest IH]; intros lg rg; [done|].
  cbn [hands_loop].
  assert (H10 : (10 <= length (landmarks_of hand))%nat)
    by (destruct overlay; simpl in Hlen; lia).
  destruct (proj2 (handPosition_spec _) H10) as [p Hp]. rewrite Hp.
  assert (Hdraw : (if overlay then drawHandLandmarks (landmarks_of hand)
                   else Ok tt) = Ok tt).
  { destruct overlay; [|done]. rewrite drawHandLandmarks_spec.
    simpl in Hlen. by destruct (Nat.leb_spec 21 (length (landmarks_of hand)));
      [|lia]. }
  cbv zeta. rewrite Hdraw, IH. unfold last_cell.
  assert (Hcell : cell_at rows hand = Some (gridPos rows p.1 p.2))
    by (unfold cell_at; by rewrite Hp).
  destruct (String.eqb (label hand) "Right") eqn:Hlab.
  - rewrite (filter_cons_True _ hand) by done.
    rewrite (filter_cons_False (fun hand0 => _ = false) hand)
      by (rewrite Hlab; done).
    rewrite last_cons_default.
    destruct (last (filter _ rest)) as [h1|] eqn:Hlast; simpl.
    + by destruct (cell_at_last overlay rows _ rest h1 Hrest Hlast) as [c ->].
    + by rewrite Hcell.
  - rewrite (filter_cons_False (fun hand0 => _ = true) hand)
      by (rewrite Hlab; done).
    rewrite (filter_cons_True _ hand) by done.
    rewrite last_cons_default.
    destruct (last (filter (fun hand0 => _ = false) rest)) as [h1|] eqn:Hlast;
      simpl.
    + by destruct (cell_at_last overlay rows _ rest h1 Hrest Hlast) as [c ->].
    + by rewrite Hcell.
Qed.

Lemma hands_loop_throws overlay rows hands lg rg :
  Exists (fun hand =>
            (length (landmarks_of hand) < landmarks_needed overlay)%nat)
    hands ->
  (hands_loop overlay rows hands lg rg).2 = TypeError.
Proof.
  intros Hex. revert lg rg.
  induction hands as [|hand rest IH]; intros lg rg; [by inversion Hex|].
  cbn [hands_loop].
  destruct (handPosition (landmarks_of hand)) as [p|] eqn:Hp; [|done].
  assert (H10 : (10 <= length (landmarks_of hand))%nat)
    by (apply handPosition_spec; by eexists).
  cbv zeta. destruct overlay.
  - rewrite drawHandLandmarks_spec.
    destruct (Nat.leb_spec 21 (length (landmarks_of hand))) as [H21|H21];
      [|done].
    apply IH. inversion Hex as [? ? Hshort|]; subst; [|done].
    simpl in Hshort. lia.
  - apply IH. inversion Hex as [? ? Hshort|]; subst; [|done].
    simpl in Hshort. lia.
Qed.

Lemma Forall_or_Exists_short (n : nat) (hands : list Hand) :
  Forall (fun hand => (n <= length (landmarks_of hand))%nat) hands
  ∨ Exists (fun hand => (length (landmarks_of hand) < n)%nat) hands.
Proof.
  induction hands as [|hand rest [IH|IH]]; [by left| |].
  - destruct (Nat.le_gt_cases n (length (landmarks_of hand))).
    + left. by constructor.
    + right. by constructor.
  - right. by apply Exists_cons_tl.
Qed.

(** The outcome of the part of [onResults] after the tracker's update. *)
Lemma finish_hands_loop detectStance overlay rows results :
  let out := finish detectStance (hands_loop overlay rows results None None) in
  ((∃ st, out_stance out = Ok st)
   <-> Forall (fun hand =>
                 (landmarks_needed overlay <= length (landmarks_of hand))%nat)
         results)
  ∧ ∀ st, out_stance out = Ok st ->
          out_left out = last_cell rows true results
          ∧ out_right out = last_cell rows false results
          ∧ st = detectStance (out_left out) (out_right out).
Proof.
  cbv zeta.
  destruct (Forall_or_Exists_short (landmarks_needed overlay) results)
    as [Hall|Hex].
  - rewrite (hands_loop_returns overlay rows results None None Hall).
    unfold finish. cbn [out_stance out_left out_right].
    split; [split; [done|by eexists]|].
    intros st [= <-].
    by destruct (last_cell rows true results),
      (last_cell rows false results).
  - pose proof (hands_loop_throws overlay rows results None None Hex) as Hthrow.
    destruct (hands_loop overlay rows results None None) as [[lg rg] r].
    simpl in Hthrow. subst r. unfold finish.
    cbn [out_stance out_left out_right].
    split; [|done]. split; [by intros [st [=]]|].
    intros Hall. exfalso.
    apply Exists_exists in Hex as (hand & Hin & Hshort).
    rewrite Forall_forall in Hall. specialize (Hall hand Hin). lia.
Qed.

End onResults_lemmas.

(** X21.  [onResults] of [camera.js] gets to [detectStance] exactly on the
    frames all of whose hands have the landmarks it reads: the first ten
    (wrist 0 and middle knuckle 9) without the overlay canvas, all 21 with
    it, as [drawHandLandmarks] draws the whole skeleton; on any other frame
    it throws a [TypeError] before the stance is detected.  When it gets
    there, each cell is that of the last hand of its side in the frame (the
    player's left hand being the one labelled Right), and the stance is
    [detectStance] of the two cells. *)
Theorem camera_frame_outcome (overlay : bool) (results : Results) :
  let out := CameraFrame.onResults overlay results in
  ((∃ st, out_stance out = Ok st)
   <-> Forall (fun hand =>
                 (landmarks_needed overlay <= length (landmarks_of hand))%nat)
         results)
  ∧ ∀ st, out_stance out = Ok st ->
          out_left out = last_cell CameraDetection.GRID_ROWS true results
          ∧ out_right out = last_cell CameraDetection.GRID_ROWS false results
          ∧ st = CameraDetection.detectStance (out_left out) (out_right out).
Proof. apply finish_hands_loop. Qed.

Section onResults_depth_lemmas.

Lemma update_returns_iff results now t :
  (∃ snaps, (update results now t).2 = Ok snaps)
  <-> Forall (fun hand => (21 <= length (landmarks_of hand))%nat) results.
Proof.
  unfold update. split.
  - intros [snaps Hs].
    destruct (process_hands results now t false false)
      as [[t1 ev1] [flags|]] eqn:Hp; [|done].
    by eapply process_hands_returns_inv.
  - intros Hall.
    destruct (process_hands_returns results now t false false Hall)
      as (t1 & ev1 & ->).
    by eexists.
Qed.

Lemma onResults_depth_outcome rows detectStance overlay results now t :
  let r := onResults_depth rows detectStance overlay results now t in
  r.1 = (update results now t).1
  ∧ r = onResults_depth rows detectStance false results now t
  ∧ ((∃ st, out_stance r.2 = Ok st)
     <-> Forall (fun hand => (21 <= length (landmarks_of hand))%nat) results)
  ∧ ∀ st, out_stance r.2 = Ok st ->
          out_left r.2 = last_cell rows true results
          ∧ out_right r.2 = last_cell rows false results
          ∧ st = detectStance (out_left r.2) (out_right r.2).
Proof.
  cbv zeta. unfold onResults_depth.
  pose proof (update_returns_iff results now t) as Hiff.
  destruct (update results now t) as [[t' events] [snaps|]]; simpl in Hiff.
  - assert (H21 : Forall (fun hand =>
                            (21 <= length (landmarks_of hand))%nat) results)
      by (apply Hiff; by eexists).
    assert (Hany : ∀ o, Forall (fun hand =>
                     (landmarks_needed o <= length (landmarks_of hand))%nat)
                     results).
    { intros o. eapply Forall_impl; [exact H21|]. intros hand Hh.
      destruct o; simpl in *; lia. }
    rewrite !(hands_loop_returns _ rows results None None (Hany _)).
    unfold finish. cbn [fst snd out_stance out_left out_right].
    split; [done|]. split; [done|]. split; [split; [done|by eexists]|].
    intros st [= <-].
    by destruct (last_cell rows true results),
      (last_cell rows false results).
  - cbn [fst snd out_stance]. split; [done|]. split; [done|].
    split; [|done]. split; [by intros [st [=]]|].
    intros Hall. apply Hiff in Hall as [snaps [=]].
Qed.

End onResults_depth_lemmas.

(** X22.  In the 4x4 and 4x6 versions, where [onResults] first updates the
    depth tracker, a frame gets to [detectStance] exactly when all its hands
    have 21 landmarks, with or without the overlay canvas: the call leaves
    the tracker and raises the punch events as [DepthSensor.update] does,
    throws when [update] throws, and otherwise nothing after the update can
    throw, so that the overlay never changes the outcome.  When the stance
    is detected, each cell is that of the last hand of its side and the
    stance is [detectStance] of the two cells. *)
Theorem depth_frame_outcome (overlay : bool) (results : Results) (now : Z)
    (t : Tracker) :
  let r4 := CameraFrame4x4.onResults overlay results now t in
  let r6 := CameraFrame4x6.onResults overlay results now t in
  (r4.1 = (update results now t).1
   ∧ r4 = CameraFrame4x4.onResults false results now t
   ∧ ((∃ st, out_stance r4.2 = Ok st)
      <-> Forall (fun hand => (21 <= length (landmarks_of hand))%nat) results)
   ∧ ∀ st, out_stance r4.2 = Ok st ->
           out_left r4.2 = last_cell CameraDetection4x4.GRID_ROWS true results
           ∧ out_right r4.2
             = last_cell CameraDetection4x4.GRID_ROWS false results
           ∧ st = CameraDetection4x4.detectStance
                    (out_left r4.2) (out_right r4.2))
  ∧ (r6.1 = (update results now t).1
     ∧ r6 = CameraFrame4x6.onResults false results now t
     ∧ ((∃ st, out_stance r6.2 = Ok st)
        <-> Forall (fun hand => (21 <= length (landmarks_of hand))%nat)
              results)
     ∧ ∀ st, out_stance r6.2 = Ok st ->
             out_left r6.2
             = last_cell CameraDetection4x6.GRID_ROWS true results
             ∧ out_right r6.2
               = last_cell CameraDetection4x6.GRID_ROWS false results
             ∧ st = CameraDetection4x6.detectStance
                      (out_left r6.2) (out_right r6.2)).
Proof.
  cbv zeta. split; apply onResults_depth_outcome.
Qed.

(** Without the overlay canvas the stance of [CameraFrame.onResults] is
    that of the loop without the drawing. *)
Lemma hands_loop_without_overlay rows hands lg rg :
  (hands_loop false rows hands lg rg).2
  = match handGrids rows hands lg rg with
    | Ok _ => Ok tt
    | TypeError => TypeError
    end
  ∧ ∀ g, handGrids rows hands lg rg = Ok g ->
         (hands_loop false rows hands lg rg).1 = g.
Proof.
  revert lg rg. induction hands as [|hand rest IH]; intros lg rg.
  { split; [done|]. by intros g [= <-]. }
  cbn [hands_loop handGrids].
  destruct (handPosition (landmarks_of hand)) as [p|]; [|done].
  simpl. destruct (String.eqb (label hand) "Right"); apply IH.
Qed.

Lemma onResults_without_overlay results :
  out_stance (CameraFrame.onResults false results)
  = CameraDetection.onResults results.
Proof.
  unfold CameraFrame.onResults, CameraDetection.onResults, finish.
  destruct (hands_loop_without_overlay CameraDetection.GRID_ROWS results
              None None) as [Hr Hg].
  destruct (hands_loop false _ results None None) as [[lg rg] r].
  simpl in Hr. subst r.
  destruct (handGrids _ results None None) as [g|]; [|done].
  specialize (Hg g eq_refl). simpl in Hg. subst g. done.
Qed.

(** A left hand of 21 landmarks at mid height, seen with the overlay: a
    left hook. *)
Example left_hand_frame_is_left_hook :
  CameraFrame.onResults true (left_hand 0)
  = {| out_left := Some (mkGridPos (Int 1) 0); out_right := None;
       out_stance := Ok hookLeft |}.
Proof. vm_compute. reflexivity. Qed.
